(** * Edge finder: consensus, edge evaluation and ranking

    A shallow embedding of the algorithmic core of [scripts/edge_finder.py]
    (class [EdgeFinder]) and of the edge finder of [scripts/dratings.py]
    (class [DRatingsAnalyzer]).

    Numbers.  Python [int] is [Z].  In the edge finders, the consensus
    and the stake sizing, Python [float] is modelled by exact rational
    arithmetic ([Q]): every operation returns the exact quotient, product
    or sum; the comparisons [<=], [>], [==] on floats are the decidable
    comparisons of [Q], and truthiness of a number is "different from
    zero".  The statements over [Q] are those that binary64 rounding
    changes by a rounding error only.  Where rounding decides the outcome
    (a strict bound on a quotient, the integer that [int] returns, a fault
    instead of a value) the two odds conversions are evaluated on binary64
    floats, in module [Binary64]: the statements on the range of the
    implied probability and on the round trip are about that module.

    Faults.  A Python exception is a value [Raise e] of the result type
    [res]; a division whose divisor is zero raises [ZeroDivisionError], a
    subscript on a missing key raises [KeyError], [int] of an infinite
    float raises [OverflowError].

    Dictionaries.  The JSON objects exchanged between the scripts are
    records with optional fields; dictionaries whose iteration order is
    observable are association lists in insertion order. *)

From Stdlib Require Import ZArith QArith Qabs Lia Lqa Bool List.
From Stdlib Require Import Ascii String.
From Stdlib Require Import Sorted Permutation.
From Stdlib Require Import PrimFloat SpecFloat FloatOps Uint63.
Import ListNotations.

Local Open Scope Q_scope.

(** ** Faults and the result monad *)

Inductive exn : Type :=
| ZeroDivisionError
| KeyError
| ValueError
| OverflowError.

Inductive res (A : Type) : Type :=
| Ok (a : A)
| Raise (e : exn).

Arguments Ok {A} a.
Arguments Raise {A} e.

Definition bind {A B : Type} (m : res A) (k : A -> res B) : res B :=
  match m with
  | Ok a => k a
  | Raise e => Raise e
  end.

Notation "x <- m ;; k" := (bind m (fun x => k))
  (at level 61, m at next level, right associativity).

Fixpoint mapM {A B : Type} (f : A -> res B) (l : list A) : res (list B) :=
  match l with
  | [] => Ok []
  | a :: l' => b <- f a ;; bs <- mapM f l' ;; Ok (b :: bs)
  end.

(** ** Python numbers *)

(** [a < b] on floats. *)
Definition Qltb (a b : Q) : bool := negb (Qle_bool b a).

(** Truthiness of a number: [bool(x)] is [x != 0]. *)
Definition truthyQ (q : Q) : bool := negb (Qeq_bool q 0).
Definition truthyZ (z : Z) : bool := negb (Z.eqb z 0).

(** True division [a / b]. *)
Definition fdiv (a b : Q) : res Q :=
  if Qeq_bool b 0 then Raise ZeroDivisionError else Ok (a / b).

(** [min(a, b)] and [max(a, b)] with two arguments: the first argument is
    kept unless the second is strictly smaller (resp. larger). *)
Definition py_min (a b : Q) : Q := if Qltb b a then b else a.
Definition py_max (a b : Q) : Q := if Qltb a b then b else a.

(** [max(iterable)]: the first maximal element; [ValueError] on an empty
    iterable. *)
Definition py_max_list (l : list Q) : res Q :=
  match l with
  | [] => Raise ValueError
  | x :: l' => Ok (fold_left py_max l' x)
  end.

Definition Zq (z : Z) : Q := inject_Z z.


(** ** Python strings

    A string is a sequence of code points below 256. *)

Local Open Scope string_scope.

(** [str.isspace] on one code point: TAB..CR, FS..US, space, NEL, NBSP. *)
Definition is_space (c : ascii) : bool :=
  let n := nat_of_ascii c in
  ((9 <=? n) && (n <=? 13) || (28 <=? n) && (n <=? 32)
   || (n =? 133) || (n =? 160))%nat.

Fixpoint lstrip (s : string) : string :=
  match s with
  | EmptyString => EmptyString
  | String c s' => if is_space c then lstrip s' else s
  end.

Fixpoint rstrip (s : string) : string :=
  match s with
  | EmptyString => EmptyString
  | String c s' =>
      match rstrip s' with
      | EmptyString => if is_space c then EmptyString else String c EmptyString
      | r => String c r
      end
  end.

(** [s.strip()]. *)
Definition py_strip (s : string) : string := rstrip (lstrip s).

(** [s.replace(old, new)] for a non-empty [old]: the occurrences of [old]
    are found from left to right and do not overlap.  [skip] counts the
    characters of a matched occurrence that are still to be dropped. *)
Fixpoint replace_from (skip : nat) (old new s : string) : string :=
  match s with
  | EmptyString => EmptyString
  | String c s' =>
      match skip with
      | S k => replace_from k old new s'
      | O =>
          if prefix old s
          then new ++ replace_from (String.length old - 1) old new s'
          else String c (replace_from 0 old new s')
      end
  end.

Definition py_replace (old new s : string) : string := replace_from 0 old new s.

(** [s.lower()] on the letters A..Z. *)
Definition lower_char (c : ascii) : ascii :=
  let n := nat_of_ascii c in
  if ((65 <=? n) && (n <=? 90))%nat then ascii_of_nat (n + 32) else c.

Fixpoint py_lower (s : string) : string :=
  match s with
  | EmptyString => EmptyString
  | String c s' => String (lower_char c) (py_lower s')
  end.

(** [needle in s]: substring test. *)
Fixpoint contains (needle s : string) : bool :=
  prefix needle s ||
  match s with
  | EmptyString => false
  | String _ s' => contains needle s'
  end.

(** ** Python dictionaries with string keys, in insertion order *)

Definition dict (V : Type) : Type := list (string * V).

Fixpoint dict_get {V : Type} (d : dict V) (k : string) : option V :=
  match d with
  | [] => None
  | (k', v) :: d' => if String.eqb k' k then Some v else dict_get d' k
  end.

(** [d[k] = v]: an existing key keeps its position. *)
Fixpoint dict_set {V : Type} (d : dict V) (k : string) (v : V) : dict V :=
  match d with
  | [] => [(k, v)]
  | (k', v') :: d' =>
      if String.eqb k' k then (k', v) :: d' else (k', v') :: dict_set d' k v
  end.

(** A value stored under an optional key of a JSON object: the key is
    absent, or it holds [None], or it holds a value. *)
Inductive pyval (A : Type) : Type :=
| Absent
| PyNone
| Val (a : A).

Arguments Absent {A}.
Arguments PyNone {A}.
Arguments Val {A} a.

(** [k in d and d[k]] for a numeric entry: present and truthy. *)
Definition truthy_float (v : pyval Q) : option Q :=
  match v with
  | Val q => if truthyQ q then Some q else None
  | _ => None
  end.

Definition truthy_int (v : pyval Z) : option Z :=
  match v with
  | Val z => if truthyZ z then Some z else None
  | _ => None
  end.

(** ** [list.sort(key=..., reverse=True)]

    A stable sort into descending key order: [x], which stood before all of
    [l], goes in front of the first element whose key is not strictly
    greater. *)
Section Sort.
Context {A K : Type} (key : A -> K) (lt : K -> K -> bool).

Fixpoint insert_desc (x : A) (l : list A) : list A :=
  match l with
  | [] => [x]
  | y :: l' =>
      if lt (key x) (key y) then y :: insert_desc x l' else x :: y :: l'
  end.

Fixpoint sort_desc (l : list A) : list A :=
  match l with
  | [] => []
  | x :: l' => insert_desc x (sort_desc l')
  end.
End Sort.

(** Tuple comparison [(a1, n1) < (a2, n2)]. *)
Definition pair_lt (a b : Q * nat) : bool :=
  Qltb (fst a) (fst b) || (Qeq_bool (fst a) (fst b) && (snd a <? snd b)%nat).

(** ** The records exchanged between the scripts *)

(** The ['predictions'] object of a game record. *)
Record pred_data : Type := {
  model_win_prob_away : pyval Q;
  model_win_prob_home : pyval Q;
  predicted_spread : pyval Q;
  predicted_total : pyval Q
}.

(** The ['market_data'] object of a game record. *)
Record market_data : Type := {
  market_spread : pyval Q;
  market_total : pyval Q;
  away_ml_odds : pyval Z;
  home_ml_odds : pyval Z
}.

(** One record of one source: every key is optional. *)
Record raw_game : Type := {
  raw_date : option string;
  raw_away_team : option string;
  raw_home_team : option string;
  raw_predictions : option pred_data;
  raw_market_data : option market_data
}.

(** What [run_script] hands back: [{}] after a failure, a timeout or
    unreadable output, else the decoded list of records. *)
Inductive fetched : Type :=
| NoData
| Games (gs : list raw_game).

Definition truthy_fetched (f : fetched) : bool :=
  match f with
  | NoData => false
  | Games gs => negb (Nat.eqb (List.length gs) 0)
  end.

(** Iteration over the fetched value. *)
Definition records (f : fetched) : list raw_game :=
  match f with
  | NoData => []
  | Games gs => gs
  end.

(** ** [scripts/edge_finder.py], class [EdgeFinder] *)

Module EdgeFinder.

Definition available_sources : list string :=
  ["barttorvik"; "dratings"; "kenpom"; "haslametrics"; "massey"].

(** [odds_to_probability(self, odds)]. *)
Definition odds_to_probability (odds : Z) : res Q :=
  if (0 <? odds)%Z
  then fdiv 100 (Zq (odds + 100))
  else fdiv (Zq (Z.abs odds)) (Zq (Z.abs odds + 100)).

(** [calculate_edge(self, model_prob, market_prob)]. *)
Definition calculate_edge (model_prob market_prob : Q) : res Q :=
  if Qle_bool market_prob 0 then Ok 0
  else q <- fdiv (model_prob - market_prob) market_prob ;; Ok (q * 100).

(** [kelly_criterion(self, edge_prob, market_prob, bankroll=1000)]. *)
Definition kelly_criterion (edge_prob market_prob bankroll : Q) : res Q :=
  if Qle_bool market_prob 0 || Qle_bool edge_prob 0 then Ok 0
  else
    inv <- fdiv 1 market_prob ;;
    let odds := inv - 1 in
    let edge := edge_prob - market_prob in
    if Qle_bool edge 0 then Ok 0
    else
      kelly_fraction <- fdiv edge odds ;;
      let optimal_bet := bankroll * kelly_fraction in
      Ok (py_min optimal_bet (bankroll * (5 # 100))).

Definition default_bankroll : Q := 1000.

(** The table inside [normalize_team_names]. *)
Definition name_mapping : dict string :=
  [("UNC", "North Carolina");
   ("Duke", "Duke");
   ("UCLA", "UCLA");
   ("UConn", "Connecticut");
   ("ASU", "Arizona State")].

(** [normalize_team_names(self, team_name)]. *)
Definition normalize_team_names (team_name : string) : string :=
  let name := py_strip team_name in
  let name := py_replace "University of " "" name in
  let name := py_replace " University" "" name in
  let name := py_replace " State" " St" name in
  let name := py_replace "College" "" name in
  match dict_get name_mapping name with
  | Some canonical => canonical
  | None => name
  end.

(** [is_same_game(self, game, target_away, target_home)]. *)
Definition is_same_game (game : raw_game) (target_away target_home : string)
  : bool :=
  match raw_away_team game, raw_home_team game with
  | Some a, Some h =>
      String.eqb (normalize_team_names a) target_away
      && String.eqb (normalize_team_names h) target_home
  | _, _ => false
  end.

(** A matched game, as built by [match_games_across_sources]; the
    ['consensus'] entry is created empty and never written again. *)
Record matched_game : Type := {
  mg_away_team : string;
  mg_home_team : string;
  mg_date : string;
  mg_predictions : dict raw_game;
  mg_consensus : dict Q
}.

(** The anchor: the first of dratings, cbbpy, barttorvik that is a key of
    [predictions] with a non-empty value. *)
Definition base_priority : list string := ["dratings"; "cbbpy"; "barttorvik"].

Definition has_data (predictions : dict fetched) (source : string) : bool :=
  match dict_get predictions source with
  | Some f => truthy_fetched f
  | None => false
  end.

Definition choose_base (predictions : dict fetched) : option string :=
  List.find (has_data predictions) base_priority.

(** The inner loops of the matcher: every other source contributes its
    first record for the same pair of teams. *)
Definition attach_source (base_source away_team home_team : string)
    (matched : dict raw_game) (entry : string * fetched) : dict raw_game :=
  let (source, games) := entry in
  if String.eqb source base_source then matched
  else
    match List.find (fun game => is_same_game game away_team home_team)
                    (records games) with
    | Some game => dict_set matched source game
    | None => matched
    end.

Definition match_base_game (predictions : dict fetched) (base_source : string)
    (base_game : raw_game) : option matched_game :=
  match raw_away_team base_game, raw_home_team base_game with
  | Some a, Some h =>
      let away_team := normalize_team_names a in
      let home_team := normalize_team_names h in
      Some {| mg_away_team := away_team;
              mg_home_team := home_team;
              mg_date := match raw_date base_game with
                         | Some d => d
                         | None => ""
                         end;
              mg_predictions :=
                fold_left (attach_source base_source away_team home_team)
                          predictions [(base_source, base_game)];
              mg_consensus := [] |}
  | _, _ => None
  end.

Fixpoint filter_map {A B : Type} (f : A -> option B) (l : list A) : list B :=
  match l with
  | [] => []
  | a :: l' =>
      match f a with
      | Some b => b :: filter_map f l'
      | None => filter_map f l'
      end
  end.

(** [match_games_across_sources(self, predictions)]. *)
Definition match_games_across_sources (predictions : dict fetched)
  : list matched_game :=
  match choose_base predictions with
  | None => []
  | Some base_source =>
      match dict_get predictions base_source with
      | Some base_games =>
          filter_map (match_base_game predictions base_source)
                     (records base_games)
      | None => []
      end
  end.

(** The four metrics of a consensus. *)
Inductive metric : Type := away_win_prob | home_win_prob | spread | total.

Definition metric_field (m : metric) : pred_data -> pyval Q :=
  match m with
  | away_win_prob => model_win_prob_away
  | home_win_prob => model_win_prob_home
  | spread => predicted_spread
  | total => predicted_total
  end.

(** The [avg_], [std_] and [count_] entries of one metric; the three keys
    are always written together. *)
Record stat : Type := {
  avg : Q;
  std : Q;
  count : nat
}.

Definition consensus : Type := metric -> option stat.

Definition Qsum (l : list Q) : Q := fold_left Qplus l 0.

(** [np.mean(values)] for a non-empty list. *)
Definition np_mean (values : list Q) : Q :=
  Qsum values / Zq (Z.of_nat (List.length values)).

Section WithSqrt.
(** The square root of the numeric library. *)
Variable np_sqrt : Q -> Q.

(** [np.std(values)]: the root of the mean squared deviation from the
    mean (no Bessel correction). *)
Definition np_std (values : list Q) : Q :=
  let m := np_mean values in
  np_sqrt (np_mean (List.map (fun x => (x - m) * (x - m)) values)).

(** The values that one record appends to the list of metric [m]. *)
Definition collected_from (m : metric) (prediction : raw_game) : list Q :=
  match raw_predictions prediction with
  | Some data =>
      match truthy_float (metric_field m data) with
      | Some q => [q]
      | None => []
      end
  | None => []
  end.

Definition collected (m : metric) (g : matched_game) : list Q :=
  flat_map (fun entry => collected_from m (snd entry)) (mg_predictions g).

Definition summarize (values : list Q) : option stat :=
  match values with
  | [] => None
  | _ :: _ =>
      Some {| avg := np_mean values;
              std := if (1 <? List.length values)%nat
                     then np_std values else 0;
              count := List.length values |}
  end.

(** [calculate_consensus_prediction(self, matched_game)]. *)
Definition calculate_consensus_prediction (g : matched_game) : consensus :=
  fun m => summarize (collected m g).

(** [calculate_confidence(self, consensus, metric_type)]. *)
Definition calculate_confidence (c : consensus) (m : metric) : res Q :=
  let source_count := match c m with Some s => count s | None => O end in
  let std_dev := match c m with Some s => std s | None => 0 end in
  if Nat.eqb source_count 0 then Ok 0
  else
    ratio <- fdiv (Zq (Z.of_nat source_count)) 3 ;;
    let source_score := py_min ratio 1 in
    let agreement_score := py_max 0 (1 - std_dev * 4) in
    Ok ((source_score * (6 # 10) + agreement_score * (4 # 10)) * 100).

Record edge : Type := {
  e_type : string;
  e_team : string;
  e_side : string;
  e_model_prob : Q;
  e_market_prob : Q;
  e_edge_percent : Q;
  e_kelly_bet_amount : Q;
  e_confidence : Q;
  e_recommended : bool
}.

(** The odds written into [identify_game_edges]. *)
Definition placeholder_away_ml_odds : Z := 110.
Definition placeholder_home_ml_odds : Z := -110.
Definition placeholder_spread : Q := 25 # 10.
Definition placeholder_total : Q := 145.

(** One moneyline block of [identify_game_edges]. *)
Definition moneyline_edges (c : consensus) (m : metric) (odds : Z)
    (team side : string) (min_edge : Q) : res (list edge) :=
  match c m with
  | None => Ok []
  | Some s =>
      let model_prob := avg s in
      market_prob <- odds_to_probability odds ;;
      e <- calculate_edge model_prob market_prob ;;
      if Qle_bool min_edge (Qabs e)
      then
        kelly_bet <- kelly_criterion model_prob market_prob default_bankroll ;;
        confidence <- calculate_confidence c m ;;
        Ok [ {| e_type := "moneyline";
                e_team := team;
                e_side := side;
                e_model_prob := model_prob;
                e_market_prob := market_prob;
                e_edge_percent := e;
                e_kelly_bet_amount := kelly_bet;
                e_confidence := confidence;
                e_recommended := Qltb 0 e |} ]
      else Ok []
  end.

(** [identify_game_edges(self, game, consensus, min_edge)]: the away
    block, then the home block; nothing is done for spreads and totals. *)
Definition identify_game_edges (g : matched_game) (c : consensus)
    (min_edge : Q) : res (list edge) :=
  away <- moneyline_edges c away_win_prob placeholder_away_ml_odds
                          (mg_away_team g) "away" min_edge ;;
  home <- moneyline_edges c home_win_prob placeholder_home_ml_odds
                          (mg_home_team g) "home" min_edge ;;
  Ok (away ++ home)%list.

(** One entry of the result of [find_edges]. *)
Record report : Type := {
  r_game : string;
  r_date : string;
  r_consensus : consensus;
  r_edges : list edge;
  max_edge : Q;
  sources_count : nat
}.

(** The body of the loop over the matched games. *)
Definition report_of (min_edge : Q) (g : matched_game)
  : res (option report) :=
  let c := calculate_consensus_prediction g in
  game_edges <- identify_game_edges g c min_edge ;;
  match game_edges with
  | [] => Ok None
  | _ :: _ =>
      m <- py_max_list (List.map e_edge_percent game_edges) ;;
      Ok (Some {| r_game := mg_away_team g ++ " @ " ++ mg_home_team g;
                  r_date := mg_date g;
                  r_consensus := c;
                  r_edges := game_edges;
                  max_edge := m;
                  sources_count := List.length (mg_predictions g) |})
  end.

Definition sort_key (r : report) : Q * nat := (max_edge r, sources_count r).

Fixpoint somes {A : Type} (l : list (option A)) : list A :=
  match l with
  | [] => []
  | Some a :: l' => a :: somes l'
  | None :: l' => somes l'
  end.

(** [find_edges] from the matched games on: the loop, then the sort. *)
Definition rank_games (matched_games : list matched_game) (min_edge : Q)
  : res (list report) :=
  rs <- mapM (report_of min_edge) matched_games ;;
  Ok (sort_desc sort_key pair_lt (somes rs)).

(** The clock and the other scripts. *)
Variable today : string.
Variable tomorrow : string.
Variable run_script : string -> list string -> fetched.

(** [parse_date(self, date_str)]. *)
Definition parse_date (date_str : string) : string :=
  if String.eqb (py_lower date_str) "today" then today
  else if String.eqb (py_lower date_str) "tomorrow" then tomorrow
  else date_str.

(** One turn of the loop of [get_multi_source_predictions]. *)
Definition fetch_source (date : string) (predictions : dict fetched)
    (source : string) : dict fetched :=
  if String.eqb source "barttorvik"
  then dict_set predictions source
                (run_script "barttorvik" ["rankings"; "--top"; "50"])
  else if String.eqb source "dratings"
  then dict_set predictions source
                (run_script "dratings" ["predictions"; "--date"; date])
  else if String.eqb source "cbbpy"
  then dict_set predictions source
                (run_script "cbbpy_tools" ["games-today"; "--date"; date])
  else dict_set predictions source (Games []).

(** [get_multi_source_predictions(self, date, sources)]. *)
Definition get_multi_source_predictions (date : string)
    (sources : list string) : dict fetched :=
  fold_left (fetch_source date) sources [].

(** The [try] block of [find_edges]. *)
Definition find_edges_body (date : option string)
    (sources : option (list string)) (min_edge : Q) : res (list report) :=
  let date := match date with
              | None => today
              | Some d => parse_date d
              end in
  let sources := match sources with
                 | None => ["dratings"; "cbbpy"]
                 | Some l =>
                     if existsb (String.eqb "all") l
                     then available_sources else l
                 end in
  let predictions := get_multi_source_predictions date sources in
  let matched_games := match_games_across_sources predictions in
  rank_games matched_games min_edge.

(** [find_edges(self, date=None, sources=None, min_edge=2.0)]: any
    exception of the body is logged and turned into the empty list. *)
Definition find_edges (date : option string)
    (sources : option (list string)) (min_edge : Q) : list report :=
  match find_edges_body date sources min_edge with
  | Ok edges => edges
  | Raise _ => []
  end.

(** [scan_today(self, sources=None, min_edge=2.0)]. *)
Definition scan_today (sources : option (list string)) (min_edge : Q)
  : list report :=
  find_edges (Some "today") sources min_edge.

(** One entry of ['daily_results'] and the dictionary that [backtest]
    returns. *)
Record daily_result : Type := {
  dr_date : string;
  dr_edges_found : nat;
  dr_max_edge : Q
}.

Record backtest_result : Type := {
  bt_period : string;
  total_edges_found : nat;
  profitable_edges : nat;
  total_roi : Q;
  daily_results : list daily_result
}.

(** The calendar of the date library.  A date is the number of its day;
    [strptime] fails on a string that is not a date; adding one day to
    [last_day] overflows. *)
Variable strptime : string -> option Z.
Variable strftime : Z -> string.
Variable last_day : Z.

(** [max(iterable, default=0)]. *)
Definition py_max_default (l : list Q) (default : Q) : Q :=
  match l with
  | [] => default
  | x :: l' => fold_left py_max l' x
  end.

(** The body of the loop of [backtest] for the day [current], up to the
    step to the next day. *)
Definition backtest_day (sources : option (list string))
    (results : backtest_result) (current : Z) : backtest_result :=
  let date_str := strftime current in
  let daily_edges := find_edges (Some date_str) sources 2 in
  let daily := {| dr_date := date_str;
                  dr_edges_found := List.length daily_edges;
                  dr_max_edge :=
                    py_max_default (List.map max_edge daily_edges) 0 |} in
  {| bt_period := bt_period results;
     total_edges_found :=
       (total_edges_found results + List.length daily_edges)%nat;
     profitable_edges := profitable_edges results;
     total_roi := total_roi results;
     daily_results := (daily_results results ++ [daily])%list |}.

(** [while current <= end]: [days_left] is the number of days from
    [current] to the end date, both included.  [None] is the overflow of
    the step past [last_day]. *)
Fixpoint backtest_loop (sources : option (list string)) (days_left : nat)
    (current : Z) (results : backtest_result) : option backtest_result :=
  match days_left with
  | O => Some results
  | S days_left' =>
      let results := backtest_day sources results current in
      if (current =? last_day)%Z then None
      else backtest_loop sources days_left' (current + 1)%Z results
  end.

(** [backtest(self, start_date, end_date=None, sources=None)]: [None] is
    the empty dictionary returned after an exception. *)
Definition backtest (start_date : string) (end_date : option string)
    (sources : option (list string)) : option backtest_result :=
  let end_date := match end_date with
                  | None => today
                  | Some d => d
                  end in
  match strptime start_date with
  | None => None
  | Some start =>
      match strptime end_date with
      | None => None
      | Some end_ =>
          backtest_loop sources (Z.to_nat (end_ - start + 1)) start
            {| bt_period := start_date ++ " to " ++ end_date;
               total_edges_found := 0;
               profitable_edges := 0;
               total_roi := 0;
               daily_results := [] |}
      end
  end.

End WithSqrt.

End EdgeFinder.

(** ** [scripts/dratings.py], class [DRatingsAnalyzer] *)

Module DRatings.

(** [odds_to_probability(self, odds)]. *)
Definition odds_to_probability (odds : Z) : res Q :=
  if (0 <? odds)%Z
  then fdiv 100 (Zq (odds + 100))
  else fdiv (Zq (Z.abs odds)) (Zq (Z.abs odds + 100)).

(** [calculate_edge(self, model_prob, market_prob)]: the guard is an
    equality test in this class. *)
Definition calculate_edge (model_prob market_prob : Q) : res Q :=
  if Qeq_bool market_prob 0 then Ok 0
  else q <- fdiv (model_prob - market_prob) market_prob ;; Ok (q * 100).

(** [d[k]] on an optional key. *)
Definition subscript {A : Type} (o : option A) : res A :=
  match o with
  | Some a => Ok a
  | None => Raise KeyError
  end.

Record edge : Type := {
  e_type : string;
  e_team : string;
  e_side : string;
  e_model_prob : Q;
  e_market_prob : Q;
  e_edge_percent : Q;
  e_recommended_bet : string
}.

Record report : Type := {
  r_game : string;
  r_date : string;
  r_edges : list edge;
  max_edge : Q
}.

(** One moneyline block of [find_edges]: both the model probability and
    the odds of the record must be present and truthy. *)
Definition moneyline_edges (model_prob : pyval Q) (ml_odds : pyval Z)
    (team : option string) (side : string) (min_edge : Q) : res (list edge) :=
  match truthy_float model_prob, truthy_int ml_odds with
  | Some p, Some odds =>
      market_prob <- odds_to_probability odds ;;
      e <- calculate_edge p market_prob ;;
      if Qle_bool min_edge (Qabs e)
      then
        t <- subscript team ;;
        Ok [ {| e_type := "moneyline";
                e_team := t;
                e_side := side;
                e_model_prob := p;
                e_market_prob := market_prob;
                e_edge_percent := e;
                e_recommended_bet := if Qltb 0 e then "YES" else "NO" |} ]
      else Ok []
  | _, _ => Ok []
  end.

(** The body of the loop over the games. *)
Definition report_of (min_edge : Q) (game : raw_game) : res (option report) :=
  predictions <- subscript (raw_predictions game) ;;
  market <- subscript (raw_market_data game) ;;
  away <- moneyline_edges (model_win_prob_away predictions)
                          (away_ml_odds market)
                          (raw_away_team game) "away" min_edge ;;
  home <- moneyline_edges (model_win_prob_home predictions)
                          (home_ml_odds market)
                          (raw_home_team game) "home" min_edge ;;
  let game_edges := (away ++ home)%list in
  match game_edges with
  | [] => Ok None
  | _ :: _ =>
      a <- subscript (raw_away_team game) ;;
      h <- subscript (raw_home_team game) ;;
      d <- subscript (raw_date game) ;;
      m <- py_max_list
             (List.map (fun e => Qabs (e_edge_percent e)) game_edges) ;;
      Ok (Some {| r_game := a ++ " @ " ++ h;
                  r_date := d;
                  r_edges := game_edges;
                  max_edge := m |})
  end.

Section WithScraper.
(** [get_predictions(self, date)]: the scraper. *)
Variable get_predictions : option string -> list raw_game.

(** The [try] block of [find_edges]. *)
Definition find_edges_body (date : option string) (min_edge : Q)
  : res (list report) :=
  let predictions := get_predictions date in
  rs <- mapM (report_of min_edge) predictions ;;
  Ok (sort_desc max_edge Qltb (EdgeFinder.somes rs)).

(** [find_edges(self, date=None, min_edge=2.0)]. *)
Definition find_edges (date : option string) (min_edge : Q) : list report :=
  match find_edges_body date min_edge with
  | Ok edges => edges
  | Raise _ => []
  end.
End WithScraper.

End DRatings.

(** ** The odds conversions in binary64

    [odds_to_probability] and [probability_to_odds] have the same text in
    both classes.  This module evaluates them as the interpreter does, on
    IEEE 754 binary64 floats: [int / int] is the correctly rounded quotient
    of the two integers, [-x], [x - y], [x / y], [x * y] and [x > y] are
    the operations of the format, a float division by zero raises
    [ZeroDivisionError], and [int(x)] truncates a finite float and raises
    on an infinity or a NaN. *)

Module Binary64.

(** An integer as an unrounded binary number with exponent 0. *)
Definition exact_int (z : Z) : spec_float :=
  match z with
  | Z0 => S754_zero false
  | Zpos p => S754_finite false p 0
  | Zneg p => S754_finite true p 0
  end.

(** The integers up to 2^53 in magnitude are floats. *)
Definition fits_double (z : Z) : bool := (Z.abs z <=? 9007199254740992)%Z.

(** [float(z)] for such an integer. *)
Definition float_of_int (z : Z) : float :=
  if (z <? 0)%Z
  then PrimFloat.opp (PrimFloat.of_uint63 (Uint63.of_Z (- z)))
  else PrimFloat.of_uint63 (Uint63.of_Z z).

(** [a / b] on two [int]s.  When both are floats the quotient is the
    float division of the two; otherwise it is the exact quotient of the
    integers, rounded once.  A zero divisor raises [ZeroDivisionError], a
    quotient beyond the largest float raises [OverflowError]. *)
Definition int_true_div (a b : Z) : res float :=
  if (b =? 0)%Z then Raise ZeroDivisionError
  else
    let q := if fits_double a && fits_double b
             then PrimFloat.div (float_of_int a) (float_of_int b)
             else SF2Prim (SFdiv prec emax (exact_int a) (exact_int b)) in
    if PrimFloat.is_infinity q then Raise OverflowError else Ok q.

(** [x / y] on two [float]s. *)
Definition float_div (x y : float) : res float :=
  if PrimFloat.eqb y 0%float then Raise ZeroDivisionError
  else Ok (PrimFloat.div x y).

(** [int(x)] on a [float]: truncation towards zero. *)
Definition py_int (x : float) : res Z :=
  match Prim2SF x with
  | S754_zero _ => Ok 0%Z
  | S754_infinity _ => Raise OverflowError
  | S754_nan => Raise ValueError
  | S754_finite s m e =>
      let a := match e with
               | Z0 => Zpos m
               | Zpos _ => Z.shiftl (Zpos m) e
               | Zneg _ => Z.shiftr (Zpos m) (- e)
               end in
      Ok (if s then (- a)%Z else a)
  end.

(** [odds_to_probability(self, odds)]. *)
Definition odds_to_probability (odds : Z) : res float :=
  if (0 <? odds)%Z
  then int_true_div 100 (odds + 100)
  else int_true_div (Z.abs odds) (Z.abs odds + 100).

(** [probability_to_odds(self, prob)]. *)
Definition probability_to_odds (prob : float) : res Z :=
  if PrimFloat.ltb 0.5%float prob
  then q <- float_div (PrimFloat.opp prob) (PrimFloat.sub 1%float prob) ;;
       py_int (PrimFloat.mul q 100%float)
  else q <- float_div (PrimFloat.sub 1%float prob) prob ;;
       py_int (PrimFloat.mul q 100%float).

End Binary64.

(** ** The specification's reading of the same operations *)

Module Spec.

(** The resolver as the specification words it: trim, strip the three
    filler substrings, look the result up in the alias table, fall back to
    the stripped string. *)
Definition filler_substrings : list string :=
  ["University of "; " University"; "College"].

Definition strip_fillers (s : string) : string :=
  fold_left (fun name filler => py_replace filler "" name) filler_substrings s.

Definition resolve (aliases : dict string) (raw_name : string) : string :=
  let name := strip_fillers (py_strip raw_name) in
  match dict_get aliases name with
  | Some canonical => canonical
  | None => name
  end.

(** The same with the rewriting steps given as a table of pairs. *)
Definition rewrite_all (rules : list (string * string)) (s : string)
  : string :=
  fold_left (fun name rule => py_replace (fst rule) (snd rule) name) rules s.

Definition resolve_with (rules : list (string * string))
    (aliases : dict string) (raw_name : string) : string :=
  let name := rewrite_all rules (py_strip raw_name) in
  match dict_get aliases name with
  | Some canonical => canonical
  | None => name
  end.

(** The rewriting steps of the source, in its order: the three filler
    substrings are deleted and " State" is shortened to " St". *)
Definition source_rules : list (string * string) :=
  [("University of ", ""); (" University", ""); (" State", " St");
   ("College", "")].

(** The raw name after trimming and the first two deletions, the point
    where the source shortens " State". *)
Definition before_state_step (raw_name : string) : string :=
  py_replace " University" ""
    (py_replace "University of " "" (py_strip raw_name)).

(** The present (non-absent) values of a metric across the records of a
    matched game. *)
Definition present_value (v : pyval Q) : list Q :=
  match v with
  | Val q => [q]
  | _ => []
  end.

Definition present_values (m : EdgeFinder.metric)
    (g : EdgeFinder.matched_game) : list Q :=
  flat_map (fun entry =>
              match raw_predictions (snd entry) with
              | Some data => present_value (EdgeFinder.metric_field m data)
              | None => []
              end)
           (EdgeFinder.mg_predictions g).


Definition game_key (g : EdgeFinder.matched_game)
  : string * string * string :=
  (EdgeFinder.mg_away_team g, EdgeFinder.mg_home_team g,
   EdgeFinder.mg_date g).

(** The largest absolute edge percentage of a list of edges. *)
Definition max_abs_edge (percents : list Q) : Q :=
  fold_left (fun m e => py_max m (Qabs e)) percents 0.


(** The range of an implied probability: at least 0 and below 1, 0 for
    odds of 0 and strictly positive otherwise. *)
Definition implied_probability_ok (o : Z) (p : float) : Prop :=
  PrimFloat.leb 0%float p = true
  /\ PrimFloat.ltb p 1%float = true
  /\ (o = 0%Z -> p = 0%float)
  /\ (o <> 0%Z -> PrimFloat.ltb 0%float p = true).

End Spec.

(** ** Predicates of the statements *)

(** A record carries the canonical pair of teams [away], [home]. *)
Definition same_teams (away home : string) (r : raw_game) : Prop :=
  exists a h,
    raw_away_team r = Some a /\ raw_home_team r = Some h
    /\ EdgeFinder.normalize_team_names a = away
    /\ EdgeFinder.normalize_team_names h = home.

(** [game.get('date', '')]. *)
Definition date_or_empty (r : raw_game) : string :=
  match raw_date r with
  | Some d => d
  | None => ""
  end.

(** What the inner loops keep true of the dictionary of a matched game:
    the anchor record stays in front, and every entry comes from the source
    it is filed under and carries the pair of teams of the game. *)
Definition attached_ok (predictions : dict fetched) (base : string)
    (base_game : raw_game) (away home : string) (matched : dict raw_game)
  : Prop :=
  hd_error matched = Some (base, base_game)
  /\ forall source r,
       In (source, r) matched ->
       same_teams away home r
       /\ ((source, r) = (base, base_game)
           \/ exists f, In (source, f) predictions /\ In r (records f)).

(** A string of whitespace only. *)
Fixpoint all_space (s : string) : bool :=
  match s with
  | EmptyString => true
  | String c s' => is_space c && all_space s'
  end.

(** The key that an anchor record gives to its game; a record without
    both team names gives none. *)
Definition anchor_key (r : raw_game) : option (string * string * string) :=
  match raw_away_team r, raw_home_team r with
  | Some a, Some h =>
      Some (EdgeFinder.normalize_team_names a,
            EdgeFinder.normalize_team_names h,
            date_or_empty r)
  | _, _ => None
  end.

(** The threshold test of the evaluator applied to the edge of one side,
    when the side has one. *)
Definition passes (min_edge : Q) (e : EdgeFinder.edge) : bool :=
  Qle_bool min_edge (Qabs (EdgeFinder.e_edge_percent e)).

Definition select_edge (min_edge : Q) (candidate : option EdgeFinder.edge)
  : list EdgeFinder.edge :=
  match candidate with
  | Some e => if passes min_edge e then [e] else []
  | None => []
  end.

(** The edge of one side is built from the consensus entry [s] of the
    side, the odds of the side, and the name of the team. *)
Definition edge_built_from (c : EdgeFinder.consensus) (m : EdgeFinder.metric)
    (odds : Z) (team side : string) (e : EdgeFinder.edge) : Prop :=
  exists s,
    c m = Some s
    /\ EdgeFinder.e_type e = "moneyline"
    /\ EdgeFinder.e_team e = team
    /\ EdgeFinder.e_side e = side
    /\ EdgeFinder.e_model_prob e = EdgeFinder.avg s
    /\ EdgeFinder.odds_to_probability odds = Ok (EdgeFinder.e_market_prob e)
    /\ EdgeFinder.calculate_edge (EdgeFinder.avg s) (EdgeFinder.e_market_prob e)
       = Ok (EdgeFinder.e_edge_percent e)
    /\ EdgeFinder.kelly_criterion (EdgeFinder.avg s)
         (EdgeFinder.e_market_prob e) EdgeFinder.default_bankroll
       = Ok (EdgeFinder.e_kelly_bet_amount e)
    /\ EdgeFinder.calculate_confidence c m = Ok (EdgeFinder.e_confidence e)
    /\ EdgeFinder.e_recommended e = Qltb 0 (EdgeFinder.e_edge_percent e).

(** What [get_multi_source_predictions] stores for a source: the output
    of the script of the source, or the empty list for a source without a
    script. *)
Definition source_value (run_script : string -> list string -> fetched)
    (date source : string) : fetched :=
  if String.eqb source "barttorvik"
  then run_script "barttorvik" ["rankings"; "--top"; "50"]
  else if String.eqb source "dratings"
  then run_script "dratings" ["predictions"; "--date"; date]
  else if String.eqb source "cbbpy"
  then run_script "cbbpy_tools" ["games-today"; "--date"; date]
  else Games [].

(** ** Sample inputs *)

Module Samples.

(** The market object as the scraper of dratings writes it: every line is
    [None]. *)
Definition no_market : market_data :=
  {| market_spread := PyNone;
     market_total := PyNone;
     away_ml_odds := PyNone;
     home_ml_odds := PyNone |}.

Definition game_record (date away home : string) (p : pred_data) : raw_game :=
  {| raw_date := Some date;
     raw_away_team := Some away;
     raw_home_team := Some home;
     raw_predictions := Some p;
     raw_market_data := Some no_market |}.

Definition no_values : pred_data :=
  {| model_win_prob_away := PyNone;
     model_win_prob_home := PyNone;
     predicted_spread := PyNone;
     predicted_total := PyNone |}.

Definition away_only (p : Q) : pred_data :=
  {| model_win_prob_away := Val p;
     model_win_prob_home := PyNone;
     predicted_spread := PyNone;
     predicted_total := PyNone |}.

Definition spread_and_total (s t : Q) : pred_data :=
  {| model_win_prob_away := PyNone;
     model_win_prob_home := PyNone;
     predicted_spread := Val s;
     predicted_total := Val t |}.

(** The same pair of teams on two days, from two sources. *)
Definition duke_unc_15 : raw_game :=
  game_record "2026-03-15" "Duke" "UNC" no_values.
Definition duke_unc_16 : raw_game :=
  game_record "2026-03-16" "Duke" "North Carolina" no_values.
Definition cross_date : dict fetched :=
  [("dratings", Games [duke_unc_15]); ("cbbpy", Games [duke_unc_16])].
Definition cross_date_game : EdgeFinder.matched_game :=
  {| EdgeFinder.mg_away_team := "Duke";
     EdgeFinder.mg_home_team := "North Carolina";
     EdgeFinder.mg_date := "2026-03-15";
     EdgeFinder.mg_predictions :=
       [("dratings", duke_unc_15); ("cbbpy", duke_unc_16)];
     EdgeFinder.mg_consensus := [] |}.

(** A pick'em: one source predicts a spread of 0.0 and a total of 140. *)
Definition pickem : raw_game :=
  game_record "2026-03-15" "Duke" "UNC" (spread_and_total 0 140).
Definition pickem_game : EdgeFinder.matched_game :=
  {| EdgeFinder.mg_away_team := "Duke";
     EdgeFinder.mg_home_team := "North Carolina";
     EdgeFinder.mg_date := "2026-03-15";
     EdgeFinder.mg_predictions := [("dratings", pickem)];
     EdgeFinder.mg_consensus := [] |}.

(** Two sources, spreads 0.0 and 4.0. *)
Definition four_points : raw_game :=
  game_record "2026-03-15" "Duke" "UNC" (spread_and_total 4 140).
Definition two_spreads_game : EdgeFinder.matched_game :=
  {| EdgeFinder.mg_away_team := "Duke";
     EdgeFinder.mg_home_team := "North Carolina";
     EdgeFinder.mg_date := "2026-03-15";
     EdgeFinder.mg_predictions := [("dratings", pickem); ("cbbpy", four_points)];
     EdgeFinder.mg_consensus := [] |}.

(** One source gives the away side 60%; no market line is known. *)
Definition away_60 : raw_game :=
  game_record "2026-03-15" "Duke" "UNC" (away_only (6 # 10)).
Definition away_60_game : EdgeFinder.matched_game :=
  {| EdgeFinder.mg_away_team := "Duke";
     EdgeFinder.mg_home_team := "North Carolina";
     EdgeFinder.mg_date := "2026-03-15";
     EdgeFinder.mg_predictions := [("dratings", away_60)];
     EdgeFinder.mg_consensus := [] |}.

(** Two games of one source: the away side at 30% in the first, at 50% in
    the second. *)
Definition away_30 : raw_game :=
  game_record "2026-03-15" "Iowa" "Purdue" (away_only (3 # 10)).
Definition away_50 : raw_game :=
  game_record "2026-03-15" "Xavier" "Butler" (away_only (1 # 2)).
Definition two_games (script : string) (args : list string) : fetched :=
  if String.eqb script "dratings" then Games [away_30; away_50] else NoData.

(** The first of them with a posted away moneyline of +110. *)
Definition away_30_priced : raw_game :=
  {| raw_date := Some "2026-03-15";
     raw_away_team := Some "Iowa";
     raw_home_team := Some "Purdue";
     raw_predictions := Some (away_only (3 # 10));
     raw_market_data :=
       Some {| market_spread := PyNone;
               market_total := PyNone;
               away_ml_odds := Val 110%Z;
               home_ml_odds := PyNone |} |}.

(** The three reports of the ranking example, as sort keys. *)
Definition ranking_keys : list (Q * nat) :=
  [(4, 5%nat); (9, 2%nat); (9, 4%nat)].


End Samples.

(** The round trip of the odds helpers, as the interpreter evaluates it. *)
Definition round_trip (o : Z) : res Z :=
  p <- Binary64.odds_to_probability o ;; Binary64.probability_to_odds p.

(** ** Checks over a range of odds *)

(** [f] holds at the [n] integers from [z] on. *)
Fixpoint all_from (f : Z -> bool) (n : nat) (z : Z) : bool :=
  match n with
  | O => true
  | S n' => if f z then all_from f n' (z + 1) else false
  end.


(** The round trip returns odds of the opposite sign, of magnitude 100 or
    more. *)
Definition round_trip_flipsb (o : Z) : bool :=
  match round_trip o with
  | Ok r => (Z.sgn r =? - Z.sgn o)%Z && (100 <=? Z.abs r)%Z
  | Raise _ => false
  end.

(** The implied probability is a float strictly between 0 and 1. *)
Definition implied_probability_okb (o : Z) : bool :=
  match Binary64.odds_to_probability o with
  | Ok p =>
      PrimFloat.leb 0%float p && PrimFloat.ltb 0%float p
      && PrimFloat.ltb p 1%float
  | Raise _ => false
  end.

(** ** Numeric lemmas *)

Lemma Qltb_true (a b : Q) : Qltb a b = true <-> a < b.
Proof.
  unfold Qltb. rewrite negb_true_iff.
  split; intro H.
  - destruct (Qlt_le_dec a b) as [Hl | Hl]; [exact Hl |].
    apply Qle_bool_iff in Hl. congruence.
  - destruct (Qle_bool b a) eqn:E; [| reflexivity].
    apply Qle_bool_iff in E. lra.
Qed.

Lemma Qltb_false (a b : Q) : Qltb a b = false <-> b <= a.
Proof.
  unfold Qltb. rewrite negb_false_iff. apply Qle_bool_iff.
Qed.

Lemma Qle_bool_false (a b : Q) : Qle_bool a b = false <-> b < a.
Proof.
  split; intro H.
  - destruct (Qlt_le_dec b a) as [Hl | Hl]; [exact Hl |].
    apply Qle_bool_iff in Hl. congruence.
  - destruct (Qle_bool a b) eqn:E; [| reflexivity].
    apply Qle_bool_iff in E. lra.
Qed.

Lemma Qeq_bool_false (a b : Q) : Qeq_bool a b = false <-> ~ a == b.
Proof.
  split; intro H.
  - intro E. apply Qeq_bool_iff in E. congruence.
  - destruct (Qeq_bool a b) eqn:E; [| reflexivity].
    apply Qeq_bool_iff in E. contradiction.
Qed.

Lemma fdiv_ok (a b : Q) : ~ b == 0 -> fdiv a b = Ok (a / b).
Proof.
  intro H. unfold fdiv. apply Qeq_bool_false in H. now rewrite H.
Qed.

Lemma Zq_pos (z : Z) : (0 < z)%Z -> 0 < Zq z.
Proof.
  intro H. unfold Zq. change 0 with (inject_Z 0). now rewrite <- Zlt_Qlt.
Qed.

Lemma Zq_nonneg (z : Z) : (0 <= z)%Z -> 0 <= Zq z.
Proof.
  intro H. unfold Zq. change 0 with (inject_Z 0). now rewrite <- Zle_Qle.
Qed.

Lemma Zq_plus (a b : Z) : Zq (a + b) == Zq a + Zq b.
Proof. unfold Zq. rewrite inject_Z_plus. reflexivity. Qed.

Lemma Zq_100 : Zq 100 == 100.
Proof. reflexivity. Qed.

Lemma ratio_range (a b : Q) :
  0 <= a -> a < b -> 0 <= a / b /\ a / b < 1.
Proof.
  intros Ha Hab. assert (Hb : 0 < b) by lra. split.
  - apply Qle_shift_div_l; [exact Hb | lra].
  - apply Qlt_shift_div_r; [exact Hb | lra].
Qed.

Lemma ratio_pos (a b : Q) : 0 < a -> 0 < b -> 0 < a / b.
Proof.
  intros Ha Hb. apply Qlt_shift_div_l; [exact Hb | lra].
Qed.

(** ** Odds to probability *)

Lemma odds_to_probability_same (o : Z) :
  DRatings.odds_to_probability o = EdgeFinder.odds_to_probability o.
Proof. reflexivity. Qed.

Lemma odds_to_probability_eq (o : Z) :
  exists n d,
    EdgeFinder.odds_to_probability o = Ok (n / d)
    /\ 0 <= n /\ n < d
    /\ (0 < n <-> o <> 0%Z)
    /\ ((0 < o)%Z -> n == 100 /\ d == Zq o + 100)
    /\ ((o <= 0)%Z -> n == Zq (- o) /\ d == Zq (- o) + 100).
Proof.
  unfold EdgeFinder.odds_to_probability.
  destruct (0 <? o)%Z eqn:E.
  - apply Z.ltb_lt in E.
    exists 100, (Zq (o + 100)).
    assert (Hd : Zq (o + 100) == Zq o + 100)
      by (rewrite Zq_plus, Zq_100; reflexivity).
    assert (Ho : 0 < Zq o) by (apply Zq_pos; exact E).
    split; [apply fdiv_ok; lra |].
    repeat split; try lra; try lia; try exact Hd.
  - apply Z.ltb_ge in E.
    exists (Zq (Z.abs o)), (Zq (Z.abs o + 100)).
    assert (Hd : Zq (Z.abs o + 100) == Zq (Z.abs o) + 100)
      by (rewrite Zq_plus, Zq_100; reflexivity).
    assert (Ha : 0 <= Zq (Z.abs o)) by (apply Zq_nonneg; lia).
    split; [apply fdiv_ok; lra |].
    split; [exact Ha |]. split; [lra |].
    split; [| split].
    + split; intro H.
      * intro Hz. subst o. vm_compute in H. discriminate.
      * apply Zq_pos. lia.
    + intro H. lia.
    + intro H. replace (- o)%Z with (Z.abs o) by lia. split; [reflexivity | exact Hd].
Qed.

(** The implied probability exists and lies in the half-open interval
    from 0 to 1; it is 0 only for odds of 0. *)
Lemma implied_probability_bounds (o : Z) :
  exists p,
    EdgeFinder.odds_to_probability o = Ok p
    /\ 0 <= p /\ p < 1
    /\ ((o = 0%Z /\ p == 0) \/ (o <> 0%Z /\ 0 < p)).
Proof.
  destruct (odds_to_probability_eq o)
    as (n & d & Heq & Hn & Hnd & Hpos & _ & _).
  exists (n / d).
  destruct (ratio_range n d Hn Hnd) as [H0 H1].
  repeat split; try assumption.
  destruct (Z.eq_dec o 0) as [Hz | Hz].
  - left. split; [exact Hz |].
    assert (Hn0 : n == 0).
    { destruct (Qlt_le_dec 0 n) as [Hl | Hl]; [| lra].
      apply Hpos in Hl. contradiction. }
    rewrite Hn0. unfold Qdiv. ring.
  - right. split; [exact Hz |].
    apply ratio_pos; [apply Hpos; exact Hz | lra].
Qed.

(** ** Implied probabilities in binary64 *)

Lemma all_from_spec (f : Z -> bool) (n : nat) (z k : Z) :
  all_from f n z = true -> (z <= k < z + Z.of_nat n)%Z -> f k = true.
Proof.
  revert z. induction n as [| n IH]; intros z H Hk.
  - change (Z.of_nat 0) with 0%Z in Hk. lia.
  - cbn [all_from] in H. destruct (f z) eqn:E; [| discriminate].
    destruct (Z.eq_dec k z) as [-> | Hne]; [exact E |].
    apply (IH (z + 1)%Z H). lia.
Qed.

(** The odds from -100000 to -1, one by one. *)
Lemma implied_probability_checked_below :
  all_from implied_probability_okb (Z.to_nat 100000) (-100000) = true.
Proof. vm_cast_no_check (eq_refl true). Qed.

(** The odds from 1 to 100000, one by one. *)
Lemma implied_probability_checked_above :
  all_from implied_probability_okb (Z.to_nat 100000) 1 = true.
Proof. vm_cast_no_check (eq_refl true). Qed.

Lemma implied_probability_okb_checked (o : Z) :
  (-100000 <= o <= 100000)%Z -> o <> 0%Z -> implied_probability_okb o = true.
Proof.
  intros Ho Hnz. destruct (Z.lt_ge_cases o 0) as [Hneg | Hpos].
  - apply (all_from_spec _ _ _ _ implied_probability_checked_below).
    rewrite Z2Nat.id; lia.
  - apply (all_from_spec _ _ _ _ implied_probability_checked_above).
    rewrite Z2Nat.id; lia.
Qed.

Lemma implied_probability_okb_spec (o : Z) :
  o <> 0%Z -> implied_probability_okb o = true ->
  exists p,
    Binary64.odds_to_probability o = Ok p /\ Spec.implied_probability_ok o p.
Proof.
  intros Hnz H. unfold implied_probability_okb in H.
  destruct (Binary64.odds_to_probability o) as [p | e]; [| discriminate].
  apply andb_true_iff in H. destruct H as [H H1].
  apply andb_true_iff in H. destruct H as [H0 Hpos].
  exists p. split; [reflexivity |].
  unfold Spec.implied_probability_ok.
  split; [exact H0 |]. split; [exact H1 |].
  split; [intro Hz; contradiction | intros _; exact Hpos].
Qed.




(** The value at those odds. *)
Example odds_to_probability_far_favourite :
  Binary64.odds_to_probability (-2000000000000000000) = Ok 1%float.
Proof. vm_compute. reflexivity. Qed.

(** At the other end the quotient underflows: odds of 10^400 are not 0,
    and their implied probability is 0.0. *)
Example odds_to_probability_far_underdog :
  Binary64.odds_to_probability (10 ^ 400) = Ok 0%float.
Proof. vm_compute. reflexivity. Qed.

(** The placeholder odds of the edge finder. *)
Example odds_to_probability_minus_110 :
  Binary64.odds_to_probability (-110) = Ok 0x1.0c30c30c30c31p-1%float.
Proof. vm_compute. reflexivity. Qed.

(** ** The edge percentage *)

(** In [EdgeFinder] the guard covers every non-positive market
    probability: the result is 0 and the division is not reached. *)
Lemma edge_finder_calculate_edge_guard (model_prob market_prob : Q) :
  market_prob <= 0 ->
  EdgeFinder.calculate_edge model_prob market_prob = Ok 0.
Proof.
  intro H. unfold EdgeFinder.calculate_edge.
  apply Qle_bool_iff in H. now rewrite H.
Qed.

Lemma calculate_edge_value (model_prob market_prob : Q) :
  0 < market_prob ->
  EdgeFinder.calculate_edge model_prob market_prob
  = Ok ((model_prob - market_prob) / market_prob * 100).
Proof.
  intro H. unfold EdgeFinder.calculate_edge.
  assert (E : Qle_bool market_prob 0 = false) by (apply Qle_bool_false; exact H).
  rewrite E. rewrite fdiv_ok by lra. reflexivity.
Qed.

(** In [DRatingsAnalyzer] the guard only covers a market probability equal
    to 0: below 0 the quotient is computed. *)
Lemma dratings_calculate_edge_below_zero (model_prob market_prob : Q) :
  market_prob < 0 ->
  DRatings.calculate_edge model_prob market_prob
  = Ok ((model_prob - market_prob) / market_prob * 100).
Proof.
  intro H. unfold DRatings.calculate_edge.
  assert (E : Qeq_bool market_prob 0 = false) by (apply Qeq_bool_false; lra).
  rewrite E. rewrite fdiv_ok by lra. reflexivity.
Qed.

(** C8. At model probability 0.5 and market probability -0.5 the
    [calculate_edge] of [DRatingsAnalyzer] reaches the division and returns
    -200, where the [calculate_edge] of [EdgeFinder] returns 0. *)
Theorem dratings_calculate_edge_negative_market :
  exists e,
    DRatings.calculate_edge (1 # 2) (- (1 # 2)) = Ok e
    /\ e == - (200)
    /\ ~ e == 0
    /\ EdgeFinder.calculate_edge (1 # 2) (- (1 # 2)) = Ok 0.
Proof.
  eexists. split; [vm_compute; reflexivity |].
  split; [reflexivity |]. split; [discriminate | reflexivity].
Qed.

(** ** Stake sizing *)

Lemma py_min_le_r (a b : Q) : py_min a b <= b.
Proof.
  unfold py_min. destruct (Qltb b a) eqn:E.
  - lra.
  - apply Qltb_false in E. exact E.
Qed.

Lemma py_min_nonneg (a b : Q) : 0 <= a -> 0 <= b -> 0 <= py_min a b.
Proof.
  intros Ha Hb. unfold py_min. destruct (Qltb b a); assumption.
Qed.

(** C2. For model and market probabilities between 0 and 1 and a
    non-negative bankroll, [kelly_criterion] returns a stake without a
    fault; the stake is at least 0 and at most 5% of the bankroll, and it is
    0 whenever the model probability does not exceed the market
    probability. *)
Theorem kelly_criterion_capped (model_prob market_prob bankroll : Q) :
  0 <= model_prob <= 1 ->
  0 <= market_prob <= 1 ->
  0 <= bankroll ->
  exists stake,
    EdgeFinder.kelly_criterion model_prob market_prob bankroll = Ok stake
    /\ 0 <= stake
    /\ stake <= bankroll * (5 # 100)
    /\ (model_prob - market_prob <= 0 -> stake == 0).
Proof.
  intros [Hm0 Hm1] [Hk0 Hk1] Hb.
  assert (Hcap : 0 <= bankroll * (5 # 100)) by nra.
  unfold EdgeFinder.kelly_criterion.
  destruct (Qle_bool market_prob 0) eqn:E1; simpl.
  { exists 0. repeat split; try lra. }
  destruct (Qle_bool model_prob 0) eqn:E2; simpl.
  { exists 0. repeat split; try lra. }
  apply Qle_bool_false in E1. apply Qle_bool_false in E2.
  rewrite fdiv_ok by lra. simpl.
  destruct (Qle_bool (model_prob - market_prob) 0) eqn:E3.
  { exists 0. repeat split; try lra. }
  apply Qle_bool_false in E3.
  assert (Hlt : market_prob < 1) by lra.
  assert (Hinv : 1 < 1 / market_prob).
  { apply Qlt_shift_div_l; lra. }
  rewrite fdiv_ok by lra. simpl.
  eexists. split; [reflexivity |].
  assert (Hfrac : 0 < (model_prob - market_prob) / (1 / market_prob - 1)).
  { apply ratio_pos; lra. }
  split; [| split].
  - apply py_min_nonneg; [| exact Hcap].
    apply Qmult_le_0_compat; lra.
  - apply py_min_le_r.
  - intro H. lra.
Qed.

Lemma kelly_criterion_capped_witness :
  (0 <= 99 # 100 <= 1) /\ (0 <= 1 # 100 <= 1) /\ 0 <= 1000
  /\ exists stake,
       EdgeFinder.kelly_criterion (99 # 100) (1 # 100) 1000 = Ok stake
       /\ 0 <= stake
       /\ stake <= 1000 * (5 # 100)
       /\ ((99 # 100) - (1 # 100) <= 0 -> stake == 0).
Proof.
  assert (Hm : 0 <= 99 # 100 <= 1) by (split; discriminate).
  assert (Hk : 0 <= 1 # 100 <= 1) by (split; discriminate).
  assert (Hb : 0 <= 1000) by discriminate.
  repeat split; try discriminate.
  exact (kelly_criterion_capped (99 # 100) (1 # 100) 1000 Hm Hk Hb).
Defined.

(** The extreme edge of the specification, evaluated: the uncapped Kelly
    stake is 9.8989..., below the cap of 50. *)
Example kelly_extreme_edge :
  exists stake,
    EdgeFinder.kelly_criterion (99 # 100) (1 # 100) 1000 = Ok stake
    /\ stake == 980 # 99.
Proof. eexists. split; [vm_compute; reflexivity | reflexivity]. Qed.

(** A stake that the cap cuts: model 0.9 against market 0.5. *)
Example kelly_cap_hit :
  exists stake,
    EdgeFinder.kelly_criterion (9 # 10) (1 # 2) 1000 = Ok stake
    /\ stake == 50.
Proof. eexists. split; [vm_compute; reflexivity | reflexivity]. Qed.

(** ** The round trip through the implied probability *)







(** The rounding is visible inside the range: the implied probability of
    -150 is the float below 0.6, and the odds come back as -149. *)
Example round_trip_minus_150 : round_trip (-150) = Ok (-149)%Z.
Proof. vm_compute. reflexivity. Qed.

Example round_trip_minus_100 : round_trip (-100) = Ok 100%Z.
Proof. vm_compute. reflexivity. Qed.

Example round_trip_plus_50 : round_trip 50 = Ok (-199)%Z.
Proof. vm_compute. reflexivity. Qed.

(** Odds of 0 imply probability 0.0, and the way back divides by it. *)
Example round_trip_zero_faults : round_trip 0 = Raise ZeroDivisionError.
Proof. vm_compute. reflexivity. Qed.

(** Far outside the range the tolerance is lost, and further out the
    implied probability is 1.0 and the way back divides by 0.0. *)
Example round_trip_beyond_tolerance :
  round_trip (-1000000000000000) = Ok (-999689151469488)%Z.
Proof. vm_compute. reflexivity. Qed.

Example round_trip_far_favourite_faults :
  round_trip (-2000000000000000000) = Raise ZeroDivisionError.
Proof. vm_compute. reflexivity. Qed.

(** ** Probability to odds *)

(** The two ends of the unit interval divide by zero. *)
Example probability_to_odds_at_zero :
  Binary64.probability_to_odds 0%float = Raise ZeroDivisionError.
Proof. vm_compute. reflexivity. Qed.

Example probability_to_odds_at_one :
  Binary64.probability_to_odds 1%float = Raise ZeroDivisionError.
Proof. vm_compute. reflexivity. Qed.

(** The float nearest to 1e-307: the quotient times 100 is infinite and
    [int] raises [OverflowError]. *)
Example probability_to_odds_overflows :
  Binary64.probability_to_odds 0x1.1fa182c40c60dp-1020%float
  = Raise OverflowError.
Proof. vm_compute. reflexivity. Qed.

(** The odds from -100 to -1, one by one. *)
Lemma round_trip_checked_flips_negative :
  all_from round_trip_flipsb (Z.to_nat 100) (-100) = true.
Proof. vm_cast_no_check (eq_refl true). Qed.

(** The odds from 1 to 99, one by one. *)
Lemma round_trip_checked_flips_positive :
  all_from round_trip_flipsb (Z.to_nat 99) 1 = true.
Proof. vm_cast_no_check (eq_refl true). Qed.

(** Odds of a magnitude below 100, and odds of -100, are no American odds
    of a probability: positive ones imply a probability above 0.5 and come
    back as favourite odds, negative ones imply a probability of at most
    0.5 and come back as underdog odds.  For every [o] with
    [-100 <= o < 100], [probability_to_odds(odds_to_probability(o))]
    raises [ZeroDivisionError] when [o] is 0 and otherwise returns odds of
    the opposite sign and of magnitude at least 100. *)
Theorem round_trip_of_short_odds (o : Z) :
  (-100 <= o < 100)%Z ->
  (o = 0%Z -> round_trip o = Raise ZeroDivisionError)
  /\ (o <> 0%Z ->
      exists r,
        round_trip o = Ok r
        /\ Z.sgn r = (- Z.sgn o)%Z /\ (100 <= Z.abs r)%Z).
Proof.
  intro Ho. split.
  - intros ->. vm_compute. reflexivity.
  - intro Hnz.
    assert (Hb : round_trip_flipsb o = true).
    { destruct (Z.lt_ge_cases o 0) as [Hneg | Hpos].
      - apply (all_from_spec _ _ _ _ round_trip_checked_flips_negative).
        rewrite Z2Nat.id; lia.
      - apply (all_from_spec _ _ _ _ round_trip_checked_flips_positive).
        rewrite Z2Nat.id; lia. }
    unfold round_trip_flipsb in Hb.
    destruct (round_trip o) as [r | e]; [| discriminate].
    apply andb_true_iff in Hb. destruct Hb as [Hs Hm].
    exists r. split; [reflexivity |]. split.
    + apply Z.eqb_eq. exact Hs.
    + apply Z.leb_le. exact Hm.
Qed.

Lemma round_trip_of_short_odds_witness :
  (-100 <= 50 < 100)%Z
  /\ exists r,
       round_trip 50 = Ok r
       /\ Z.sgn r = (- Z.sgn 50)%Z /\ (100 <= Z.abs r)%Z.
Proof.
  assert (H : (-100 <= 50 < 100)%Z) by lia.
  assert (Hnz : 50%Z <> 0%Z) by discriminate.
  split; [exact H | exact (proj2 (round_trip_of_short_odds 50 H) Hnz)].
Defined.

(** ** Team names *)

Lemma replace_from_absent (old new s : string) :
  contains old s = false -> replace_from 0 old new s = s.
Proof.
  induction s as [| c s IH]; intro H.
  - reflexivity.
  - cbn [contains] in H. apply orb_false_iff in H. destruct H as [Hp Hc].
    cbn [replace_from]. rewrite Hp. f_equal. apply IH. exact Hc.
Qed.

Lemma py_replace_absent (old new s : string) :
  contains old s = false -> py_replace old new s = s.
Proof. apply replace_from_absent. Qed.

(** C7, as the code has it.  [normalize_team_names] returns a string for
    every raw name, and the string is: trim; delete "University of " and
    " University"; shorten " State" to " St"; delete "College"; look the
    result up in the alias table and fall back to the rewritten string.
    When the name holds no " State" at the third step, this is the
    resolver of the specification. *)
Theorem normalize_team_names_rewrites (raw_name : string) :
  EdgeFinder.normalize_team_names raw_name
  = Spec.resolve_with Spec.source_rules EdgeFinder.name_mapping raw_name
  /\ (dict_get EdgeFinder.name_mapping
        (Spec.rewrite_all Spec.source_rules (py_strip raw_name)) = None ->
      EdgeFinder.normalize_team_names raw_name
      = Spec.rewrite_all Spec.source_rules (py_strip raw_name))
  /\ (contains " State" (Spec.before_state_step raw_name) = false ->
      EdgeFinder.normalize_team_names raw_name
      = Spec.resolve EdgeFinder.name_mapping raw_name).
Proof.
  split; [reflexivity |]. split.
  - intro H. unfold EdgeFinder.normalize_team_names.
    change (py_replace "College" ""
              (py_replace " State" " St"
                 (py_replace " University" ""
                    (py_replace "University of " "" (py_strip raw_name)))))
      with (Spec.rewrite_all Spec.source_rules (py_strip raw_name)).
    rewrite H. reflexivity.
  - intro H. unfold EdgeFinder.normalize_team_names, Spec.resolve,
      Spec.strip_fillers, Spec.filler_substrings.
    cbn [fold_left].
    fold (Spec.before_state_step raw_name).
    rewrite (py_replace_absent " State" " St" _ H). reflexivity.
Qed.

Lemma normalize_team_names_rewrites_witness :
  contains " State" (Spec.before_state_step "  University of Kansas ") = false
  /\ EdgeFinder.normalize_team_names "  University of Kansas "
     = Spec.resolve EdgeFinder.name_mapping "  University of Kansas ".
Proof.
  assert (H : contains " State"
                (Spec.before_state_step "  University of Kansas ") = false)
    by reflexivity.
  split; [exact H |].
  exact (proj2 (proj2 (normalize_team_names_rewrites
                         "  University of Kansas ")) H).
Defined.

(** C7 fails as stated: " State" is none of the three filler substrings,
    yet "Ohio State" becomes "Ohio St". *)
Lemma normalize_team_names_shortens_state :
  ~ (forall raw_name : string,
       EdgeFinder.normalize_team_names raw_name
       = Spec.resolve EdgeFinder.name_mapping raw_name).
Proof.
  intro H. specialize (H "Ohio State"). vm_compute in H. discriminate.
Qed.

Example normalize_ohio_state :
  EdgeFinder.normalize_team_names "Ohio State" = "Ohio St".
Proof. reflexivity. Qed.

Example normalize_alias :
  EdgeFinder.normalize_team_names " UConn " = "Connecticut".
Proof. reflexivity. Qed.

Example normalize_unknown :
  EdgeFinder.normalize_team_names "University of Dayton" = "Dayton".
Proof. reflexivity. Qed.

(** ** The game matcher *)

Lemma in_filter_map {A B : Type} (f : A -> option B) (l : list A) (b : B) :
  In b (EdgeFinder.filter_map f l) -> exists a, In a l /\ f a = Some b.
Proof.
  induction l as [| a l IH]; simpl; intro H.
  - contradiction.
  - destruct (f a) as [b' |] eqn:E.
    + destruct H as [H | H].
      * subst b'. exists a. split; [left; reflexivity | exact E].
      * destruct (IH H) as (a' & Hin & Hf). exists a'. split; [right |]; assumption.
    + destruct (IH H) as (a' & Hin & Hf). exists a'. split; [right |]; assumption.
Qed.

Lemma in_dict_set {V : Type} (d : dict V) (k : string) (v : V)
    (entry : string * V) :
  In entry (dict_set d k v) -> In entry d \/ entry = (k, v).
Proof.
  induction d as [| [k' v'] d IH]; simpl; intro H.
  - destruct H as [H | []]. right. symmetry. exact H.
  - destruct (String.eqb k' k) eqn:E.
    + apply String.eqb_eq in E. subst k'.
      destruct H as [H | H]; [right; symmetry; exact H | left; right; exact H].
    + destruct H as [H | H]; [left; left; exact H |].
      destruct (IH H) as [H' | H']; [left; right; exact H' | right; exact H'].
Qed.

Lemma hd_dict_set_other {V : Type} (d : dict V) (k k0 : string) (v v0 : V) :
  hd_error d = Some (k0, v0) -> String.eqb k0 k = false ->
  hd_error (dict_set d k v) = Some (k0, v0).
Proof.
  destruct d as [| [k' v'] d]; simpl; intros H E.
  - discriminate.
  - injection H as -> ->. rewrite E. reflexivity.
Qed.

Lemma is_same_game_teams (r : raw_game) (away home : string) :
  EdgeFinder.is_same_game r away home = true -> same_teams away home r.
Proof.
  unfold EdgeFinder.is_same_game, same_teams.
  destruct (raw_away_team r) as [a |]; [| discriminate].
  destruct (raw_home_team r) as [h |]; [| discriminate].
  intro H. apply andb_true_iff in H. destruct H as [Ha Hh].
  apply String.eqb_eq in Ha. apply String.eqb_eq in Hh.
  exists a, h. repeat split; assumption.
Qed.

Lemma attach_source_ok (predictions : dict fetched) (base : string)
    (base_game : raw_game) (away home : string) (matched : dict raw_game)
    (entry : string * fetched) :
  In entry predictions ->
  attached_ok predictions base base_game away home matched ->
  attached_ok predictions base base_game away home
    (EdgeFinder.attach_source base away home matched entry).
Proof.
  intros Hin [Hhd Hall]. destruct entry as [source games].
  unfold EdgeFinder.attach_source.
  destruct (String.eqb source base) eqn:E; [split; assumption |].
  destruct (find _ (records games)) as [game |] eqn:F; [| split; assumption].
  apply find_some in F. destruct F as [Hgame Hsame].
  split.
  - apply hd_dict_set_other; [exact Hhd |].
    rewrite String.eqb_sym. exact E.
  - intros s r Hr. apply in_dict_set in Hr. destruct Hr as [Hr | Hr].
    + apply Hall. exact Hr.
    + injection Hr as -> ->. split.
      * apply is_same_game_teams. exact Hsame.
      * right. exists games. split; assumption.
Qed.

Lemma fold_attach_ok (predictions : dict fetched) (base : string)
    (base_game : raw_game) (away home : string) (todo : dict fetched) :
  (forall entry, In entry todo -> In entry predictions) ->
  forall matched,
    attached_ok predictions base base_game away home matched ->
    attached_ok predictions base base_game away home
      (fold_left (EdgeFinder.attach_source base away home) todo matched).
Proof.
  induction todo as [| entry todo IH]; intros Hsub matched Hok.
  - exact Hok.
  - cbn [fold_left]. apply IH.
    + intros e He. apply Hsub. right. exact He.
    + apply attach_source_ok; [apply Hsub; left; reflexivity | exact Hok].
Qed.

Lemma match_base_game_ok (predictions : dict fetched) (base : string)
    (base_game : raw_game) (g : EdgeFinder.matched_game) :
  EdgeFinder.match_base_game predictions base base_game = Some g ->
  same_teams (EdgeFinder.mg_away_team g) (EdgeFinder.mg_home_team g) base_game
  /\ EdgeFinder.mg_date g = date_or_empty base_game
  /\ attached_ok predictions base base_game
       (EdgeFinder.mg_away_team g) (EdgeFinder.mg_home_team g)
       (EdgeFinder.mg_predictions g).
Proof.
  unfold EdgeFinder.match_base_game.
  destruct (raw_away_team base_game) as [a |] eqn:Ea; [| discriminate].
  destruct (raw_home_team base_game) as [h |] eqn:Eh; [| discriminate].
  intro H. injection H as <-. cbn.
  assert (Hbase : same_teams (EdgeFinder.normalize_team_names a)
                    (EdgeFinder.normalize_team_names h) base_game).
  { exists a, h. repeat split; assumption. }
  split; [exact Hbase |]. split; [reflexivity |].
  apply fold_attach_ok; [auto |].
  split; [reflexivity |].
  intros s r [Hr | []]. injection Hr as <- <-.
  split; [exact Hbase | left; reflexivity].
Qed.




(** The matcher on the same input, evaluated. *)
Example match_cross_date :
  EdgeFinder.match_games_across_sources Samples.cross_date
  = [Samples.cross_date_game].
Proof. reflexivity. Qed.

(** ** The consensus *)

(** What the source collects for a metric is the list of present values
    with the zeros taken out: a value of 0 is falsy. *)
Lemma collected_filters_present (m : EdgeFinder.metric)
    (g : EdgeFinder.matched_game) :
  EdgeFinder.collected m g = List.filter truthyQ (Spec.present_values m g).
Proof.
  unfold EdgeFinder.collected, Spec.present_values.
  induction (EdgeFinder.mg_predictions g) as [| [source r] l IH].
  - reflexivity.
  - cbn [flat_map snd]. rewrite filter_app, <- IH. f_equal.
    unfold EdgeFinder.collected_from.
    destruct (raw_predictions r) as [data |]; [| reflexivity].
    destruct (EdgeFinder.metric_field m data) as [| | q]; try reflexivity.
    cbn. destruct (truthyQ q); reflexivity.
Qed.

(** An entry exists exactly when a non-zero value was collected, and then
    it holds the mean and the number of the collected values. *)
Lemma consensus_entry (np_sqrt : Q -> Q) (m : EdgeFinder.metric)
    (g : EdgeFinder.matched_game) :
  let values := EdgeFinder.collected m g in
  match EdgeFinder.calculate_consensus_prediction np_sqrt g m with
  | None => values = []
  | Some s =>
      values <> []
      /\ EdgeFinder.avg s = EdgeFinder.np_mean values
      /\ EdgeFinder.count s = List.length values
      /\ ((List.length values < 2)%nat -> EdgeFinder.std s = 0)
      /\ ((2 <= List.length values)%nat ->
          EdgeFinder.std s = EdgeFinder.np_std np_sqrt values)
  end.
Proof.
  unfold EdgeFinder.calculate_consensus_prediction, EdgeFinder.summarize.
  cbv zeta. destruct (EdgeFinder.collected m g) as [| v vs] eqn:E.
  - reflexivity.
  - cbn [EdgeFinder.avg EdgeFinder.count EdgeFinder.std].
    split; [discriminate |]. split; [reflexivity |]. split; [reflexivity |].
    split; intro H.
    + destruct (Nat.ltb_spec 1 (List.length (v :: vs))); [lia | reflexivity].
    + destruct (Nat.ltb_spec 1 (List.length (v :: vs))); [reflexivity | lia].
Qed.

(** C3. A source that predicts a spread of 0.0 supplies a present value,
    yet the consensus has no spread entry for the game; with a second
    source at 4.0 the entry reports mean 4 over one value, where the mean
    of the present values 0 and 4 is 2 over two values. *)
Theorem consensus_drops_zero_values (np_sqrt : Q -> Q) :
  Spec.present_values EdgeFinder.spread Samples.pickem_game = [0]
  /\ EdgeFinder.calculate_consensus_prediction
       np_sqrt Samples.pickem_game EdgeFinder.spread = None
  /\ Spec.present_values EdgeFinder.spread Samples.two_spreads_game = [0; 4]
  /\ EdgeFinder.np_mean [0; 4] == 2
  /\ exists s,
       EdgeFinder.calculate_consensus_prediction
         np_sqrt Samples.two_spreads_game EdgeFinder.spread = Some s
       /\ EdgeFinder.avg s == 4
       /\ EdgeFinder.std s == 0
       /\ EdgeFinder.count s = 1%nat.
Proof.
  split; [reflexivity |]. split; [reflexivity |]. split; [reflexivity |].
  split; [reflexivity |].
  eexists. split; [vm_compute; reflexivity |].
  split; [reflexivity |]. split; reflexivity.
Qed.

(** ** The edge evaluator *)

(** C1. For a game whose only record carries no market line at all, the
    evaluator of [EdgeFinder] still emits an away moneyline edge: the
    market probability 10/21 comes from the odds of +110 written into the
    function.  The evaluator of [DRatingsAnalyzer] emits nothing for the
    same record. *)
Theorem edge_from_placeholder_odds (np_sqrt : Q -> Q) :
  raw_market_data Samples.away_60 = Some Samples.no_market
  /\ (exists e,
         EdgeFinder.identify_game_edges Samples.away_60_game
           (EdgeFinder.calculate_consensus_prediction
              np_sqrt Samples.away_60_game) 2
         = Ok [e]
         /\ EdgeFinder.e_side e = "away"
         /\ EdgeFinder.e_model_prob e == 6 # 10
         /\ EdgeFinder.e_market_prob e == 10 # 21
         /\ EdgeFinder.e_edge_percent e == 26)
  /\ DRatings.find_edges (fun _ => [Samples.away_60]) None 2 = [].
Proof.
  split; [reflexivity |]. split.
  - eexists. split; [vm_compute; reflexivity |].
    repeat split.
  - reflexivity.
Qed.

(** The presence gate of [DRatingsAnalyzer]: without truthy odds for a
    side, no edge is computed for it. *)
Lemma dratings_needs_market_odds (model_prob : pyval Q) (ml_odds : pyval Z)
    (team : option string) (side : string) (min_edge : Q) :
  truthy_int ml_odds = None ->
  DRatings.moneyline_edges model_prob ml_odds team side min_edge = Ok [].
Proof.
  intro H. unfold DRatings.moneyline_edges. rewrite H.
  destruct (truthy_float model_prob); reflexivity.
Qed.

(** Whatever the market data of the records, the evaluator of
    [EdgeFinder] reads the consensus only. *)
Lemma edge_finder_ignores_market (g g' : EdgeFinder.matched_game)
    (c : EdgeFinder.consensus) (min_edge : Q) :
  EdgeFinder.mg_away_team g = EdgeFinder.mg_away_team g' ->
  EdgeFinder.mg_home_team g = EdgeFinder.mg_home_team g' ->
  EdgeFinder.identify_game_edges g c min_edge
  = EdgeFinder.identify_game_edges g' c min_edge.
Proof.
  intros Ha Hh. unfold EdgeFinder.identify_game_edges. rewrite Ha, Hh.
  reflexivity.
Qed.

(** ** The ranking *)

(** The ranking example of the specification, on the sort keys. *)
Example ranking_example :
  sort_desc (fun k => k) pair_lt Samples.ranking_keys
  = [(9, 4%nat); (9, 2%nat); (4, 5%nat)].
Proof. reflexivity. Qed.

(** C6. With one source and two games, the away side at 30% and at 50%
    against the implied 10/21, the edges are -37% and +5%.  The report of
    the first game gets [max_edge] -37, not the largest absolute edge 37,
    and is ranked below the report whose edge is 5. *)
Theorem max_edge_is_signed (np_sqrt : Q -> Q) :
  exists r1 r2,
    EdgeFinder.find_edges np_sqrt "2026-03-15" "2026-03-16" Samples.two_games
      (Some "2026-03-15") (Some ["dratings"]) 2
    = [r1; r2]
    /\ EdgeFinder.r_game r1 = "Xavier @ Butler"
    /\ EdgeFinder.max_edge r1 == 5
    /\ Spec.max_abs_edge
         (List.map EdgeFinder.e_edge_percent (EdgeFinder.r_edges r1)) == 5
    /\ EdgeFinder.r_game r2 = "Iowa @ Purdue"
    /\ EdgeFinder.max_edge r2 == - (37)
    /\ Spec.max_abs_edge
         (List.map EdgeFinder.e_edge_percent (EdgeFinder.r_edges r2)) == 37.
Proof.
  eexists. eexists. split; [vm_compute; reflexivity |].
  repeat split.
Qed.

(** The sort: a permutation, in descending key order, that keeps the
    elements of equal key in their order. *)
Section SortFacts.
Context {A K : Type} (key : A -> K) (lt : K -> K -> bool).
Hypothesis lt_asym : forall a b, lt a b = true -> lt b a = false.
Hypothesis lt_cotrans :
  forall a b c, lt a b = false -> lt b c = false -> lt a c = false.

Lemma insert_desc_perm (x : A) (l : list A) :
  Permutation (insert_desc key lt x l) (x :: l).
Proof using Type.
  induction l as [| y l IH]; cbn [insert_desc].
  - apply Permutation_refl.
  - destruct (lt (key x) (key y)).
    + apply perm_trans with (y :: x :: l).
      * apply perm_skip. exact IH.
      * apply perm_swap.
    + apply Permutation_refl.
Qed.

Lemma sort_desc_perm (l : list A) : Permutation (sort_desc key lt l) l.
Proof using Type.
  induction l as [| x l IH]; cbn [sort_desc].
  - apply Permutation_refl.
  - apply perm_trans with (x :: sort_desc key lt l).
    + apply insert_desc_perm.
    + apply perm_skip. exact IH.
Qed.

Lemma insert_desc_sorted (x : A) (l : list A) :
  StronglySorted (fun a b => lt (key a) (key b) = false) l ->
  StronglySorted (fun a b => lt (key a) (key b) = false)
                 (insert_desc key lt x l).
Proof using lt_asym lt_cotrans.
  induction l as [| y l IH]; intro Hs; cbn [insert_desc].
  - constructor; constructor.
  - inversion Hs as [| y' l' Hl Hy]; subst.
    destruct (lt (key x) (key y)) eqn:E.
    + constructor; [apply IH; exact Hl |].
      apply Forall_forall. intros z Hz.
      apply (Permutation_in _ (insert_desc_perm x l)) in Hz.
      destruct Hz as [<- | Hz].
      * apply lt_asym. exact E.
      * rewrite Forall_forall in Hy. apply Hy. exact Hz.
    + constructor; [exact Hs |].
      constructor; [exact E |].
      apply Forall_forall. intros z Hz.
      rewrite Forall_forall in Hy.
      apply lt_cotrans with (key y); [exact E | apply Hy; exact Hz].
Qed.

Lemma sort_desc_sorted (l : list A) :
  StronglySorted (fun a b => lt (key a) (key b) = false)
                 (sort_desc key lt l).
Proof using lt_asym lt_cotrans.
  induction l as [| x l IH]; cbn [sort_desc].
  - constructor.
  - apply insert_desc_sorted. exact IH.
Qed.

(** Stability, for any class [p] of elements none of which is below
    another one. *)
Lemma insert_desc_filter (p : A -> bool) (x : A) (l : list A) :
  (forall y, p x = true -> p y = true -> lt (key x) (key y) = false) ->
  List.filter p (insert_desc key lt x l) = List.filter p (x :: l).
Proof using Type.
  intro Hp. induction l as [| y l IH]; cbn [insert_desc].
  - reflexivity.
  - destruct (lt (key x) (key y)) eqn:E; [| reflexivity].
    cbn [List.filter] in *. rewrite IH.
    destruct (p x) eqn:Ex; [| reflexivity].
    destruct (p y) eqn:Ey; [| reflexivity].
    rewrite (Hp y eq_refl Ey) in E. discriminate.
Qed.

Lemma sort_desc_stable (p : A -> bool) (l : list A) :
  (forall x y, p x = true -> p y = true -> lt (key x) (key y) = false) ->
  List.filter p (sort_desc key lt l) = List.filter p l.
Proof using Type.
  intro Hp. induction l as [| x l IH]; cbn [sort_desc].
  - reflexivity.
  - rewrite insert_desc_filter by (intro y; apply Hp).
    cbn [List.filter]. rewrite IH. reflexivity.
Qed.
End SortFacts.

Lemma pair_lt_asym (a b : Q * nat) : pair_lt a b = true -> pair_lt b a = false.
Proof.
  unfold pair_lt. destruct a as [a n], b as [b m]. cbn [fst snd].
  intro H. apply orb_true_iff in H. apply orb_false_iff.
  destruct H as [H | H].
  - apply Qltb_true in H. split.
    + apply Qltb_false. lra.
    + apply andb_false_iff. left. apply Qeq_bool_false. lra.
  - apply andb_true_iff in H. destruct H as [He Hl].
    apply Qeq_bool_iff in He. apply Nat.ltb_lt in Hl. split.
    + apply Qltb_false. lra.
    + apply andb_false_iff. right. apply Nat.ltb_ge. lia.
Qed.

Lemma pair_lt_false (a b : Q * nat) :
  pair_lt a b = false <->
  fst b < fst a \/ (fst a == fst b /\ (snd b <= snd a)%nat).
Proof.
  unfold pair_lt. destruct a as [a n], b as [b m]. cbn [fst snd].
  rewrite orb_false_iff, andb_false_iff, Qltb_false, Qeq_bool_false,
    Nat.ltb_ge.
  split.
  - intros [Hle [Hne | Hn]].
    + left. destruct (Qlt_le_dec b a) as [H | H]; [exact H |].
      exfalso. apply Hne. lra.
    + destruct (Qlt_le_dec b a) as [H | H]; [left; exact H |].
      right. split; [lra | exact Hn].
  - intros [H | [He Hn]].
    + split; [lra | left; lra].
    + split; [lra | right; exact Hn].
Qed.

Lemma pair_lt_cotrans (a b c : Q * nat) :
  pair_lt a b = false -> pair_lt b c = false -> pair_lt a c = false.
Proof.
  rewrite !pair_lt_false.
  intros [H1 | [H1 N1]] [H2 | [H2 N2]].
  - left. lra.
  - left. lra.
  - left. lra.
  - right. split; [lra | lia].
Qed.

(** When the loop of [find_edges] completes, the reports come out as a
    permutation of the reports built, in descending order of the pair
    ([max_edge], [sources_count]). *)
Lemma rank_games_sorted (np_sqrt : Q -> Q)
    (matched_games : list EdgeFinder.matched_game) (min_edge : Q)
    (built : list (option (EdgeFinder.report))) :
  mapM (EdgeFinder.report_of np_sqrt min_edge) matched_games = Ok built ->
  exists ranked,
    EdgeFinder.rank_games np_sqrt matched_games min_edge = Ok ranked
    /\ Permutation ranked (EdgeFinder.somes built)
    /\ StronglySorted
         (fun r1 r2 =>
            pair_lt (EdgeFinder.sort_key r1) (EdgeFinder.sort_key r2) = false)
         ranked.
Proof.
  intro H. unfold EdgeFinder.rank_games. rewrite H. cbn [bind].
  eexists. split; [reflexivity |]. split.
  - apply sort_desc_perm.
  - apply sort_desc_sorted.
    + intros a b. apply pair_lt_asym.
    + intros a b c. apply pair_lt_cotrans.
Qed.

(** Reports with the same [max_edge] and the same [sources_count] keep
    the order in which the games were matched. *)
Lemma rank_games_stable (edge_value : Q) (sources : nat)
    (reports : list EdgeFinder.report) :
  let same r :=
    Qeq_bool (EdgeFinder.max_edge r) edge_value
    && Nat.eqb (EdgeFinder.sources_count r) sources in
  List.filter same (sort_desc EdgeFinder.sort_key pair_lt reports)
  = List.filter same reports.
Proof.
  intro same. apply sort_desc_stable.
  intros x y Hx Hy. unfold same in Hx, Hy.
  apply andb_true_iff in Hx. apply andb_true_iff in Hy.
  destruct Hx as [Hx1 Hx2], Hy as [Hy1 Hy2].
  apply Qeq_bool_iff in Hx1. apply Qeq_bool_iff in Hy1.
  apply Nat.eqb_eq in Hx2. apply Nat.eqb_eq in Hy2.
  apply pair_lt_false. unfold EdgeFinder.sort_key. cbn [fst snd].
  right. split; [lra | lia].
Qed.

(** The sibling: [DRatingsAnalyzer] takes the absolute value before the
    maximum, so the same edge of -37% gives [max_edge] 37. *)
Example dratings_max_edge_is_absolute :
  exists r e,
    DRatings.find_edges (fun _ => [Samples.away_30_priced]) None 2 = [r]
    /\ DRatings.r_edges r = [e]
    /\ DRatings.e_edge_percent e == - (37)
    /\ DRatings.max_edge r == 37.
Proof.
  eexists. eexists. split; [vm_compute; reflexivity |].
  repeat split.
Qed.

(** ** The pipeline never raises *)

Lemma kelly_criterion_returns (model_prob market_prob bankroll : Q) :
  market_prob < 1 ->
  exists stake,
    EdgeFinder.kelly_criterion model_prob market_prob bankroll = Ok stake.
Proof.
  intro Hlt. unfold EdgeFinder.kelly_criterion.
  destruct (Qle_bool market_prob 0) eqn:E1; cbn [orb].
  { eexists; reflexivity. }
  destruct (Qle_bool model_prob 0) eqn:E2.
  { eexists; reflexivity. }
  apply Qle_bool_false in E1.
  rewrite fdiv_ok by lra. cbn [bind].
  destruct (Qle_bool (model_prob - market_prob) 0) eqn:E3.
  { eexists; reflexivity. }
  assert (Hinv : 1 < 1 / market_prob) by (apply Qlt_shift_div_l; lra).
  rewrite fdiv_ok by lra. cbn [bind]. eexists; reflexivity.
Qed.

Lemma calculate_confidence_returns (c : EdgeFinder.consensus)
    (m : EdgeFinder.metric) :
  exists score, EdgeFinder.calculate_confidence c m = Ok score.
Proof.
  unfold EdgeFinder.calculate_confidence.
  destruct (Nat.eqb _ 0); [eexists; reflexivity |].
  rewrite fdiv_ok by discriminate. cbn [bind]. eexists; reflexivity.
Qed.






(** ** Sources without data *)

Lemma dict_get_in {V : Type} (d : dict V) (k : string) (v : V) :
  dict_get d k = Some v -> In (k, v) d.
Proof.
  induction d as [| [k' v'] d IH]; simpl; intro H.
  - discriminate.
  - destruct (String.eqb k' k) eqn:E.
    + apply String.eqb_eq in E. subst k'. injection H as ->. left. reflexivity.
    + right. apply IH. exact H.
Qed.


Lemma no_data_no_base (predictions : dict fetched) :
  (forall entry, In entry predictions -> truthy_fetched (snd entry) = false) ->
  EdgeFinder.match_games_across_sources predictions = [].
Proof.
  intro Hall. unfold EdgeFinder.match_games_across_sources.
  assert (Hnone : forall source, EdgeFinder.has_data predictions source = false).
  { intro source. unfold EdgeFinder.has_data.
    destruct (dict_get predictions source) as [f |] eqn:E; [| reflexivity].
    apply dict_get_in in E. apply (Hall _ E). }
  unfold EdgeFinder.choose_base, EdgeFinder.base_priority.
  cbn [find]. rewrite !Hnone. reflexivity.
Qed.

(** A source without data adds nothing to a matched game. *)
Lemma attach_source_no_data (base away home source : string)
    (matched : dict raw_game) (f : fetched) :
  truthy_fetched f = false ->
  EdgeFinder.attach_source base away home matched (source, f) = matched.
Proof.
  intro H. unfold EdgeFinder.attach_source.
  destruct (String.eqb source base); [reflexivity |].
  destruct f as [| gs]; [reflexivity |].
  destruct gs as [| g gs]; [reflexivity | discriminate].
Qed.

Lemma dict_get_skip {V : Type} (p1 p2 : dict V) (s k : string) (f : V) :
  String.eqb s k = false ->
  dict_get (p1 ++ (s, f) :: p2)%list k = dict_get (p1 ++ p2)%list k.
Proof.
  intro E. induction p1 as [| [k' v'] p1 IH]; cbn [app dict_get].
  - rewrite E. reflexivity.
  - rewrite IH. reflexivity.
Qed.

Lemma dict_get_not_key {V : Type} (d : dict V) (k : string) :
  ~ In k (List.map fst d) -> dict_get d k = None.
Proof.
  induction d as [| [k' v'] d IH]; cbn [List.map fst dict_get In]; intro H.
  - reflexivity.
  - destruct (String.eqb k' k) eqn:E.
    + apply String.eqb_eq in E. exfalso. apply H. left. exact E.
    + apply IH. intro Hin. apply H. right. exact Hin.
Qed.

Lemma dict_get_hit {V : Type} (p1 p2 : dict V) (s : string) (f : V) :
  ~ In s (List.map fst p1) ->
  dict_get (p1 ++ (s, f) :: p2)%list s = Some f.
Proof.
  induction p1 as [| [k' v'] p1 IH]; cbn [List.map fst app dict_get In];
    intro H.
  - rewrite String.eqb_refl. reflexivity.
  - destruct (String.eqb k' s) eqn:E.
    + apply String.eqb_eq in E. exfalso. apply H. left. exact E.
    + apply IH. intro Hin. apply H. right. exact Hin.
Qed.

Lemma filter_map_ext {A B : Type} (f g : A -> option B) (l : list A) :
  (forall a, f a = g a) ->
  EdgeFinder.filter_map f l = EdgeFinder.filter_map g l.
Proof.
  intro H. induction l as [| a l IH]; cbn [EdgeFinder.filter_map].
  - reflexivity.
  - rewrite H, IH. reflexivity.
Qed.

Lemma find_same_test {A : Type} (p q : A -> bool) (l : list A) :
  (forall a, p a = q a) -> find p l = find q l.
Proof.
  intro H. induction l as [| a l IH]; cbn [find].
  - reflexivity.
  - rewrite H, IH. reflexivity.
Qed.

(** A source whose entry holds no data contributes nothing: the matched
    games are those of the dictionary without the entry. *)
Lemma empty_source_contributes_nothing (p1 p2 : dict fetched) (s : string)
    (f : fetched) :
  truthy_fetched f = false ->
  ~ In s (List.map fst (p1 ++ p2)%list) ->
  EdgeFinder.match_games_across_sources (p1 ++ (s, f) :: p2)%list
  = EdgeFinder.match_games_across_sources (p1 ++ p2)%list.
Proof.
  intros Hf Hs.
  assert (Hs1 : ~ In s (List.map fst p1)).
  { intro H. apply Hs. rewrite map_app. apply in_or_app. left. exact H. }
  assert (Hdata : forall k,
             EdgeFinder.has_data (p1 ++ (s, f) :: p2)%list k
             = EdgeFinder.has_data (p1 ++ p2)%list k).
  { intro k. unfold EdgeFinder.has_data.
    destruct (String.eqb s k) eqn:E.
    - apply String.eqb_eq in E. subst k.
      rewrite dict_get_hit by exact Hs1.
      rewrite dict_get_not_key by exact Hs. exact Hf.
    - rewrite dict_get_skip by exact E. reflexivity. }
  unfold EdgeFinder.match_games_across_sources, EdgeFinder.choose_base.
  rewrite (find_same_test _ _ EdgeFinder.base_priority Hdata).
  destruct (find (EdgeFinder.has_data (p1 ++ p2)%list)
                 EdgeFinder.base_priority) as [base |] eqn:Eb;
    [| reflexivity].
  apply find_some in Eb. destruct Eb as [_ Hb].
  assert (E : String.eqb s base = false).
  { destruct (String.eqb s base) eqn:E; [| reflexivity].
    apply String.eqb_eq in E. subst base.
    unfold EdgeFinder.has_data in Hb.
    rewrite dict_get_not_key in Hb by exact Hs. discriminate. }
  rewrite dict_get_skip by exact E.
  destruct (dict_get (p1 ++ p2)%list base) as [base_games |]; [| reflexivity].
  apply filter_map_ext. intro base_game.
  unfold EdgeFinder.match_base_game.
  destruct (raw_away_team base_game) as [a |]; [| reflexivity].
  destruct (raw_home_team base_game) as [h |]; [| reflexivity].
  do 2 f_equal. rewrite !fold_left_app. cbn [fold_left].
  rewrite attach_source_no_data by exact Hf. reflexivity.
Qed.



(** * Further properties of the helpers *)

(** ** Implied probabilities *)

(** The two sides of a line: for every non-zero odds [o], the implied
    probabilities of [o] and of [-o] add up to exactly 1. *)
Theorem implied_probabilities_of_opposite_odds (o : Z) :
  o <> 0%Z ->
  exists p q,
    EdgeFinder.odds_to_probability o = Ok p
    /\ EdgeFinder.odds_to_probability (- o) = Ok q
    /\ p + q == 1.
Proof.
  intro Ho.
  destruct (odds_to_probability_eq o)
    as (n & d & Heq & _ & _ & _ & Hpos & Hneg).
  destruct (odds_to_probability_eq (- o))
    as (n' & d' & Heq' & _ & _ & _ & Hpos' & Hneg').
  exists (n / d), (n' / d'). split; [exact Heq |]. split; [exact Heq' |].
  destruct (Z.lt_trichotomy o 0) as [Hlt | [Hz | Hgt]]; [| contradiction |].
  - destruct Hneg as [Hn Hd]; [lia |].
    destruct Hpos' as [Hn' Hd']; [lia |].
    assert (Hq : 0 < Zq (- o)) by (apply Zq_pos; lia).
    rewrite Hn, Hd, Hn', Hd'. field. lra.
  - destruct Hpos as [Hn Hd]; [lia |].
    destruct Hneg' as [Hn' Hd']; [lia |].
    rewrite Z.opp_involutive in Hn', Hd'.
    assert (Hq : 0 < Zq o) by (apply Zq_pos; lia).
    rewrite Hn, Hd, Hn', Hd'. field. lra.
Qed.

Lemma implied_probabilities_of_opposite_odds_witness :
  110%Z <> 0%Z
  /\ exists p q,
       EdgeFinder.odds_to_probability 110 = Ok p
       /\ EdgeFinder.odds_to_probability (- (110)) = Ok q
       /\ p + q == 1.
Proof.
  assert (H : 110%Z <> 0%Z) by discriminate.
  split; [exact H | exact (implied_probabilities_of_opposite_odds 110 H)].
Defined.

(** The implied probability is above one half exactly for the odds that
    name a favourite: positive odds below 100 and negative odds below
    -100. *)
Theorem implied_probability_above_half (o : Z) :
  exists p,
    EdgeFinder.odds_to_probability o = Ok p
    /\ (1 # 2 < p <-> (0 < o < 100 \/ o < -100)%Z).
Proof.
  destruct (odds_to_probability_eq o)
    as (n & d & Heq & Hn & Hnd & _ & Hpos & Hneg).
  exists (n / d). split; [exact Heq |].
  assert (Hd0 : 0 < d) by lra.
  assert (Hhalf : 1 # 2 < n / d <-> d < 2 * n).
  { split; intro H.
    - apply (Qmult_lt_r _ _ d Hd0) in H.
      assert (E : n / d * d == n) by (field; lra).
      rewrite E in H. lra.
    - apply Qlt_shift_div_l; [exact Hd0 | lra]. }
  rewrite Hhalf.
  destruct (Z.ltb_spec 0 o) as [Hgt | Hle].
  - destruct Hpos as [Hn100 Hd]; [exact Hgt |].
    rewrite Hn100, Hd. split.
    + intro H. left. split; [exact Hgt |].
      assert (Hq : Zq o < Zq 100) by (change (Zq 100) with 100; lra).
      unfold Zq in Hq. rewrite <- Zlt_Qlt in Hq. exact Hq.
    + intros [[_ H] | H]; [| lia].
      assert (Hq : Zq o < Zq 100) by (unfold Zq; rewrite <- Zlt_Qlt; exact H).
      change (Zq 100) with 100 in Hq. lra.
  - destruct Hneg as [Hna Hd]; [exact Hle |].
    rewrite Hna, Hd. split.
    + intro H. right.
      assert (Hq : Zq 100 < Zq (- o)) by (change (Zq 100) with 100; lra).
      unfold Zq in Hq. rewrite <- Zlt_Qlt in Hq. lia.
    + intros [[H _] | H]; [lia |].
      assert (Hq : Zq 100 < Zq (- o)) by (unfold Zq; rewrite <- Zlt_Qlt; lia).
      change (Zq 100) with 100 in Hq. lra.
Qed.

(** ** The edge percentage, continued *)

Lemma calculate_edge_versions_agree_aux (model_prob market_prob : Q) :
  0 <= market_prob ->
  DRatings.calculate_edge model_prob market_prob
  = EdgeFinder.calculate_edge model_prob market_prob.
Proof.
  intro H. unfold DRatings.calculate_edge, EdgeFinder.calculate_edge.
  destruct (Qeq_bool market_prob 0) eqn:E.
  - apply Qeq_bool_iff in E.
    assert (E' : Qle_bool market_prob 0 = true) by (apply Qle_bool_iff; lra).
    rewrite E'. reflexivity.
  - apply Qeq_bool_false in E.
    assert (E' : Qle_bool market_prob 0 = false)
      by (apply Qle_bool_false; lra).
    rewrite E'. reflexivity.
Qed.

(** The two versions of [calculate_edge] differ only below zero: for every
    market probability that is not negative they return the same. *)
Theorem calculate_edge_versions_agree (model_prob market_prob : Q) :
  0 <= market_prob ->
  DRatings.calculate_edge model_prob market_prob
  = EdgeFinder.calculate_edge model_prob market_prob.
Proof. apply calculate_edge_versions_agree_aux. Qed.

Lemma calculate_edge_versions_agree_witness :
  0 <= 10 # 21
  /\ DRatings.calculate_edge (6 # 10) (10 # 21)
     = EdgeFinder.calculate_edge (6 # 10) (10 # 21).
Proof.
  assert (H : 0 <= 10 # 21) by discriminate.
  split; [exact H | exact (calculate_edge_versions_agree (6 # 10) (10 # 21) H)].
Defined.

(** For a positive market probability the edge percentage has the sign of
    model minus market, is 0 only when the two agree, and gives the model
    probability back as market * (1 + edge / 100). *)
Theorem calculate_edge_sign (model_prob market_prob : Q) :
  0 < market_prob ->
  exists e,
    EdgeFinder.calculate_edge model_prob market_prob = Ok e
    /\ (0 < e <-> market_prob < model_prob)
    /\ (e == 0 <-> model_prob == market_prob)
    /\ model_prob == market_prob * (1 + e / 100).
Proof.
  intro H. rewrite calculate_edge_value by exact H.
  eexists. split; [reflexivity |].
  set (r := (model_prob - market_prob) / market_prob).
  assert (Hr : r * market_prob == model_prob - market_prob).
  { unfold r. field. lra. }
  assert (Hpos : 0 < r <-> market_prob < model_prob).
  { split; intro Hx.
    - assert (0 < r * market_prob) by (apply Qmult_lt_0_compat; assumption).
      lra.
    - unfold r. apply ratio_pos; lra. }
  assert (Hzero : r == 0 <-> model_prob == market_prob).
  { split; intro Hx.
    - rewrite Hx in Hr. lra.
    - unfold r. rewrite Hx. field. lra. }
  split; [| split].
  - rewrite <- Hpos. split; intro; lra.
  - rewrite <- Hzero. split; intro; lra.
  - assert (E : market_prob * (1 + r * 100 / 100)
                == market_prob + r * market_prob) by field.
    rewrite E, Hr. ring.
Qed.

Lemma calculate_edge_sign_witness :
  0 < 6 # 10
  /\ exists e,
       EdgeFinder.calculate_edge (65 # 100) (6 # 10) = Ok e
       /\ (0 < e <-> 6 # 10 < 65 # 100)
       /\ (e == 0 <-> 65 # 100 == 6 # 10)
       /\ 65 # 100 == (6 # 10) * (1 + e / 100).
Proof.
  assert (H : 0 < 6 # 10) by reflexivity.
  split; [exact H | exact (calculate_edge_sign (65 # 100) (6 # 10) H)].
Defined.

(** ** Stake sizing, continued *)

Lemma py_min_cases (a b : Q) :
  (b < a /\ py_min a b = b) \/ (a <= b /\ py_min a b = a).
Proof.
  unfold py_min. destruct (Qltb b a) eqn:E.
  - left. split; [apply Qltb_true; exact E | reflexivity].
  - right. split; [apply Qltb_false; exact E | reflexivity].
Qed.

Lemma py_max_cases (a b : Q) :
  (a < b /\ py_max a b = b) \/ (b <= a /\ py_max a b = a).
Proof.
  unfold py_max. destruct (Qltb a b) eqn:E.
  - left. split; [apply Qltb_true; exact E | reflexivity].
  - right. split; [apply Qltb_false; exact E | reflexivity].
Qed.

(** With a non-negative bankroll and any two numbers as probabilities,
    [kelly_criterion] raises [ZeroDivisionError] exactly when the market
    probability is 1 and the model probability is above 1; whenever it
    returns, the stake is at most 5% of the bankroll. *)
Theorem kelly_criterion_fault_and_cap (model_prob market_prob bankroll : Q) :
  0 <= bankroll ->
  (EdgeFinder.kelly_criterion model_prob market_prob bankroll
   = Raise ZeroDivisionError
   <-> market_prob == 1 /\ 1 < model_prob)
  /\ (forall e,
        EdgeFinder.kelly_criterion model_prob market_prob bankroll = Raise e ->
        e = ZeroDivisionError)
  /\ (forall stake,
        EdgeFinder.kelly_criterion model_prob market_prob bankroll = Ok stake ->
        stake <= bankroll * (5 # 100)).
Proof.
  intro Hb. assert (Hcap : 0 <= bankroll * (5 # 100)) by nra.
  unfold EdgeFinder.kelly_criterion.
  destruct (Qle_bool market_prob 0) eqn:E1; cbn [orb].
  { apply Qle_bool_iff in E1. split; [| split].
    - split; [discriminate | intros [H _]; lra].
    - discriminate.
    - intros stake H. injection H as <-. exact Hcap. }
  destruct (Qle_bool model_prob 0) eqn:E2.
  { apply Qle_bool_iff in E2. split; [| split].
    - split; [discriminate | intros [_ H]; lra].
    - discriminate.
    - intros stake H. injection H as <-. exact Hcap. }
  apply Qle_bool_false in E1. apply Qle_bool_false in E2.
  rewrite fdiv_ok by lra. cbn [bind].
  destruct (Qle_bool (model_prob - market_prob) 0) eqn:E3.
  { apply Qle_bool_iff in E3. split; [| split].
    - split; [discriminate | intros [H1 H2]; lra].
    - discriminate.
    - intros stake H. injection H as <-. exact Hcap. }
  apply Qle_bool_false in E3.
  assert (Hone : 1 / market_prob - 1 == 0 <-> market_prob == 1).
  { split; intro H.
    - assert (E : 1 / market_prob * market_prob == 1) by (field; lra).
      assert (E' : 1 / market_prob == 1) by lra.
      rewrite E' in E. lra.
    - rewrite H. reflexivity. }
  unfold fdiv. destruct (Qeq_bool (1 / market_prob - 1) 0) eqn:E4.
  - apply Qeq_bool_iff in E4. apply Hone in E4. cbn [bind].
    split; [| split].
    + split; [intros _; split; [exact E4 | lra] | reflexivity].
    + intros e H. injection H as <-. reflexivity.
    + discriminate.
  - apply Qeq_bool_false in E4. cbn [bind].
    split; [| split].
    + split; [discriminate | intros [H _]; apply Hone in H; contradiction].
    + discriminate.
    + intros stake H. injection H as <-. apply py_min_le_r.
Qed.

Lemma kelly_criterion_fault_and_cap_witness :
  0 <= 1000
  /\ EdgeFinder.kelly_criterion 2 1 1000 = Raise ZeroDivisionError.
Proof.
  assert (H : 0 <= 1000) by discriminate.
  split; [exact H |].
  apply (proj1 (kelly_criterion_fault_and_cap 2 1 1000 H)).
  split; reflexivity.
Defined.

(** The stake in closed form: for a market probability strictly between 0
    and 1 and a model probability above it, the stake is
    bankroll * (model - market) * market / (1 - market), cut at 5% of the
    bankroll. *)
Theorem kelly_criterion_closed_form (model_prob market_prob bankroll : Q) :
  0 < market_prob -> market_prob < 1 -> market_prob < model_prob ->
  exists stake,
    EdgeFinder.kelly_criterion model_prob market_prob bankroll = Ok stake
    /\ let uncapped :=
         bankroll * (model_prob - market_prob) * market_prob
         / (1 - market_prob) in
       (uncapped <= bankroll * (5 # 100) -> stake == uncapped)
       /\ (bankroll * (5 # 100) < uncapped -> stake == bankroll * (5 # 100)).
Proof.
  intros H0 H1 Hm. unfold EdgeFinder.kelly_criterion.
  assert (E1 : Qle_bool market_prob 0 = false) by (apply Qle_bool_false; lra).
  assert (E2 : Qle_bool model_prob 0 = false) by (apply Qle_bool_false; lra).
  rewrite E1, E2. cbn [orb].
  rewrite fdiv_ok by lra. cbn [bind].
  assert (E3 : Qle_bool (model_prob - market_prob) 0 = false)
    by (apply Qle_bool_false; lra).
  rewrite E3.
  assert (Hinv : 1 < 1 / market_prob) by (apply Qlt_shift_div_l; lra).
  rewrite fdiv_ok by lra. cbn [bind].
  eexists. split; [reflexivity |]. cbv zeta.
  assert (Hu : bankroll * ((model_prob - market_prob) / (1 / market_prob - 1))
               == bankroll * (model_prob - market_prob) * market_prob
                  / (1 - market_prob)).
  { field. repeat split; lra. }
  destruct (py_min_cases
              (bankroll * ((model_prob - market_prob) / (1 / market_prob - 1)))
              (bankroll * (5 # 100))) as [[Hlt ->] | [Hle ->]].
  - split; intro H; [lra | reflexivity].
  - split; intro H; [exact Hu | lra].
Qed.

Lemma kelly_criterion_closed_form_witness :
  0 < 1 # 2 /\ 1 # 2 < 1 /\ 1 # 2 < 52 # 100
  /\ exists stake,
       EdgeFinder.kelly_criterion (52 # 100) (1 # 2) 1000 = Ok stake
       /\ let uncapped :=
            1000 * ((52 # 100) - (1 # 2)) * (1 # 2) / (1 - (1 # 2)) in
          (uncapped <= 1000 * (5 # 100) -> stake == uncapped)
          /\ (1000 * (5 # 100) < uncapped -> stake == 1000 * (5 # 100)).
Proof.
  assert (H0 : 0 < 1 # 2) by reflexivity.
  assert (H1 : 1 # 2 < 1) by reflexivity.
  assert (Hm : 1 # 2 < 52 # 100) by reflexivity.
  split; [exact H0 |]. split; [exact H1 |]. split; [exact Hm |].
  exact (kelly_criterion_closed_form (52 # 100) (1 # 2) 1000 H0 H1 Hm).
Defined.

(** ** The confidence score *)

Lemma Zq_of_nat_ge (n k : nat) :
  (k <= n)%nat -> Zq (Z.of_nat k) <= Zq (Z.of_nat n).
Proof.
  intro H. unfold Zq. rewrite <- Zle_Qle. lia.
Qed.

(** [calculate_confidence] returns 0 for a metric without an entry.  For
    an entry with a standard deviation that is not negative the score lies
    between 0 and 100; it is at least 20 once one source contributes, it no
    longer depends on the number of sources from three sources on, and it
    is 100 when three or more sources agree exactly. *)
Theorem calculate_confidence_range (c : EdgeFinder.consensus)
    (m : EdgeFinder.metric) :
  (c m = None -> EdgeFinder.calculate_confidence c m = Ok 0)
  /\ forall s,
       c m = Some s -> 0 <= EdgeFinder.std s ->
       exists score,
         EdgeFinder.calculate_confidence c m = Ok score
         /\ 0 <= score /\ score <= 100
         /\ ((1 <= EdgeFinder.count s)%nat -> 20 <= score)
         /\ ((3 <= EdgeFinder.count s)%nat ->
             score == 60 + 40 * py_max 0 (1 - EdgeFinder.std s * 4))
         /\ ((3 <= EdgeFinder.count s)%nat -> EdgeFinder.std s == 0 ->
             score == 100).
Proof.
  unfold EdgeFinder.calculate_confidence. split.
  - intro H. rewrite H. reflexivity.
  - intros s Hs Hstd. rewrite Hs.
    destruct (Nat.eqb (EdgeFinder.count s) 0) eqn:E.
    + apply Nat.eqb_eq in E. exists 0.
      split; [reflexivity |]. split; [lra |]. split; [lra |].
      repeat split; intros; lia.
    + apply Nat.eqb_neq in E.
      rewrite fdiv_ok by discriminate. cbn [bind].
      eexists. split; [reflexivity |].
      set (ratio := Zq (Z.of_nat (EdgeFinder.count s)) / 3).
      set (agreement := py_max 0 (1 - EdgeFinder.std s * 4)).
      assert (Hone : 1 <= Zq (Z.of_nat (EdgeFinder.count s))).
      { change 1 with (Zq (Z.of_nat 1)). apply Zq_of_nat_ge. lia. }
      assert (Hratio : 1 # 3 <= ratio).
      { unfold ratio. apply Qle_shift_div_l; lra. }
      assert (Hsat : (3 <= EdgeFinder.count s)%nat -> 1 <= ratio).
      { intro H3. unfold ratio. apply Qle_shift_div_l; [lra |].
        assert (3 <= Zq (Z.of_nat (EdgeFinder.count s))).
        { change 3 with (Zq (Z.of_nat 3)). apply Zq_of_nat_ge. exact H3. }
        lra. }
      assert (Hag : 0 <= agreement /\ agreement <= 1).
      { unfold agreement.
        destruct (py_max_cases 0 (1 - EdgeFinder.std s * 4))
          as [[Hlt ->] | [Hle ->]]; split; lra. }
      destruct Hag as [Hag0 Hag1].
      destruct (py_min_cases ratio 1) as [[Hlt Hmin] | [Hle Hmin]];
        rewrite Hmin.
      * split; [lra |]. split; [lra |]. split; [intros; lra |].
        split; [intros; lra |].
        intros _ Hz. unfold agreement.
        destruct (py_max_cases 0 (1 - EdgeFinder.std s * 4))
          as [[Hl ->] | [Hl ->]]; lra.
      * split; [lra |]. split; [lra |]. split; [intros; lra |].
        split.
        -- intro H3. specialize (Hsat H3). lra.
        -- intros H3 Hz. specialize (Hsat H3). unfold agreement.
           destruct (py_max_cases 0 (1 - EdgeFinder.std s * 4))
             as [[Hl ->] | [Hl ->]]; lra.
Qed.

Lemma calculate_confidence_range_witness :
  exists score,
    EdgeFinder.calculate_confidence
      (fun _ => Some {| EdgeFinder.avg := 65 # 100;
                        EdgeFinder.std := 0;
                        EdgeFinder.count := 2 |})
      EdgeFinder.home_win_prob = Ok score
    /\ 0 <= score /\ score <= 100.
Proof.
  destruct (proj2 (calculate_confidence_range
                     (fun _ => Some {| EdgeFinder.avg := 65 # 100;
                                       EdgeFinder.std := 0;
                                       EdgeFinder.count := 2 |})
                     EdgeFinder.home_win_prob)
                  _ eq_refl (Qle_refl 0))
    as (score & Hs & H0 & H100 & _).
  exists score. repeat split; assumption.
Defined.

(** Two sources that agree exactly score 80. *)
Example confidence_two_agreeing_sources :
  exists score,
    EdgeFinder.calculate_confidence
      (fun _ => Some {| EdgeFinder.avg := 65 # 100;
                        EdgeFinder.std := 0;
                        EdgeFinder.count := 2 |})
      EdgeFinder.home_win_prob = Ok score
    /\ score == 80.
Proof. eexists. split; [vm_compute; reflexivity | reflexivity]. Qed.

(** ** Team names, continued *)

Lemma lstrip_all_space (s : string) : all_space s = true -> lstrip s = "".
Proof.
  induction s as [| c s IH]; cbn [all_space lstrip]; intro H.
  - reflexivity.
  - apply andb_true_iff in H. destruct H as [Hc Hs]. rewrite Hc. apply IH, Hs.
Qed.

Lemma lstrip_pad (l s : string) :
  all_space l = true -> lstrip (l ++ s) = lstrip s.
Proof.
  induction l as [| c l IH]; cbn [all_space append lstrip]; intro H.
  - reflexivity.
  - apply andb_true_iff in H. destruct H as [Hc Hl]. rewrite Hc. apply IH, Hl.
Qed.

Lemma rstrip_all_space (s : string) : all_space s = true -> rstrip s = "".
Proof.
  induction s as [| c s IH]; cbn [all_space rstrip]; intro H.
  - reflexivity.
  - apply andb_true_iff in H. destruct H as [Hc Hs].
    rewrite (IH Hs), Hc. reflexivity.
Qed.

Lemma rstrip_pad (s r : string) :
  all_space r = true -> rstrip (s ++ r) = rstrip s.
Proof.
  intro H. induction s as [| c s IH]; cbn [append rstrip].
  - apply rstrip_all_space, H.
  - rewrite IH. reflexivity.
Qed.

Lemma py_strip_pad_right (s r : string) :
  all_space r = true -> py_strip (s ++ r) = py_strip s.
Proof.
  intro H. unfold py_strip. induction s as [| c s IH]; cbn [append lstrip].
  - rewrite (lstrip_all_space r H). reflexivity.
  - destruct (is_space c); [exact IH |].
    apply (rstrip_pad (String c s) r H).
Qed.

Lemma py_strip_pad (l s r : string) :
  all_space l = true -> all_space r = true ->
  py_strip (l ++ s ++ r) = py_strip s.
Proof.
  intros Hl Hr. unfold py_strip. rewrite (lstrip_pad l (s ++ r) Hl).
  apply (py_strip_pad_right s r Hr).
Qed.

(** Whitespace around a raw name does not matter: the name with any
    whitespace before and after it resolves to the same team. *)
Theorem normalize_team_names_ignores_padding (l raw_name r : string) :
  all_space l = true -> all_space r = true ->
  EdgeFinder.normalize_team_names (l ++ raw_name ++ r)
  = EdgeFinder.normalize_team_names raw_name.
Proof.
  intros Hl Hr. unfold EdgeFinder.normalize_team_names.
  rewrite (py_strip_pad l raw_name r Hl Hr). reflexivity.
Qed.

Lemma normalize_team_names_ignores_padding_witness :
  all_space "  " = true /\ all_space " " = true
  /\ EdgeFinder.normalize_team_names ("  " ++ "Duke University" ++ " ")
     = EdgeFinder.normalize_team_names "Duke University".
Proof.
  assert (Hl : all_space "  " = true) by reflexivity.
  assert (Hr : all_space " " = true) by reflexivity.
  split; [exact Hl |]. split; [exact Hr |].
  exact (normalize_team_names_ignores_padding "  " "Duke University" " " Hl Hr).
Defined.

(** ** The game matcher, continued *)

Lemma dict_get_set_same {V : Type} (d : dict V) (k : string) (v : V) :
  dict_get (dict_set d k v) k = Some v.
Proof.
  induction d as [| [k' v'] d IH]; cbn [dict_set dict_get].
  - rewrite String.eqb_refl. reflexivity.
  - destruct (String.eqb k' k) eqn:E; cbn [dict_get]; rewrite E.
    + reflexivity.
    + exact IH.
Qed.

Lemma dict_get_set_other {V : Type} (d : dict V) (k k' : string) (v : V) :
  String.eqb k k' = false ->
  dict_get (dict_set d k v) k' = dict_get d k'.
Proof.
  intro Hk. induction d as [| [k0 v0] d IH]; cbn [dict_set dict_get].
  - rewrite Hk. reflexivity.
  - destruct (String.eqb k0 k) eqn:E; cbn [dict_get].
    + apply String.eqb_eq in E. subst k0. rewrite Hk. reflexivity.
    + rewrite IH. reflexivity.
Qed.

Lemma dict_set_keys {V : Type} (d : dict V) (k : string) (v : V) :
  (In k (List.map fst d) /\ List.map fst (dict_set d k v) = List.map fst d)
  \/ (~ In k (List.map fst d)
      /\ List.map fst (dict_set d k v) = (List.map fst d ++ [k])%list).
Proof.
  induction d as [| [k' v'] d IH]; cbn [dict_set List.map fst].
  - right. split; [intros [] | reflexivity].
  - destruct (String.eqb k' k) eqn:E.
    + apply String.eqb_eq in E. subst k'. left.
      split; [left; reflexivity | reflexivity].
    + apply String.eqb_neq in E. cbn [List.map fst].
      destruct IH as [[Hin Heq] | [Hnin Heq]]; rewrite Heq.
      * left. split; [right; exact Hin | reflexivity].
      * right. split; [| reflexivity].
        intros [H | H]; [apply E; exact H | apply Hnin; exact H].
Qed.

Lemma dict_set_nodup {V : Type} (d : dict V) (k : string) (v : V) :
  NoDup (List.map fst d) -> NoDup (List.map fst (dict_set d k v)).
Proof.
  intro H. destruct (dict_set_keys d k v) as [[_ ->] | [Hnin ->]].
  - exact H.
  - apply NoDup_app; [exact H | repeat constructor; intros [] |].
    intros x Hx [<- | []]. apply Hnin. exact Hx.
Qed.

Lemma attach_source_nodup (base away home : string)
    (matched : dict raw_game) (entry : string * fetched) :
  NoDup (List.map fst matched) ->
  NoDup (List.map fst (EdgeFinder.attach_source base away home matched entry)).
Proof.
  intro H. destruct entry as [source games]. unfold EdgeFinder.attach_source.
  destruct (String.eqb source base); [exact H |].
  destruct (find _ (records games)); [| exact H].
  apply dict_set_nodup. exact H.
Qed.

Lemma fold_attach_nodup (base away home : string) (todo : dict fetched) :
  forall matched,
    NoDup (List.map fst matched) ->
    NoDup (List.map fst
             (fold_left (EdgeFinder.attach_source base away home) todo matched)).
Proof.
  induction todo as [| entry todo IH]; intros matched H; cbn [fold_left].
  - exact H.
  - apply IH. apply attach_source_nodup. exact H.
Qed.

Lemma choose_base_has_data (predictions : dict fetched) (base : string) :
  EdgeFinder.choose_base predictions = Some base ->
  In base EdgeFinder.base_priority
  /\ exists f, dict_get predictions base = Some f /\ truthy_fetched f = true.
Proof.
  intro H. unfold EdgeFinder.choose_base in H. apply find_some in H.
  destruct H as [Hin Hdata]. split; [exact Hin |].
  unfold EdgeFinder.has_data in Hdata.
  destruct (dict_get predictions base) as [f |]; [| discriminate].
  exists f. split; [reflexivity | exact Hdata].
Qed.

(** The anchor is the first of dratings, cbbpy and barttorvik that has
    data; when none of the three has data, no game is matched, whatever the
    other sources hold. *)
Theorem anchor_priority (predictions : dict fetched) :
  match EdgeFinder.choose_base predictions with
  | Some base =>
      EdgeFinder.has_data predictions base = true
      /\ (base = "dratings"
          \/ (base = "cbbpy"
              /\ EdgeFinder.has_data predictions "dratings" = false)
          \/ (base = "barttorvik"
              /\ EdgeFinder.has_data predictions "dratings" = false
              /\ EdgeFinder.has_data predictions "cbbpy" = false))
  | None =>
      EdgeFinder.has_data predictions "dratings" = false
      /\ EdgeFinder.has_data predictions "cbbpy" = false
      /\ EdgeFinder.has_data predictions "barttorvik" = false
      /\ EdgeFinder.match_games_across_sources predictions = []
  end.
Proof.
  unfold EdgeFinder.match_games_across_sources, EdgeFinder.choose_base,
    EdgeFinder.base_priority.
  cbn [find].
  destruct (EdgeFinder.has_data predictions "dratings") eqn:E1.
  { split; [exact E1 | left; reflexivity]. }
  destruct (EdgeFinder.has_data predictions "cbbpy") eqn:E2.
  { split; [exact E2 | right; left; split; reflexivity]. }
  destruct (EdgeFinder.has_data predictions "barttorvik") eqn:E3.
  { split; [exact E3 | right; right; repeat split; reflexivity]. }
  repeat split; reflexivity.
Qed.

Lemma map_filter_map {A B C : Type} (g : B -> C) (f : A -> option B)
    (l : list A) :
  List.map g (EdgeFinder.filter_map f l)
  = EdgeFinder.filter_map (fun a => option_map g (f a)) l.
Proof.
  induction l as [| a l IH]; cbn [EdgeFinder.filter_map List.map].
  - reflexivity.
  - destruct (f a) as [b |]; cbn [option_map List.map]; rewrite IH;
      reflexivity.
Qed.

(** Which games exist is decided by the anchor alone: the keys of the
    matched games are the keys of the anchor's records that carry both team
    names, in the anchor's order.  The other sources add and remove no
    game. *)
Theorem matched_games_follow_anchor (predictions : dict fetched)
    (base : string) :
  EdgeFinder.choose_base predictions = Some base ->
  exists f,
    dict_get predictions base = Some f
    /\ List.map Spec.game_key
         (EdgeFinder.match_games_across_sources predictions)
       = EdgeFinder.filter_map anchor_key (records f).
Proof.
  intro Hb. destruct (choose_base_has_data predictions base Hb)
    as (_ & f & Hf & _).
  exists f. split; [exact Hf |].
  unfold EdgeFinder.match_games_across_sources. rewrite Hb, Hf.
  rewrite map_filter_map. apply filter_map_ext. intro r.
  unfold EdgeFinder.match_base_game, anchor_key, date_or_empty.
  destruct (raw_away_team r); [| reflexivity].
  destruct (raw_home_team r); reflexivity.
Qed.

Lemma matched_games_follow_anchor_witness :
  EdgeFinder.choose_base Samples.cross_date = Some "dratings"
  /\ exists f,
       dict_get Samples.cross_date "dratings" = Some f
       /\ List.map Spec.game_key
            (EdgeFinder.match_games_across_sources Samples.cross_date)
          = EdgeFinder.filter_map anchor_key (records f).
Proof.
  assert (H : EdgeFinder.choose_base Samples.cross_date = Some "dratings")
    by reflexivity.
  split; [exact H |].
  exact (matched_games_follow_anchor Samples.cross_date "dratings" H).
Defined.

Lemma matched_game_keys (predictions : dict fetched)
    (g : EdgeFinder.matched_game) :
  In g (EdgeFinder.match_games_across_sources predictions) ->
  NoDup (List.map fst (EdgeFinder.mg_predictions g))
  /\ (1 <= List.length (EdgeFinder.mg_predictions g))%nat.
Proof.
  unfold EdgeFinder.match_games_across_sources.
  destruct (EdgeFinder.choose_base predictions) as [base |]; [| intros []].
  destruct (dict_get predictions base) as [base_games |]; [| intros []].
  intro Hin. apply in_filter_map in Hin. destruct Hin as (base_game & _ & Hm).
  assert (Hhd := match_base_game_ok _ _ _ _ Hm).
  destruct Hhd as (_ & _ & Hhd & _).
  unfold EdgeFinder.match_base_game in Hm.
  destruct (raw_away_team base_game) as [a |]; [| discriminate].
  destruct (raw_home_team base_game) as [h |]; [| discriminate].
  injection Hm as <-. cbn [EdgeFinder.mg_predictions] in *. split.
  - apply fold_attach_nodup. cbn. constructor; [intros [] | constructor].
  - destruct (fold_left _ predictions _); [discriminate | cbn; lia].
Qed.

(** A matched game holds at least the anchor record and at most one
    record per source. *)
Theorem matched_game_sources_unique (predictions : dict fetched)
    (g : EdgeFinder.matched_game) :
  In g (EdgeFinder.match_games_across_sources predictions) ->
  NoDup (List.map fst (EdgeFinder.mg_predictions g))
  /\ (1 <= List.length (EdgeFinder.mg_predictions g))%nat.
Proof. apply matched_game_keys. Qed.

Lemma matched_game_sources_unique_witness :
  In Samples.cross_date_game
     (EdgeFinder.match_games_across_sources Samples.cross_date)
  /\ NoDup (List.map fst (EdgeFinder.mg_predictions Samples.cross_date_game))
  /\ (1 <= List.length (EdgeFinder.mg_predictions Samples.cross_date_game))%nat.
Proof.
  assert (H : In Samples.cross_date_game
                (EdgeFinder.match_games_across_sources Samples.cross_date))
    by (left; reflexivity).
  split; [exact H |].
  exact (matched_game_sources_unique
           Samples.cross_date Samples.cross_date_game H).
Defined.

Lemma attach_source_get (base away home s : string)
    (matched : dict raw_game) (k : string) (f : fetched) :
  String.eqb s base = false ->
  dict_get (EdgeFinder.attach_source base away home matched (k, f)) s
  = if String.eqb k s
    then match find (fun r => EdgeFinder.is_same_game r away home)
                    (records f) with
         | Some r => Some r
         | None => dict_get matched s
         end
    else dict_get matched s.
Proof.
  intro Hs. unfold EdgeFinder.attach_source.
  destruct (String.eqb k s) eqn:Eks.
  - apply String.eqb_eq in Eks. subst k. rewrite Hs.
    destruct (find _ (records f)) as [r |]; [| reflexivity].
    apply dict_get_set_same.
  - destruct (String.eqb k base); [reflexivity |].
    destruct (find _ (records f)) as [r |]; [| reflexivity].
    apply dict_get_set_other. exact Eks.
Qed.

Lemma fold_attach_get (base away home s : string) (todo : dict fetched) :
  String.eqb s base = false ->
  NoDup (List.map fst todo) ->
  forall matched,
    dict_get (fold_left (EdgeFinder.attach_source base away home) todo matched)
             s
    = match dict_get todo s with
      | Some f =>
          match find (fun r => EdgeFinder.is_same_game r away home)
                     (records f) with
          | Some r => Some r
          | None => dict_get matched s
          end
      | None => dict_get matched s
      end.
Proof.
  intros Hs. induction todo as [| [k f] todo IH]; intros Hnd matched.
  - reflexivity.
  - cbn [fold_left dict_get]. cbn [List.map fst] in Hnd.
    inversion Hnd as [| k' ks Hnin Hnd']; subst.
    rewrite (IH Hnd'). rewrite attach_source_get by exact Hs.
    destruct (String.eqb k s) eqn:Eks.
    + apply String.eqb_eq in Eks. subst k.
      rewrite (dict_get_not_key todo s Hnin). reflexivity.
    + destruct (dict_get todo s) as [f' |]; [| reflexivity].
      destruct (find _ (records f')); reflexivity.
Qed.

(** Which record a source contributes: in a dictionary with one entry per
    source, a source other than the anchor contributes to a game the first
    of its records that resolves to the game's pair of teams, and nothing
    when it has none; later records for the same pair are not looked at. *)
Theorem first_matching_record_is_attached (predictions : dict fetched)
    (g : EdgeFinder.matched_game) (source : string) (f : fetched) :
  NoDup (List.map fst predictions) ->
  In g (EdgeFinder.match_games_across_sources predictions) ->
  dict_get predictions source = Some f ->
  EdgeFinder.choose_base predictions <> Some source ->
  dict_get (EdgeFinder.mg_predictions g) source
  = find (fun r => EdgeFinder.is_same_game r (EdgeFinder.mg_away_team g)
                     (EdgeFinder.mg_home_team g))
         (records f).
Proof.
  intros Hnd Hin Hf Hbase.
  unfold EdgeFinder.match_games_across_sources in Hin.
  destruct (EdgeFinder.choose_base predictions) as [base |]; [| destruct Hin].
  destruct (dict_get predictions base) as [base_games |]; [| destruct Hin].
  apply in_filter_map in Hin. destruct Hin as (base_game & _ & Hm).
  unfold EdgeFinder.match_base_game in Hm.
  destruct (raw_away_team base_game) as [a |]; [| discriminate].
  destruct (raw_home_team base_game) as [h |]; [| discriminate].
  injection Hm as <-.
  cbn [EdgeFinder.mg_predictions EdgeFinder.mg_away_team
       EdgeFinder.mg_home_team].
  assert (Hs : String.eqb source base = false).
  { apply String.eqb_neq. intro E. apply Hbase. rewrite E. reflexivity. }
  rewrite (fold_attach_get _ _ _ _ _ Hs Hnd). rewrite Hf.
  cbn [dict_get]. rewrite String.eqb_sym, Hs.
  destruct (find _ (records f)); reflexivity.
Qed.

Lemma first_matching_record_is_attached_witness :
  NoDup (List.map fst Samples.cross_date)
  /\ In Samples.cross_date_game
        (EdgeFinder.match_games_across_sources Samples.cross_date)
  /\ dict_get Samples.cross_date "cbbpy" = Some (Games [Samples.duke_unc_16])
  /\ EdgeFinder.choose_base Samples.cross_date <> Some "cbbpy"
  /\ dict_get (EdgeFinder.mg_predictions Samples.cross_date_game) "cbbpy"
     = find (fun r => EdgeFinder.is_same_game r "Duke" "North Carolina")
            [Samples.duke_unc_16].
Proof.
  assert (Hnd : NoDup (List.map fst Samples.cross_date)).
  { cbn. constructor; [intros [H | []]; discriminate |].
    constructor; [intros [] | constructor]. }
  assert (Hin : In Samples.cross_date_game
                  (EdgeFinder.match_games_across_sources Samples.cross_date))
    by (left; reflexivity).
  assert (Hf : dict_get Samples.cross_date "cbbpy"
               = Some (Games [Samples.duke_unc_16])) by reflexivity.
  assert (Hb : EdgeFinder.choose_base Samples.cross_date <> Some "cbbpy")
    by discriminate.
  split; [exact Hnd |]. split; [exact Hin |]. split; [exact Hf |].
  split; [exact Hb |].
  exact (first_matching_record_is_attached Samples.cross_date
           Samples.cross_date_game "cbbpy" (Games [Samples.duke_unc_16])
           Hnd Hin Hf Hb).
Defined.

(** A source without data is ignored: with one entry per source, the
    matched games are the same as if the source had not been asked. *)
Theorem source_without_data_is_ignored (p1 p2 : dict fetched) (s : string)
    (f : fetched) :
  truthy_fetched f = false ->
  ~ In s (List.map fst (p1 ++ p2)%list) ->
  EdgeFinder.match_games_across_sources (p1 ++ (s, f) :: p2)%list
  = EdgeFinder.match_games_across_sources (p1 ++ p2)%list.
Proof. apply empty_source_contributes_nothing. Qed.

Lemma source_without_data_is_ignored_witness :
  truthy_fetched NoData = false
  /\ ~ In "cbbpy"
       (List.map fst ([("dratings", Games [Samples.duke_unc_15])] ++ [])%list)
  /\ EdgeFinder.match_games_across_sources
       ([("dratings", Games [Samples.duke_unc_15])]
        ++ ("cbbpy", NoData) :: [])%list
     = EdgeFinder.match_games_across_sources
         ([("dratings", Games [Samples.duke_unc_15])] ++ [])%list.
Proof.
  assert (Hf : truthy_fetched NoData = false) by reflexivity.
  assert (Hs : ~ In "cbbpy"
                 (List.map fst
                    ([("dratings", Games [Samples.duke_unc_15])] ++ [])%list)).
  { cbn. intros [H | []]. discriminate. }
  split; [exact Hf |]. split; [exact Hs |].
  exact (source_without_data_is_ignored
           [("dratings", Games [Samples.duke_unc_15])] [] "cbbpy" NoData
           Hf Hs).
Defined.

(** ** The consensus, continued *)






Lemma collected_from_length (m : EdgeFinder.metric) (r : raw_game) :
  (List.length (EdgeFinder.collected_from m r) <= 1)%nat.
Proof.
  unfold EdgeFinder.collected_from.
  destruct (raw_predictions r) as [data |]; [| cbn; lia].
  destruct (truthy_float _); cbn; lia.
Qed.

Lemma collected_length (m : EdgeFinder.metric) (g : EdgeFinder.matched_game) :
  (List.length (EdgeFinder.collected m g)
   <= List.length (EdgeFinder.mg_predictions g))%nat.
Proof.
  unfold EdgeFinder.collected.
  induction (EdgeFinder.mg_predictions g) as [| entry l IH].
  - cbn. lia.
  - cbn [flat_map List.length]. rewrite length_app.
    pose proof (collected_from_length m (snd entry)). lia.
Qed.

Lemma collected_nonzero (m : EdgeFinder.metric) (g : EdgeFinder.matched_game)
    (v : Q) :
  In v (EdgeFinder.collected m g) -> ~ v == 0.
Proof.
  rewrite collected_filters_present. intro H. apply filter_In in H.
  destruct H as [_ H]. unfold truthyQ in H. apply negb_true_iff in H.
  apply Qeq_bool_false. exact H.
Qed.

(** An entry of the consensus counts at least one value and at most as
    many values as the game has records; a single value has standard
    deviation 0; and no value that enters the consensus is 0. *)
Theorem consensus_count_bounds (np_sqrt : Q -> Q)
    (g : EdgeFinder.matched_game) (m : EdgeFinder.metric)
    (s : EdgeFinder.stat) :
  EdgeFinder.calculate_consensus_prediction np_sqrt g m = Some s ->
  (1 <= EdgeFinder.count s)%nat
  /\ (EdgeFinder.count s <= List.length (EdgeFinder.mg_predictions g))%nat
  /\ EdgeFinder.count s = List.length (EdgeFinder.collected m g)
  /\ (EdgeFinder.count s = 1%nat -> EdgeFinder.std s = 0)
  /\ forall v, In v (EdgeFinder.collected m g) -> ~ v == 0.
Proof.
  intro Hs. pose proof (collected_length m g) as Hlen.
  pose proof (collected_nonzero m g) as Hnz.
  unfold EdgeFinder.calculate_consensus_prediction, EdgeFinder.summarize in Hs.
  destruct (EdgeFinder.collected m g) as [| v vs] eqn:E; [discriminate |].
  injection Hs as <-. cbn [EdgeFinder.count EdgeFinder.std].
  split; [cbn; lia |]. split; [exact Hlen |]. split; [reflexivity |].
  split; [| exact Hnz].
  intro H1. destruct vs; [reflexivity | discriminate].
Qed.

Lemma consensus_count_bounds_witness :
  exists s,
    EdgeFinder.calculate_consensus_prediction
      (fun x => x) Samples.two_spreads_game EdgeFinder.spread = Some s
    /\ (1 <= EdgeFinder.count s)%nat
    /\ (EdgeFinder.count s
        <= List.length (EdgeFinder.mg_predictions Samples.two_spreads_game))%nat.
Proof.
  eexists. split; [reflexivity |].
  destruct (consensus_count_bounds (fun x => x) Samples.two_spreads_game
              EdgeFinder.spread _ eq_refl) as (H1 & H2 & _).
  split; [exact H1 | exact H2].
Defined.

(** ** The edge evaluator, continued *)

Lemma moneyline_edges_form (c : EdgeFinder.consensus) (m : EdgeFinder.metric)
    (odds : Z) (team side : string) :
  odds <> 0%Z ->
  exists candidate,
    (forall min_edge,
        EdgeFinder.moneyline_edges c m odds team side min_edge
        = Ok (select_edge min_edge candidate))
    /\ match candidate with
       | Some e => edge_built_from c m odds team side e
       | None => c m = None
       end.
Proof.
  intro Ho. destruct (c m) as [s |] eqn:Hc.
  - destruct (implied_probability_bounds odds)
      as (p & Hp & Hp0 & Hp1 & Hcase).
    destruct Hcase as [[Hz _] | [_ Hpos]]; [contradiction |].
    pose proof (calculate_edge_value (EdgeFinder.avg s) p Hpos) as He.
    destruct (kelly_criterion_returns (EdgeFinder.avg s) p
                EdgeFinder.default_bankroll Hp1) as [stake Hk].
    destruct (calculate_confidence_returns c m) as [score Hs].
    exists (Some {| EdgeFinder.e_type := "moneyline";
                    EdgeFinder.e_team := team;
                    EdgeFinder.e_side := side;
                    EdgeFinder.e_model_prob := EdgeFinder.avg s;
                    EdgeFinder.e_market_prob := p;
                    EdgeFinder.e_edge_percent :=
                      (EdgeFinder.avg s - p) / p * 100;
                    EdgeFinder.e_kelly_bet_amount := stake;
                    EdgeFinder.e_confidence := score;
                    EdgeFinder.e_recommended :=
                      Qltb 0 ((EdgeFinder.avg s - p) / p * 100) |}).
    split.
    + intro min_edge. unfold EdgeFinder.moneyline_edges.
      rewrite Hc, Hp. cbn [bind]. rewrite He. cbn [bind].
      unfold select_edge, passes. cbn [EdgeFinder.e_edge_percent].
      destruct (Qle_bool min_edge _); [| reflexivity].
      rewrite Hk. cbn [bind]. rewrite Hs. reflexivity.
    + exists s. cbn. repeat split; assumption.
  - exists None. split; [| reflexivity].
    intro min_edge. unfold EdgeFinder.moneyline_edges. rewrite Hc. reflexivity.
Qed.

Lemma identify_game_edges_form (g : EdgeFinder.matched_game)
    (c : EdgeFinder.consensus) :
  exists away home,
    (forall min_edge,
        EdgeFinder.identify_game_edges g c min_edge
        = Ok (select_edge min_edge away ++ select_edge min_edge home)%list)
    /\ match away with
       | Some e =>
           edge_built_from c EdgeFinder.away_win_prob
             EdgeFinder.placeholder_away_ml_odds
             (EdgeFinder.mg_away_team g) "away" e
       | None => c EdgeFinder.away_win_prob = None
       end
    /\ match home with
       | Some e =>
           edge_built_from c EdgeFinder.home_win_prob
             EdgeFinder.placeholder_home_ml_odds
             (EdgeFinder.mg_home_team g) "home" e
       | None => c EdgeFinder.home_win_prob = None
       end.
Proof.
  destruct (moneyline_edges_form c EdgeFinder.away_win_prob
              EdgeFinder.placeholder_away_ml_odds
              (EdgeFinder.mg_away_team g) "away") as (away & Ha & Pa);
    [discriminate |].
  destruct (moneyline_edges_form c EdgeFinder.home_win_prob
              EdgeFinder.placeholder_home_ml_odds
              (EdgeFinder.mg_home_team g) "home") as (home & Hh & Ph);
    [discriminate |].
  exists away, home. split; [| split; assumption].
  intro min_edge. unfold EdgeFinder.identify_game_edges.
  rewrite Ha, Hh. reflexivity.
Qed.

Lemma select_edge_in (min_edge : Q) (candidate : option EdgeFinder.edge)
    (e : EdgeFinder.edge) :
  In e (select_edge min_edge candidate) ->
  candidate = Some e /\ passes min_edge e = true.
Proof.
  unfold select_edge. destruct candidate as [e' |]; [| intros []].
  destruct (passes min_edge e') eqn:E; [| intros []].
  intros [<- | []]. split; [reflexivity | exact E].
Qed.

Lemma kelly_criterion_range (model_prob market_prob bankroll stake : Q) :
  0 < market_prob -> market_prob < 1 -> 0 <= bankroll ->
  EdgeFinder.kelly_criterion model_prob market_prob bankroll = Ok stake ->
  0 <= stake /\ stake <= bankroll * (5 # 100)
  /\ (model_prob <= market_prob -> stake == 0).
Proof.
  intros H0 H1 Hb. assert (Hcap : 0 <= bankroll * (5 # 100)) by nra.
  unfold EdgeFinder.kelly_criterion.
  assert (E1 : Qle_bool market_prob 0 = false) by (apply Qle_bool_false; lra).
  rewrite E1. cbn [orb].
  destruct (Qle_bool model_prob 0) eqn:E2.
  { intro H. injection H as <-. repeat split; try lra. }
  rewrite fdiv_ok by lra. cbn [bind].
  destruct (Qle_bool (model_prob - market_prob) 0) eqn:E3.
  { intro H. injection H as <-. repeat split; try lra. }
  apply Qle_bool_false in E3.
  assert (Hinv : 1 < 1 / market_prob) by (apply Qlt_shift_div_l; lra).
  rewrite fdiv_ok by lra. cbn [bind].
  intro H. injection H as <-.
  assert (Hfrac : 0 < (model_prob - market_prob) / (1 / market_prob - 1))
    by (apply ratio_pos; lra).
  split; [| split].
  - apply py_min_nonneg; [| exact Hcap]. apply Qmult_le_0_compat; lra.
  - apply py_min_le_r.
  - intro Hle. lra.
Qed.

Lemma built_edge_facts (c : EdgeFinder.consensus) (m : EdgeFinder.metric)
    (odds : Z) (team side : string) (e : EdgeFinder.edge) (p : Q) :
  EdgeFinder.odds_to_probability odds = Ok p -> 0 < p -> p < 1 ->
  edge_built_from c m odds team side e ->
  EdgeFinder.e_market_prob e = p
  /\ EdgeFinder.e_edge_percent e
     = (EdgeFinder.e_model_prob e - p) / p * 100
  /\ 0 <= EdgeFinder.e_kelly_bet_amount e
  /\ EdgeFinder.e_kelly_bet_amount e <= 50
  /\ (EdgeFinder.e_recommended e = false ->
      EdgeFinder.e_kelly_bet_amount e == 0).
Proof.
  intros Hp Hp0 Hp1
    (s & _ & _ & _ & _ & Hmodel & Hmarket & Hedge & Hk & _ & Hrec).
  rewrite Hp in Hmarket. injection Hmarket as Hm. rewrite <- Hm in *.
  rewrite Hmodel.
  rewrite calculate_edge_value in Hedge by exact Hp0.
  injection Hedge as He.
  assert (Hb : 0 <= EdgeFinder.default_bankroll) by discriminate.
  destruct (kelly_criterion_range _ _ _ _ Hp0 Hp1 Hb Hk) as (Hk0 & Hk1 & Hkz).
  split; [reflexivity |]. split; [symmetry; exact He |].
  split; [exact Hk0 |]. split.
  - assert (E : EdgeFinder.default_bankroll * (5 # 100) == 50) by reflexivity.
    lra.
  - intro Hfalse. apply Hkz. rewrite Hfalse in Hrec. symmetry in Hrec.
    apply Qltb_false in Hrec. rewrite <- He in Hrec.
    set (r := (EdgeFinder.avg s - p) / p) in Hrec.
    assert (Hr : r * p == EdgeFinder.avg s - p) by (unfold r; field; lra).
    assert (Hrle : r <= 0) by lra.
    assert (Hprod : r * p <= 0).
    { assert (0 <= (- r) * p) by (apply Qmult_le_0_compat; lra). lra. }
    lra.
Qed.

(** What the evaluator of [EdgeFinder] emits.  There are at most two
    edges, the away one first.  Every edge is a moneyline edge for a side
    that has a consensus entry; its model probability is the consensus
    mean; its market probability is 10/21 for the away side and 11/21 for
    the home side; its edge percentage is (model - market) / market * 100
    and is at least [min_edge] in absolute value; it is recommended exactly
    when that percentage is positive; its stake lies between 0 and 50 and
    is 0 when it is not recommended. *)
Theorem emitted_edges_are_well_formed (g : EdgeFinder.matched_game)
    (c : EdgeFinder.consensus) (min_edge : Q) (es : list EdgeFinder.edge) :
  EdgeFinder.identify_game_edges g c min_edge = Ok es ->
  (List.length es <= 2)%nat
  /\ forall e,
       In e es ->
       EdgeFinder.e_type e = "moneyline"
       /\ min_edge <= Qabs (EdgeFinder.e_edge_percent e)
       /\ EdgeFinder.e_recommended e = Qltb 0 (EdgeFinder.e_edge_percent e)
       /\ EdgeFinder.e_edge_percent e
          = (EdgeFinder.e_model_prob e - EdgeFinder.e_market_prob e)
            / EdgeFinder.e_market_prob e * 100
       /\ 0 <= EdgeFinder.e_kelly_bet_amount e
       /\ EdgeFinder.e_kelly_bet_amount e <= 50
       /\ (EdgeFinder.e_recommended e = false ->
           EdgeFinder.e_kelly_bet_amount e == 0)
       /\ ((EdgeFinder.e_side e = "away"
            /\ EdgeFinder.e_team e = EdgeFinder.mg_away_team g
            /\ EdgeFinder.e_market_prob e == 10 # 21
            /\ exists s, c EdgeFinder.away_win_prob = Some s
                         /\ EdgeFinder.e_model_prob e = EdgeFinder.avg s)
           \/ (EdgeFinder.e_side e = "home"
               /\ EdgeFinder.e_team e = EdgeFinder.mg_home_team g
               /\ EdgeFinder.e_market_prob e == 11 # 21
               /\ exists s, c EdgeFinder.home_win_prob = Some s
                            /\ EdgeFinder.e_model_prob e = EdgeFinder.avg s)).
Proof.
  intro Hes.
  destruct (identify_game_edges_form g c) as (away & home & Hform & Pa & Ph).
  rewrite Hform in Hes. injection Hes as <-. split.
  - rewrite length_app. unfold select_edge.
    destruct away as [a |]; destruct home as [h |];
      repeat match goal with
             | |- context [if ?b then _ else _] => destruct b
             end; cbn; lia.
  - intros e He. apply in_app_or in He. destruct He as [He | He];
      apply select_edge_in in He; destruct He as [-> Hpass].
    + assert (Hp : EdgeFinder.odds_to_probability
                     EdgeFinder.placeholder_away_ml_odds = Ok (100 / Zq 210))
        by reflexivity.
      destruct (built_edge_facts _ _ _ _ _ _ _ Hp eq_refl eq_refl Pa)
        as (Hm & Hedge & Hk0 & Hk1 & Hkz).
      destruct Pa as (s & Hc & Hty & Hteam & Hside & Hmodel & _ & _ & _ & _
                      & Hrec).
      split; [exact Hty |].
      split; [apply Qle_bool_iff; exact Hpass |].
      split; [exact Hrec |].
      split; [rewrite Hm; exact Hedge |].
      split; [exact Hk0 |]. split; [exact Hk1 |]. split; [exact Hkz |].
      left. split; [exact Hside |]. split; [exact Hteam |].
      split; [rewrite Hm; reflexivity |].
      exists s. split; assumption.
    + assert (Hp : EdgeFinder.odds_to_probability
                     EdgeFinder.placeholder_home_ml_odds
                   = Ok (Zq 110 / Zq 210)) by reflexivity.
      destruct (built_edge_facts _ _ _ _ _ _ _ Hp eq_refl eq_refl Ph)
        as (Hm & Hedge & Hk0 & Hk1 & Hkz).
      destruct Ph as (s & Hc & Hty & Hteam & Hside & Hmodel & _ & _ & _ & _
                      & Hrec).
      split; [exact Hty |].
      split; [apply Qle_bool_iff; exact Hpass |].
      split; [exact Hrec |].
      split; [rewrite Hm; exact Hedge |].
      split; [exact Hk0 |]. split; [exact Hk1 |]. split; [exact Hkz |].
      right. split; [exact Hside |]. split; [exact Hteam |].
      split; [rewrite Hm; reflexivity |].
      exists s. split; assumption.
Qed.

Lemma emitted_edges_are_well_formed_witness :
  exists es,
    EdgeFinder.identify_game_edges Samples.away_60_game
      (EdgeFinder.calculate_consensus_prediction
         (fun x => x) Samples.away_60_game) 2 = Ok es
    /\ (List.length es <= 2)%nat.
Proof.
  eexists. split; [reflexivity |].
  exact (proj1 (emitted_edges_are_well_formed Samples.away_60_game
                  (EdgeFinder.calculate_consensus_prediction
                     (fun x => x) Samples.away_60_game) 2 _ eq_refl)).
Defined.

Lemma select_edge_filter (min1 min2 : Q) (candidate : option EdgeFinder.edge) :
  min1 <= min2 ->
  List.filter (passes min2) (select_edge min1 candidate)
  = select_edge min2 candidate.
Proof.
  intro Hle. unfold select_edge. destruct candidate as [e |]; [| reflexivity].
  destruct (passes min1 e) eqn:E1.
  - cbn [List.filter]. destruct (passes min2 e); reflexivity.
  - cbn [List.filter]. unfold passes in *.
    apply Qle_bool_false in E1.
    assert (E2 : Qle_bool min2 (Qabs (EdgeFinder.e_edge_percent e)) = false)
      by (apply Qle_bool_false; lra).
    rewrite E2. reflexivity.
Qed.

(** The threshold only filters: the edges found at a higher [min_edge]
    are the edges found at a lower one that reach the higher threshold,
    unchanged and in the same order. *)
Theorem min_edge_only_filters (g : EdgeFinder.matched_game)
    (c : EdgeFinder.consensus) (min1 min2 : Q) :
  min1 <= min2 ->
  exists es1,
    EdgeFinder.identify_game_edges g c min1 = Ok es1
    /\ EdgeFinder.identify_game_edges g c min2
       = Ok (List.filter (passes min2) es1).
Proof.
  intro Hle.
  destruct (identify_game_edges_form g c) as (away & home & Hform & _ & _).
  eexists. split; [apply Hform |].
  rewrite Hform, filter_app, !select_edge_filter by exact Hle. reflexivity.
Qed.

Lemma min_edge_only_filters_witness :
  2 <= 30
  /\ exists es1,
       EdgeFinder.identify_game_edges Samples.away_60_game
         (EdgeFinder.calculate_consensus_prediction
            (fun x => x) Samples.away_60_game) 2 = Ok es1
       /\ EdgeFinder.identify_game_edges Samples.away_60_game
            (EdgeFinder.calculate_consensus_prediction
               (fun x => x) Samples.away_60_game) 30
          = Ok (List.filter (passes 30) es1).
Proof.
  assert (H : 2 <= 30) by discriminate.
  split; [exact H |].
  exact (min_edge_only_filters Samples.away_60_game
           (EdgeFinder.calculate_consensus_prediction
              (fun x => x) Samples.away_60_game) 2 30 H).
Defined.

(** ** The reports *)

Lemma fold_max_spec (l : list Q) :
  forall a,
    (fold_left py_max l a = a \/ In (fold_left py_max l a) l)
    /\ a <= fold_left py_max l a
    /\ forall x, In x l -> x <= fold_left py_max l a.
Proof.
  induction l as [| v l IH]; intro a; cbn [fold_left].
  - split; [left; reflexivity |]. split; [apply Qle_refl | intros x []].
  - destruct (IH (py_max a v)) as (Hin & Hge & Hall).
    destruct (py_max_cases a v) as [[Hlt Hm] | [Hle Hm]]; rewrite Hm in *.
    + split; [right; destruct Hin as [-> | Hin]; [left; reflexivity | right; exact Hin] |].
      split; [lra |].
      intros x [<- | Hx]; [exact Hge | apply Hall; exact Hx].
    + split; [destruct Hin as [-> | Hin]; [left; reflexivity | right; right; exact Hin] |].
      split; [exact Hge |].
      intros x [<- | Hx]; [lra | apply Hall; exact Hx].
Qed.

Lemma py_max_list_spec (l : list Q) (m : Q) :
  py_max_list l = Ok m -> In m l /\ forall x, In x l -> x <= m.
Proof.
  destruct l as [| v l]; cbn [py_max_list]; [discriminate |].
  intro H. injection H as <-.
  destruct (fold_max_spec l v) as (Hin & Hge & Hall). split.
  - destruct Hin as [-> | Hin]; [left; reflexivity | right; exact Hin].
  - intros x [<- | Hx]; [exact Hge | apply Hall; exact Hx].
Qed.

Lemma mapM_in {A B : Type} (f : A -> res B) (l : list A) (bs : list B)
    (b : B) :
  mapM f l = Ok bs -> In b bs -> exists a, In a l /\ f a = Ok b.
Proof.
  revert bs. induction l as [| a l IH]; intros bs H Hb; cbn [mapM] in H.
  - injection H as <-. destruct Hb.
  - destruct (f a) as [b0 | e] eqn:Ea; cbn [bind] in H; [| discriminate].
    destruct (mapM f l) as [bs0 | e]; cbn [bind] in H; [| discriminate].
    injection H as <-. destruct Hb as [<- | Hb].
    + exists a. split; [left; reflexivity | exact Ea].
    + destruct (IH bs0 eq_refl Hb) as (a' & Hin & Ha').
      exists a'. split; [right; exact Hin | exact Ha'].
Qed.

Lemma in_somes {A : Type} (l : list (option A)) (a : A) :
  In a (EdgeFinder.somes l) -> In (Some a) l.
Proof.
  induction l as [| [x |] l IH]; cbn [EdgeFinder.somes]; intro H.
  - destruct H.
  - destruct H as [<- | H]; [left; reflexivity | right; apply IH; exact H].
  - right. apply IH. exact H.
Qed.

Lemma rank_games_in (np_sqrt : Q -> Q)
    (matched_games : list EdgeFinder.matched_game) (min_edge : Q)
    (ranked : list EdgeFinder.report) (r : EdgeFinder.report) :
  EdgeFinder.rank_games np_sqrt matched_games min_edge = Ok ranked ->
  In r ranked ->
  exists g,
    In g matched_games
    /\ EdgeFinder.report_of np_sqrt min_edge g = Ok (Some r).
Proof.
  unfold EdgeFinder.rank_games. intros H Hr.
  destruct (mapM _ matched_games) as [rs | e] eqn:E; cbn [bind] in H;
    [| discriminate].
  injection H as <-.
  apply (Permutation_in _ (sort_desc_perm _ _ _)) in Hr.
  apply in_somes in Hr. apply (mapM_in _ _ _ _ E) in Hr. exact Hr.
Qed.

Lemma report_of_some (np_sqrt : Q -> Q) (min_edge : Q)
    (g : EdgeFinder.matched_game) (r : EdgeFinder.report) :
  EdgeFinder.report_of np_sqrt min_edge g = Ok (Some r) ->
  EdgeFinder.r_game r
  = EdgeFinder.mg_away_team g ++ " @ " ++ EdgeFinder.mg_home_team g
  /\ EdgeFinder.r_date r = EdgeFinder.mg_date g
  /\ EdgeFinder.r_consensus r
     = EdgeFinder.calculate_consensus_prediction np_sqrt g
  /\ EdgeFinder.identify_game_edges g (EdgeFinder.r_consensus r) min_edge
     = Ok (EdgeFinder.r_edges r)
  /\ EdgeFinder.r_edges r <> []
  /\ py_max_list (List.map EdgeFinder.e_edge_percent (EdgeFinder.r_edges r))
     = Ok (EdgeFinder.max_edge r)
  /\ EdgeFinder.sources_count r = List.length (EdgeFinder.mg_predictions g).
Proof.
  unfold EdgeFinder.report_of. cbv zeta.
  destruct (EdgeFinder.identify_game_edges g _ min_edge) as [es | e] eqn:E;
    cbn [bind]; [| discriminate].
  destruct es as [| e0 es]; [discriminate |].
  destruct (py_max_list _) as [m | e] eqn:Em; cbn [bind]; [| discriminate].
  intro H. injection H as <-. cbn.
  repeat split; try assumption; try reflexivity. discriminate.
Qed.

Lemma strongly_sorted_impl {A : Type} (R R' : A -> A -> Prop) (l : list A) :
  (forall a b, R a b -> R' a b) -> StronglySorted R l -> StronglySorted R' l.
Proof.
  intros Himp H. induction H as [| a l Hl IH Hall]; constructor.
  - exact IH.
  - apply Forall_forall. intros b Hb. rewrite Forall_forall in Hall.
    apply Himp, Hall, Hb.
Qed.

(** Every report that [find_edges] returns is the report of one of the
    games that [match_games_across_sources] builds from the fetched
    predictions: its label is "<away> @ <home>" of that game, its date is
    the date of the game, its [sources_count] is the number of records of
    the game (at least 1), its consensus is the consensus of the game and
    its edges are the edges that [identify_game_edges] finds for the game.
    It carries one or two edges, each of them at least [min_edge] in
    absolute value, and its [max_edge] is the largest signed edge
    percentage among them. *)
Theorem find_edges_reports_are_well_formed (np_sqrt : Q -> Q)
    (today tomorrow : string) (run_script : string -> list string -> fetched)
    (date : option string) (sources : option (list string)) (min_edge : Q)
    (r : EdgeFinder.report) :
  In r (EdgeFinder.find_edges np_sqrt today tomorrow run_script
          date sources min_edge) ->
  (1 <= List.length (EdgeFinder.r_edges r) <= 2)%nat
  /\ (forall e,
        In e (EdgeFinder.r_edges r) ->
        min_edge <= Qabs (EdgeFinder.e_edge_percent e)
        /\ EdgeFinder.e_edge_percent e <= EdgeFinder.max_edge r)
  /\ (exists e,
        In e (EdgeFinder.r_edges r)
        /\ EdgeFinder.e_edge_percent e = EdgeFinder.max_edge r)
  /\ (1 <= EdgeFinder.sources_count r)%nat
  /\ exists g,
       In g (EdgeFinder.match_games_across_sources
               (EdgeFinder.get_multi_source_predictions run_script
                  match date with
                  | None => today
                  | Some d => EdgeFinder.parse_date today tomorrow d
                  end
                  match sources with
                  | None => ["dratings"; "cbbpy"]
                  | Some l =>
                      if existsb (String.eqb "all") l
                      then EdgeFinder.available_sources else l
                  end))
       /\ EdgeFinder.r_game r
          = EdgeFinder.mg_away_team g ++ " @ " ++ EdgeFinder.mg_home_team g
       /\ EdgeFinder.r_date r = EdgeFinder.mg_date g
       /\ EdgeFinder.sources_count r
          = List.length (EdgeFinder.mg_predictions g)
       /\ EdgeFinder.r_consensus r
          = EdgeFinder.calculate_consensus_prediction np_sqrt g
       /\ EdgeFinder.identify_game_edges g (EdgeFinder.r_consensus r)
            min_edge
          = Ok (EdgeFinder.r_edges r).
Proof.
  unfold EdgeFinder.find_edges.
  destruct (EdgeFinder.find_edges_body _ _ _ _ _ _ _) as [ranked | e] eqn:E;
    [| intros []].
  intro Hr. unfold EdgeFinder.find_edges_body in E. cbv zeta in E.
  destruct (rank_games_in _ _ _ _ _ E Hr) as (g & Hg & Hrep).
  destruct (report_of_some _ _ _ _ Hrep)
    as (Hlabel & Hdate & Hcons & Hid & Hne & Hmax & Hcount).
  destruct (matched_game_keys _ _ Hg) as [_ Hlen].
  destruct (identify_game_edges_form g (EdgeFinder.r_consensus r))
    as (away & home & Hform & _ & _).
  pose proof Hid as Hid'.
  rewrite Hform in Hid. injection Hid as Hes.
  apply py_max_list_spec in Hmax. destruct Hmax as [Hin Hub].
  split; [| split; [| split; [| split]]].
  - split.
    + destruct (EdgeFinder.r_edges r); [contradiction | cbn; lia].
    + rewrite <- Hes, length_app. unfold select_edge.
      destruct away as [a |]; destruct home as [h |];
        repeat match goal with
               | |- context [if ?b then _ else _] => destruct b
               end; cbn; lia.
  - intros e0 He0. split.
    + rewrite <- Hes in He0. apply in_app_or in He0.
      destruct He0 as [He0 | He0]; apply select_edge_in in He0;
        destruct He0 as [_ Hpass]; apply Qle_bool_iff; exact Hpass.
    + apply Hub. apply in_map. exact He0.
  - apply in_map_iff in Hin. destruct Hin as (e0 & Heq & He0).
    exists e0. split; assumption.
  - rewrite Hcount. exact Hlen.
  - exists g. split; [exact Hg |]. split; [exact Hlabel |].
    split; [exact Hdate |]. split; [exact Hcount |].
    split; [exact Hcons | exact Hid'].
Qed.

Lemma find_edges_reports_are_well_formed_witness :
  exists r,
    In r (EdgeFinder.find_edges (fun x => x) "2026-03-15" "2026-03-16"
            Samples.two_games (Some "2026-03-15") (Some ["dratings"]) 2)
    /\ (1 <= List.length (EdgeFinder.r_edges r) <= 2)%nat
    /\ (1 <= EdgeFinder.sources_count r)%nat.
Proof.
  eexists. split; [left; reflexivity |].
  match goal with
  | |- (1 <= List.length (EdgeFinder.r_edges ?r) <= 2)%nat /\ _ =>
      destruct (find_edges_reports_are_well_formed
                  (fun x => x) "2026-03-15" "2026-03-16" Samples.two_games
                  (Some "2026-03-15") (Some ["dratings"]) 2 r
                  (or_introl eq_refl))
        as (H1 & _ & _ & H2 & _)
  end.
  split; [exact H1 | exact H2].
Defined.

(** The reports come out in descending order of [max_edge], and among
    reports of equal [max_edge] in descending order of [sources_count]:
    for a report that stands before another, either its [max_edge] is
    larger, or the two are equal and its [sources_count] is not smaller. *)
Theorem find_edges_is_sorted (np_sqrt : Q -> Q)
    (today tomorrow : string) (run_script : string -> list string -> fetched)
    (date : option string) (sources : option (list string)) (min_edge : Q) :
  StronglySorted
    (fun r1 r2 =>
       EdgeFinder.max_edge r2 < EdgeFinder.max_edge r1
       \/ (EdgeFinder.max_edge r1 == EdgeFinder.max_edge r2
           /\ (EdgeFinder.sources_count r2 <= EdgeFinder.sources_count r1)%nat))
    (EdgeFinder.find_edges np_sqrt today tomorrow run_script
       date sources min_edge).
Proof.
  unfold EdgeFinder.find_edges.
  destruct (EdgeFinder.find_edges_body _ _ _ _ _ _ _) as [ranked | e] eqn:E;
    [| constructor].
  unfold EdgeFinder.find_edges_body in E. cbv zeta in E.
  unfold EdgeFinder.rank_games in E.
  destruct (mapM _ _) as [rs | e]; cbn [bind] in E; [| discriminate].
  injection E as <-.
  apply strongly_sorted_impl
    with (R := fun r1 r2 =>
                 pair_lt (EdgeFinder.sort_key r1) (EdgeFinder.sort_key r2)
                 = false).
  - intros a b H. apply pair_lt_false in H. exact H.
  - apply sort_desc_sorted.
    + intros a b. apply pair_lt_asym.
    + intros a b c. apply pair_lt_cotrans.
Qed.

(** ** Fetching the sources *)

Lemma dict_get_none_not_key {V : Type} (d : dict V) (k : string) :
  dict_get d k = None -> ~ In k (List.map fst d).
Proof.
  induction d as [| [k' v'] d IH]; cbn [dict_get List.map fst In]; intro H.
  - intros [].
  - destruct (String.eqb k' k) eqn:E; [discriminate |].
    apply String.eqb_neq in E. intros [Hk | Hk]; [apply E; exact Hk |].
    apply (IH H). exact Hk.
Qed.

Lemma fetch_source_sets (run_script : string -> list string -> fetched)
    (date : string) (predictions : dict fetched) (source : string) :
  EdgeFinder.fetch_source run_script date predictions source
  = dict_set predictions source (source_value run_script date source).
Proof.
  unfold EdgeFinder.fetch_source, source_value.
  destruct (String.eqb source "barttorvik"); [reflexivity |].
  destruct (String.eqb source "dratings"); [reflexivity |].
  destruct (String.eqb source "cbbpy"); reflexivity.
Qed.

Lemma fetch_fold_get (run_script : string -> list string -> fetched)
    (date s : string) (sources : list string) :
  forall predictions,
    dict_get (fold_left (EdgeFinder.fetch_source run_script date)
                        sources predictions) s
    = if existsb (String.eqb s) sources
      then Some (source_value run_script date s)
      else dict_get predictions s.
Proof.
  induction sources as [| source sources IH]; intro predictions.
  - reflexivity.
  - cbn [fold_left existsb]. rewrite IH, fetch_source_sets.
    destruct (existsb (String.eqb s) sources).
    + rewrite orb_true_r. reflexivity.
    + rewrite orb_false_r. destruct (String.eqb s source) eqn:E.
      * apply String.eqb_eq in E. subst source. apply dict_get_set_same.
      * apply dict_get_set_other. rewrite String.eqb_sym. exact E.
Qed.

Lemma fetch_fold_nodup (run_script : string -> list string -> fetched)
    (date : string) (sources : list string) :
  forall predictions,
    NoDup (List.map fst predictions) ->
    NoDup (List.map fst (fold_left (EdgeFinder.fetch_source run_script date)
                                   sources predictions)).
Proof.
  induction sources as [| source sources IH]; intros predictions H.
  - exact H.
  - cbn [fold_left]. apply IH. rewrite fetch_source_sets.
    apply dict_set_nodup. exact H.
Qed.

Lemma existsb_eqb_in (s : string) (l : list string) :
  existsb (String.eqb s) l = true <-> In s l.
Proof.
  rewrite existsb_exists. split.
  - intros (x & Hx & E). apply String.eqb_eq in E. subst x. exact Hx.
  - intro H. exists s. split; [exact H | apply String.eqb_refl].
Qed.

(** The dictionary of fetched predictions has exactly one entry for every
    requested source and none for any other.  The entry of dratings and of
    cbbpy is the output of its script for the date, the entry of barttorvik
    is the output of the rankings script, which is not given the date, and
    the entry of any other source is the empty list. *)
Theorem fetched_predictions_by_source
    (run_script : string -> list string -> fetched)
    (date : string) (sources : list string) :
  let predictions :=
    EdgeFinder.get_multi_source_predictions run_script date sources in
  NoDup (List.map fst predictions)
  /\ (forall s, In s (List.map fst predictions) <-> In s sources)
  /\ (In "dratings" sources ->
      dict_get predictions "dratings"
      = Some (run_script "dratings" ["predictions"; "--date"; date]))
  /\ (In "cbbpy" sources ->
      dict_get predictions "cbbpy"
      = Some (run_script "cbbpy_tools" ["games-today"; "--date"; date]))
  /\ (In "barttorvik" sources ->
      dict_get predictions "barttorvik"
      = Some (run_script "barttorvik" ["rankings"; "--top"; "50"]))
  /\ (forall s,
        In s sources ->
        s <> "barttorvik" -> s <> "dratings" -> s <> "cbbpy" ->
        dict_get predictions s = Some (Games [])).
Proof.
  cbv zeta. unfold EdgeFinder.get_multi_source_predictions.
  assert (Hget : forall s,
             In s sources ->
             dict_get (fold_left (EdgeFinder.fetch_source run_script date)
                                 sources []) s
             = Some (source_value run_script date s)).
  { intros s Hs. rewrite fetch_fold_get.
    apply existsb_eqb_in in Hs. rewrite Hs. reflexivity. }
  split; [apply fetch_fold_nodup; constructor |].
  split; [| split; [| split; [| split]]].
  - intro s. split; intro H.
    + destruct (existsb (String.eqb s) sources) eqn:E.
      * apply existsb_eqb_in. exact E.
      * exfalso.
        assert (Hnone : dict_get (fold_left
                                    (EdgeFinder.fetch_source run_script date)
                                    sources []) s = None)
          by (rewrite fetch_fold_get, E; reflexivity).
        apply (dict_get_none_not_key _ _ Hnone). exact H.
    + specialize (Hget s H). apply dict_get_in in Hget.
      apply in_map_iff. eexists. split; [| exact Hget]. reflexivity.
  - intro H. apply (Hget _ H).
  - intro H. apply (Hget _ H).
  - intro H. apply (Hget _ H).
  - intros s H Hb Hd Hc. rewrite (Hget _ H). unfold source_value.
    apply String.eqb_neq in Hb. apply String.eqb_neq in Hd.
    apply String.eqb_neq in Hc. rewrite Hb, Hd, Hc. reflexivity.
Qed.

Lemma fetch_fold_entries (run_script : string -> list string -> fetched)
    (date : string) (sources : list string) :
  forall predictions entry,
    In entry (fold_left (EdgeFinder.fetch_source run_script date)
                        sources predictions) ->
    In entry predictions
    \/ (In (fst entry) sources
        /\ snd entry = source_value run_script date (fst entry)).
Proof.
  induction sources as [| source sources IH]; intros predictions entry H.
  - left. exact H.
  - cbn [fold_left] in H. apply IH in H. destruct H as [H | [H1 H2]].
    + rewrite fetch_source_sets in H. apply in_dict_set in H.
      destruct H as [H | ->]; [left; exact H |].
      right. split; [left; reflexivity | reflexivity].
    + right. split; [right; exact H1 | exact H2].
Qed.

(** Sources without a script never produce a report: when none of
    barttorvik, dratings, cbbpy and the word all is among the requested
    sources, [find_edges] returns the empty list without running any
    script.  This is so for kenpom, haslametrics and massey. *)
Theorem sources_without_script_find_nothing (np_sqrt : Q -> Q)
    (today tomorrow : string) (run_script : string -> list string -> fetched)
    (date : option string) (sources : list string) (min_edge : Q) :
  (forall s, In s sources ->
             s <> "all" /\ s <> "barttorvik" /\ s <> "dratings"
             /\ s <> "cbbpy") ->
  EdgeFinder.find_edges np_sqrt today tomorrow run_script
    date (Some sources) min_edge = [].
Proof.
  intro Hall. unfold EdgeFinder.find_edges, EdgeFinder.find_edges_body.
  cbv zeta.
  assert (E : existsb (String.eqb "all") sources = false).
  { destruct (existsb (String.eqb "all") sources) eqn:E; [| reflexivity].
    apply existsb_eqb_in in E. destruct (Hall _ E) as [H _].
    exfalso. apply H. reflexivity. }
  rewrite E. rewrite no_data_no_base; [reflexivity |].
  intros entry Hin. unfold EdgeFinder.get_multi_source_predictions in Hin.
  apply fetch_fold_entries in Hin. destruct Hin as [[] | [Hs ->]].
  destruct (Hall _ Hs) as (_ & Hb & Hd & Hc). unfold source_value.
  apply String.eqb_neq in Hb. apply String.eqb_neq in Hd.
  apply String.eqb_neq in Hc. rewrite Hb, Hd, Hc. reflexivity.
Qed.

Lemma sources_without_script_find_nothing_witness :
  (forall s, In s ["kenpom"; "haslametrics"; "massey"] ->
             s <> "all" /\ s <> "barttorvik" /\ s <> "dratings"
             /\ s <> "cbbpy")
  /\ EdgeFinder.find_edges (fun x => x) "2026-03-15" "2026-03-16"
       Samples.two_games None (Some ["kenpom"; "haslametrics"; "massey"]) 2
     = [].
Proof.
  assert (H : forall s, In s ["kenpom"; "haslametrics"; "massey"] ->
                        s <> "all" /\ s <> "barttorvik" /\ s <> "dratings"
                        /\ s <> "cbbpy").
  { intros s [<- | [<- | [<- | []]]]; repeat split; discriminate. }
  split; [exact H |].
  exact (sources_without_script_find_nothing (fun x => x)
           "2026-03-15" "2026-03-16" Samples.two_games None
           ["kenpom"; "haslametrics"; "massey"] 2 H).
Defined.

Lemma all_sources_fetched (run_script : string -> list string -> fetched)
    (date : string) :
  EdgeFinder.get_multi_source_predictions run_script date
    EdgeFinder.available_sources
  = [("barttorvik", run_script "barttorvik" ["rankings"; "--top"; "50"]);
     ("dratings", run_script "dratings" ["predictions"; "--date"; date]);
     ("kenpom", Games []);
     ("haslametrics", Games []);
     ("massey", Games [])].
Proof. reflexivity. Qed.

Ltac not_a_key :=
  let H := fresh "H" in
  cbn; intro H;
  repeat (destruct H as [H | H]; [discriminate |]);
  destruct H.

(** The word all stands for barttorvik and dratings: a request that
    contains it gives the reports of a request for these two sources.  The
    script of cbbpy is not run, and the three other sources of the list
    contribute nothing. *)
Theorem all_sources_means_barttorvik_and_dratings (np_sqrt : Q -> Q)
    (today tomorrow : string) (run_script : string -> list string -> fetched)
    (date : option string) (sources : list string) (min_edge : Q) :
  In "all" sources ->
  EdgeFinder.find_edges np_sqrt today tomorrow run_script
    date (Some sources) min_edge
  = EdgeFinder.find_edges np_sqrt today tomorrow run_script
      date (Some ["barttorvik"; "dratings"]) min_edge.
Proof.
  intro Hall. apply existsb_eqb_in in Hall.
  unfold EdgeFinder.find_edges, EdgeFinder.find_edges_body. cbv zeta.
  rewrite Hall. cbn [existsb String.eqb Ascii.eqb Bool.eqb orb].
  rewrite all_sources_fetched.
  set (d := match date with
            | Some d => EdgeFinder.parse_date today tomorrow d
            | None => today
            end).
  set (b := run_script "barttorvik" ["rankings"; "--top"; "50"]).
  set (r := run_script "dratings" ["predictions"; "--date"; d]).
  assert (Hsame :
            EdgeFinder.match_games_across_sources
              [("barttorvik", b); ("dratings", r); ("kenpom", Games []);
               ("haslametrics", Games []); ("massey", Games [])]
            = EdgeFinder.match_games_across_sources
                [("barttorvik", b); ("dratings", r)]).
  { etransitivity.
    { apply (empty_source_contributes_nothing
               [("barttorvik", b); ("dratings", r); ("kenpom", Games []);
                ("haslametrics", Games [])] [] "massey" (Games []) eq_refl).
      not_a_key. }
    etransitivity.
    { apply (empty_source_contributes_nothing
               [("barttorvik", b); ("dratings", r); ("kenpom", Games [])]
               [] "haslametrics" (Games []) eq_refl).
      not_a_key. }
    apply (empty_source_contributes_nothing
             [("barttorvik", b); ("dratings", r)]
             [] "kenpom" (Games []) eq_refl).
    not_a_key. }
  rewrite Hsame. reflexivity.
Qed.

Lemma all_sources_means_barttorvik_and_dratings_witness :
  In "all" ["all"]
  /\ EdgeFinder.find_edges (fun x => x) "2026-03-15" "2026-03-16"
       Samples.two_games None (Some ["all"]) 2
     = EdgeFinder.find_edges (fun x => x) "2026-03-15" "2026-03-16"
         Samples.two_games None (Some ["barttorvik"; "dratings"]) 2.
Proof.
  assert (H : In "all" ["all"]) by (left; reflexivity).
  split; [exact H |].
  exact (all_sources_means_barttorvik_and_dratings (fun x => x)
           "2026-03-15" "2026-03-16" Samples.two_games None ["all"] 2 H).
Defined.

(** ** Dates *)

(** The word today, in any capitalisation, is the same as no date at all:
    [find_edges] then works on the current day, and [scan_today] is
    [find_edges] without a date. *)
Lemma today_is_the_default_date (np_sqrt : Q -> Q)
    (today tomorrow : string) (run_script : string -> list string -> fetched)
    (date : string) (sources : option (list string)) (min_edge : Q) :
  py_lower date = "today" ->
  EdgeFinder.find_edges np_sqrt today tomorrow run_script
    (Some date) sources min_edge
  = EdgeFinder.find_edges np_sqrt today tomorrow run_script
      None sources min_edge
  /\ EdgeFinder.scan_today np_sqrt today tomorrow run_script sources min_edge
     = EdgeFinder.find_edges np_sqrt today tomorrow run_script
         None sources min_edge.
Proof.
  intro H. split.
  - unfold EdgeFinder.find_edges, EdgeFinder.find_edges_body,
      EdgeFinder.parse_date.
    rewrite H. reflexivity.
  - reflexivity.
Qed.

Lemma today_is_the_default_date_witness :
  py_lower "ToDay" = "today"
  /\ EdgeFinder.find_edges (fun x => x) "2026-03-15" "2026-03-16"
       Samples.two_games (Some "ToDay") None 2
     = EdgeFinder.find_edges (fun x => x) "2026-03-15" "2026-03-16"
         Samples.two_games None None 2.
Proof.
  assert (H : py_lower "ToDay" = "today") by reflexivity.
  split; [exact H |].
  exact (proj1 (today_is_the_default_date (fun x => x)
                  "2026-03-15" "2026-03-16" Samples.two_games
                  "ToDay" None 2 H)).
Defined.

(** ** The edge finder of dratings *)

Lemma mapM_raise {A B : Type} (f : A -> res B) (l : list A) (a : A)
    (e : exn) :
  In a l -> f a = Raise e -> exists e', mapM f l = Raise e'.
Proof.
  intros Hin Ha. induction l as [| a0 l IH]; [destruct Hin |].
  cbn [mapM]. destruct (f a0) as [b0 | e0] eqn:E0; cbn [bind].
  - destruct Hin as [-> | Hin]; [rewrite Ha in E0; discriminate |].
    destruct (IH Hin) as [e' He']. rewrite He'. cbn [bind].
    exists e'. reflexivity.
  - exists e0. reflexivity.
Qed.

(** One record without a ['predictions'] or a ['market_data'] object
    costs the whole answer: the [KeyError] is caught around the loop, and
    [find_edges] returns the empty list whatever the other records hold. *)
Theorem dratings_missing_object_discards_all
    (get_predictions : option string -> list raw_game)
    (date : option string) (min_edge : Q) (game : raw_game) :
  In game (get_predictions date) ->
  raw_predictions game = None \/ raw_market_data game = None ->
  DRatings.find_edges get_predictions date min_edge = [].
Proof.
  intros Hin Hmiss.
  assert (Hr : DRatings.report_of min_edge game = Raise KeyError).
  { unfold DRatings.report_of.
    destruct (raw_predictions game) as [p |]; [| reflexivity].
    destruct Hmiss as [Hmiss | Hmiss]; [discriminate |].
    rewrite Hmiss. reflexivity. }
  unfold DRatings.find_edges, DRatings.find_edges_body. cbv zeta.
  destruct (mapM_raise _ _ _ _ Hin Hr) as [e' He']. rewrite He'. reflexivity.
Qed.

Lemma dratings_missing_object_discards_all_witness :
  In {| raw_date := Some "2026-03-15";
        raw_away_team := Some "Iowa";
        raw_home_team := Some "Purdue";
        raw_predictions := None;
        raw_market_data := None |}
     [Samples.away_30_priced;
      {| raw_date := Some "2026-03-15";
         raw_away_team := Some "Iowa";
         raw_home_team := Some "Purdue";
         raw_predictions := None;
         raw_market_data := None |}]
  /\ DRatings.find_edges
       (fun _ => [Samples.away_30_priced;
                  {| raw_date := Some "2026-03-15";
                     raw_away_team := Some "Iowa";
                     raw_home_team := Some "Purdue";
                     raw_predictions := None;
                     raw_market_data := None |}])
       None 2 = [].
Proof.
  split; [right; left; reflexivity |].
  apply (dratings_missing_object_discards_all
           (fun _ => [Samples.away_30_priced;
                      {| raw_date := Some "2026-03-15";
                         raw_away_team := Some "Iowa";
                         raw_home_team := Some "Purdue";
                         raw_predictions := None;
                         raw_market_data := None |}])
           None 2
           {| raw_date := Some "2026-03-15";
              raw_away_team := Some "Iowa";
              raw_home_team := Some "Purdue";
              raw_predictions := None;
              raw_market_data := None |}).
  - right. left. reflexivity.
  - left. reflexivity.
Defined.

Lemma mapM_all_none {A B : Type} (f : A -> res (option B)) (l : list A) :
  (forall a, In a l -> f a = Ok None \/ exists e, f a = Raise e) ->
  match mapM f l with
  | Ok rs => EdgeFinder.somes rs = []
  | Raise _ => True
  end.
Proof.
  induction l as [| a l IH]; intro H; cbn [mapM].
  - reflexivity.
  - destruct (H a (or_introl eq_refl)) as [Ha | [e Ha]]; rewrite Ha;
      cbn [bind]; [| exact I].
    specialize (IH (fun x Hx => H x (or_intror Hx))).
    destruct (mapM f l) as [rs | e]; cbn [bind]; [| exact I].
    exact IH.
Qed.

(** Without posted moneyline odds there is nothing to report: when no
    record carries away or home odds other than [None] or 0, [find_edges]
    of dratings returns the empty list, whatever the model says. *)
Theorem dratings_without_odds_finds_nothing
    (get_predictions : option string -> list raw_game)
    (date : option string) (min_edge : Q) :
  (forall game market,
      In game (get_predictions date) ->
      raw_market_data game = Some market ->
      truthy_int (away_ml_odds market) = None
      /\ truthy_int (home_ml_odds market) = None) ->
  DRatings.find_edges get_predictions date min_edge = [].
Proof.
  intro Hodds. unfold DRatings.find_edges, DRatings.find_edges_body.
  cbv zeta.
  assert (H := mapM_all_none (DRatings.report_of min_edge)
                 (get_predictions date)).
  destruct (mapM _ _) as [rs | e]; cbn [bind]; [| reflexivity].
  rewrite H; [reflexivity |].
  intros game Hin. unfold DRatings.report_of.
  destruct (raw_predictions game) as [p |]; cbn [DRatings.subscript bind];
    [| right; eexists; reflexivity].
  destruct (raw_market_data game) as [market |] eqn:Em;
    cbn [DRatings.subscript bind]; [| right; eexists; reflexivity].
  destruct (Hodds game market Hin Em) as [Ha Hh].
  rewrite (dratings_needs_market_odds _ _ _ _ _ Ha).
  rewrite (dratings_needs_market_odds _ _ _ _ _ Hh).
  left. reflexivity.
Qed.

Lemma dratings_without_odds_finds_nothing_witness :
  (forall game market,
      In game [Samples.away_60; Samples.away_30] ->
      raw_market_data game = Some market ->
      truthy_int (away_ml_odds market) = None
      /\ truthy_int (home_ml_odds market) = None)
  /\ DRatings.find_edges (fun _ => [Samples.away_60; Samples.away_30]) None 2
     = [].
Proof.
  assert (H : forall game market,
             In game [Samples.away_60; Samples.away_30] ->
             raw_market_data game = Some market ->
             truthy_int (away_ml_odds market) = None
             /\ truthy_int (home_ml_odds market) = None).
  { intros game market [<- | [<- | []]] Hm; injection Hm as <-;
      split; reflexivity. }
  split; [exact H |].
  exact (dratings_without_odds_finds_nothing
           (fun _ => [Samples.away_60; Samples.away_30]) None 2 H).
Defined.

Lemma dratings_moneyline_edges_form (model_prob : pyval Q) (ml_odds : pyval Z)
    (team : option string) (side : string) (min_edge : Q)
    (es : list DRatings.edge) :
  DRatings.moneyline_edges model_prob ml_odds team side min_edge = Ok es ->
  (List.length es <= 1)%nat
  /\ forall e,
       In e es ->
       exists odds,
         truthy_float model_prob = Some (DRatings.e_model_prob e)
         /\ truthy_int ml_odds = Some odds
         /\ DRatings.odds_to_probability odds = Ok (DRatings.e_market_prob e)
         /\ 0 < DRatings.e_market_prob e /\ DRatings.e_market_prob e < 1
         /\ DRatings.e_edge_percent e
            = (DRatings.e_model_prob e - DRatings.e_market_prob e)
              / DRatings.e_market_prob e * 100
         /\ min_edge <= Qabs (DRatings.e_edge_percent e)
         /\ DRatings.e_type e = "moneyline"
         /\ DRatings.e_side e = side
         /\ team = Some (DRatings.e_team e)
         /\ DRatings.e_recommended_bet e
            = (if Qltb 0 (DRatings.e_edge_percent e) then "YES" else "NO").
Proof.
  unfold DRatings.moneyline_edges.
  destruct (truthy_float model_prob) as [p |];
    [| intro H; injection H as <-; split; [cbn; lia | intros e []]].
  destruct (truthy_int ml_odds) as [odds |] eqn:Eo;
    [| intro H; injection H as <-; split; [cbn; lia | intros e []]].
  assert (Hnz : odds <> 0%Z).
  { unfold truthy_int in Eo. destruct ml_odds as [| | z]; try discriminate.
    destruct (truthyZ z) eqn:Ez; [| discriminate].
    injection Eo as <-. unfold truthyZ in Ez. apply negb_true_iff in Ez.
    apply Z.eqb_neq. exact Ez. }
  destruct (implied_probability_bounds odds) as (q & Hq & Hq0 & Hq1 & Hcase).
  destruct Hcase as [[Hz _] | [_ Hpos]]; [contradiction |].
  rewrite odds_to_probability_same, Hq. cbn [bind].
  rewrite calculate_edge_versions_agree_aux by lra.
  rewrite calculate_edge_value by exact Hpos. cbn [bind].
  destruct (Qle_bool min_edge _) eqn:Emin;
    [| intro H; injection H as <-; split; [cbn; lia | intros e []]].
  destruct team as [t |]; cbn [DRatings.subscript bind]; [| discriminate].
  intro H. injection H as <-. split; [cbn; lia |].
  intros e [<- | []]. exists odds.
  cbn [DRatings.e_model_prob DRatings.e_market_prob DRatings.e_edge_percent
       DRatings.e_type DRatings.e_side DRatings.e_team
       DRatings.e_recommended_bet].
  split; [reflexivity |]. split; [reflexivity |]. split; [exact Hq |].
  split; [exact Hpos |]. split; [exact Hq1 |]. split; [reflexivity |].
  split; [apply Qle_bool_iff; exact Emin |].
  repeat split; reflexivity.
Qed.

Lemma subscript_cases {A : Type} (o : option A) :
  (exists a, DRatings.subscript o = Ok a)
  \/ DRatings.subscript o = Raise KeyError.
Proof.
  destruct o as [a |]; [left; exists a; reflexivity | right; reflexivity].
Qed.

Lemma dratings_report_of_some (min_edge : Q) (game : raw_game)
    (r : DRatings.report) :
  DRatings.report_of min_edge game = Ok (Some r) ->
  exists p market away home,
    raw_predictions game = Some p
    /\ raw_market_data game = Some market
    /\ DRatings.moneyline_edges (model_win_prob_away p) (away_ml_odds market)
         (raw_away_team game) "away" min_edge = Ok away
    /\ DRatings.moneyline_edges (model_win_prob_home p) (home_ml_odds market)
         (raw_home_team game) "home" min_edge = Ok home
    /\ DRatings.r_edges r = (away ++ home)%list
    /\ DRatings.r_edges r <> []
    /\ py_max_list
         (List.map (fun e => Qabs (DRatings.e_edge_percent e))
                   (DRatings.r_edges r))
       = Ok (DRatings.max_edge r).
Proof.
  unfold DRatings.report_of.
  destruct (raw_predictions game) as [p |]; cbn [DRatings.subscript bind];
    [| discriminate].
  destruct (raw_market_data game) as [market |];
    cbn [DRatings.subscript bind]; [| discriminate].
  destruct (DRatings.moneyline_edges (model_win_prob_away p) _ _ _ _)
    as [away | e] eqn:Ea; cbn [bind]; [| discriminate].
  destruct (DRatings.moneyline_edges (model_win_prob_home p) _ _ _ _)
    as [home | e] eqn:Eh; cbn [bind]; [| discriminate].
  cbv zeta. destruct (away ++ home)%list as [| e0 es] eqn:Ees;
    [discriminate |].
  destruct (subscript_cases (raw_away_team game)) as [[a Ha] | Ha];
    rewrite Ha; cbn [bind]; [| discriminate].
  destruct (subscript_cases (raw_home_team game)) as [[h Hh] | Hh];
    rewrite Hh; cbn [bind]; [| discriminate].
  destruct (subscript_cases (raw_date game)) as [[d Hd] | Hd];
    rewrite Hd; cbn [bind]; [| discriminate].
  destruct (py_max_list _) as [m | e] eqn:Em; cbn [bind]; [| discriminate].
  intro H. injection H as <-.
  exists p, market, away, home. cbn [DRatings.r_edges DRatings.max_edge].
  split; [reflexivity |]. split; [reflexivity |]. split; [exact Ea |].
  split; [exact Eh |]. split; [symmetry; exact Ees |].
  split; [discriminate | exact Em].
Qed.

Lemma truthy_int_nonzero (v : pyval Z) (odds : Z) :
  truthy_int v = Some odds -> odds <> 0%Z.
Proof.
  unfold truthy_int. destruct v as [| | z]; try discriminate.
  destruct (truthyZ z) eqn:Ez; [| discriminate].
  intro H. injection H as <-. unfold truthyZ in Ez.
  apply negb_true_iff in Ez. apply Z.eqb_neq. exact Ez.
Qed.

(** When every posted moneyline of the scraped games lies between -100000
    and 100000, every report of the edge finder of dratings carries one or
    two moneyline edges.  Each edge comes from a model probability and odds
    that are both present and not 0; its market probability is the implied
    probability of those odds, which the interpreter computes as a float
    strictly between 0 and 1; its edge percentage is
    (model - market) / market * 100 and reaches [min_edge] in absolute
    value.  The [max_edge] of the report is the largest absolute edge
    percentage of its edges, so it is at least [min_edge]. *)
Theorem dratings_reports_are_well_formed
    (get_predictions : option string -> list raw_game)
    (date : option string) (min_edge : Q) (r : DRatings.report) :
  (forall game market odds,
      In game (get_predictions date) ->
      raw_market_data game = Some market ->
      truthy_int (away_ml_odds market) = Some odds
      \/ truthy_int (home_ml_odds market) = Some odds ->
      (-100000 <= odds <= 100000)%Z) ->
  In r (DRatings.find_edges get_predictions date min_edge) ->
  (1 <= List.length (DRatings.r_edges r) <= 2)%nat
  /\ (forall e,
        In e (DRatings.r_edges r) ->
        DRatings.e_type e = "moneyline"
        /\ ~ DRatings.e_model_prob e == 0
        /\ (exists odds p64,
              odds <> 0%Z
              /\ DRatings.odds_to_probability odds
                 = Ok (DRatings.e_market_prob e)
              /\ Binary64.odds_to_probability odds = Ok p64
              /\ Spec.implied_probability_ok odds p64)
        /\ 0 < DRatings.e_market_prob e /\ DRatings.e_market_prob e < 1
        /\ DRatings.e_edge_percent e
           = (DRatings.e_model_prob e - DRatings.e_market_prob e)
             / DRatings.e_market_prob e * 100
        /\ min_edge <= Qabs (DRatings.e_edge_percent e)
        /\ Qabs (DRatings.e_edge_percent e) <= DRatings.max_edge r)
  /\ (exists e,
        In e (DRatings.r_edges r)
        /\ DRatings.max_edge r = Qabs (DRatings.e_edge_percent e))
  /\ min_edge <= DRatings.max_edge r.
Proof.
  intro Hrange. unfold DRatings.find_edges.
  destruct (DRatings.find_edges_body _ _ _) as [ranked | e] eqn:E;
    [| intros []].
  intro Hr. unfold DRatings.find_edges_body in E. cbv zeta in E.
  destruct (mapM _ _) as [rs | e] eqn:Em; cbn [bind] in E; [| discriminate].
  injection E as <-.
  apply (Permutation_in _ (sort_desc_perm _ _ _)) in Hr.
  apply in_somes in Hr. apply (mapM_in _ _ _ _ Em) in Hr.
  destruct Hr as (game & Hgame & Hrep).
  destruct (dratings_report_of_some _ _ _ Hrep)
    as (p & market & away & home & _ & Hmarket & Ha & Hh & Hes & Hne & Hmax).
  apply dratings_moneyline_edges_form in Ha. destruct Ha as [Hla Ha].
  apply dratings_moneyline_edges_form in Hh. destruct Hh as [Hlh Hh].
  apply py_max_list_spec in Hmax. destruct Hmax as [Hin Hub].
  assert (Hedge : forall e,
             In e (DRatings.r_edges r) ->
             DRatings.e_type e = "moneyline"
             /\ ~ DRatings.e_model_prob e == 0
             /\ (exists odds p64,
                   odds <> 0%Z
                   /\ DRatings.odds_to_probability odds
                      = Ok (DRatings.e_market_prob e)
                   /\ Binary64.odds_to_probability odds = Ok p64
                   /\ Spec.implied_probability_ok odds p64)
             /\ 0 < DRatings.e_market_prob e /\ DRatings.e_market_prob e < 1
             /\ DRatings.e_edge_percent e
                = (DRatings.e_model_prob e - DRatings.e_market_prob e)
                  / DRatings.e_market_prob e * 100
             /\ min_edge <= Qabs (DRatings.e_edge_percent e)
             /\ Qabs (DRatings.e_edge_percent e) <= DRatings.max_edge r).
  { intros e0 He0.
    assert (Hub0 : Qabs (DRatings.e_edge_percent e0) <= DRatings.max_edge r).
    { apply Hub.
      apply (in_map (fun e => Qabs (DRatings.e_edge_percent e))). exact He0. }
    rewrite Hes in He0. apply in_app_or in He0.
    assert (Hside : exists mp odds_v team side odds,
               (odds_v = away_ml_odds market \/ odds_v = home_ml_odds market)
               /\ truthy_float mp = Some (DRatings.e_model_prob e0)
               /\ truthy_int odds_v = Some odds
               /\ DRatings.odds_to_probability odds
                  = Ok (DRatings.e_market_prob e0)
               /\ 0 < DRatings.e_market_prob e0
               /\ DRatings.e_market_prob e0 < 1
               /\ DRatings.e_edge_percent e0
                  = (DRatings.e_model_prob e0 - DRatings.e_market_prob e0)
                    / DRatings.e_market_prob e0 * 100
               /\ min_edge <= Qabs (DRatings.e_edge_percent e0)
               /\ DRatings.e_type e0 = "moneyline"
               /\ DRatings.e_side e0 = side
               /\ team = Some (DRatings.e_team e0)
               /\ DRatings.e_recommended_bet e0
                  = (if Qltb 0 (DRatings.e_edge_percent e0)
                     then "YES" else "NO")).
    { destruct He0 as [He0 | He0].
      - destruct (Ha e0 He0) as (odds & Hrest).
        do 4 eexists. exists odds.
        split; [left; reflexivity | exact Hrest].
      - destruct (Hh e0 He0) as (odds & Hrest).
        do 4 eexists. exists odds.
        split; [right; reflexivity | exact Hrest]. }
    destruct Hside as (mp & odds_v & team & side & odds & Hwhich & Hmp & Hodds
                       & Hq & H0 & H1 & Hval & Hmin & Hty & _).
    assert (Hbound : (-100000 <= odds <= 100000)%Z).
    { apply (Hrange game market odds Hgame Hmarket).
      destruct Hwhich as [-> | ->]; [left | right]; exact Hodds. }
    assert (Hnz : odds <> 0%Z) by exact (truthy_int_nonzero _ _ Hodds).
    destruct (implied_probability_okb_spec odds Hnz
                (implied_probability_okb_checked odds Hbound Hnz))
      as (p64 & Hp64 & Hok).
    split; [exact Hty |]. split.
    - unfold truthy_float in Hmp. destruct mp as [| | q]; try discriminate.
      destruct (truthyQ q) eqn:Eq; [| discriminate].
      injection Hmp as <-. unfold truthyQ in Eq. apply negb_true_iff in Eq.
      apply Qeq_bool_false. exact Eq.
    - split.
      + exists odds, p64. split; [exact Hnz |]. split; [exact Hq |].
        split; [exact Hp64 | exact Hok].
      + repeat split; assumption. }
  split; [| split; [exact Hedge | split]].
  - split.
    + destruct (DRatings.r_edges r); [contradiction | cbn; lia].
    + rewrite Hes, length_app. lia.
  - apply in_map_iff in Hin. destruct Hin as (e0 & Heq & He0).
    exists e0. split; [exact He0 | symmetry; exact Heq].
  - apply in_map_iff in Hin. destruct Hin as (e0 & Heq & He0).
    rewrite <- Heq.
    destruct (Hedge e0 He0) as (_ & _ & _ & _ & _ & _ & Hmin & _).
    exact Hmin.
Qed.

Lemma dratings_reports_are_well_formed_witness :
  (forall game market odds,
      In game [Samples.away_30_priced] ->
      raw_market_data game = Some market ->
      truthy_int (away_ml_odds market) = Some odds
      \/ truthy_int (home_ml_odds market) = Some odds ->
      (-100000 <= odds <= 100000)%Z)
  /\ exists r,
       In r (DRatings.find_edges (fun _ => [Samples.away_30_priced]) None 2)
       /\ (1 <= List.length (DRatings.r_edges r) <= 2)%nat
       /\ 2 <= DRatings.max_edge r.
Proof.
  assert (H : forall game market odds,
             In game [Samples.away_30_priced] ->
             raw_market_data game = Some market ->
             truthy_int (away_ml_odds market) = Some odds
             \/ truthy_int (home_ml_odds market) = Some odds ->
             (-100000 <= odds <= 100000)%Z).
  { intros game market odds [<- | []] Hm Ho. injection Hm as <-.
    destruct Ho as [Ho | Ho]; [| discriminate].
    injection Ho as <-. lia. }
  split; [exact H |].
  eexists. split; [left; reflexivity |].
  match goal with
  | |- (1 <= List.length (DRatings.r_edges ?r) <= 2)%nat /\ _ =>
      destruct (dratings_reports_are_well_formed
                  (fun _ => [Samples.away_30_priced]) None 2 r H
                  (or_introl eq_refl))
        as (H1 & _ & _ & H2)
  end.
  split; [exact H1 | exact H2].
Defined.

Lemma Qltb_asym (a b : Q) : Qltb a b = true -> Qltb b a = false.
Proof.
  intro H. apply Qltb_true in H. apply Qltb_false. lra.
Qed.

Lemma Qltb_cotrans (a b c : Q) :
  Qltb a b = false -> Qltb b c = false -> Qltb a c = false.
Proof.
  rewrite !Qltb_false. intros. lra.
Qed.

(** The reports of the edge finder of dratings come out in descending
    order of [max_edge]. *)
Theorem dratings_find_edges_is_sorted
    (get_predictions : option string -> list raw_game)
    (date : option string) (min_edge : Q) :
  StronglySorted
    (fun r1 r2 => DRatings.max_edge r2 <= DRatings.max_edge r1)
    (DRatings.find_edges get_predictions date min_edge).
Proof.
  unfold DRatings.find_edges.
  destruct (DRatings.find_edges_body _ _ _) as [ranked | e] eqn:E;
    [| constructor].
  unfold DRatings.find_edges_body in E. cbv zeta in E.
  destruct (mapM _ _) as [rs | e]; cbn [bind] in E; [| discriminate].
  injection E as <-.
  apply strongly_sorted_impl
    with (R := fun r1 r2 =>
                 Qltb (DRatings.max_edge r1) (DRatings.max_edge r2) = false).
  - intros a b H. apply Qltb_false in H. exact H.
  - apply sort_desc_sorted.
    + intros a b. apply Qltb_asym.
    + intros a b c. apply Qltb_cotrans.
Qed.

(** ** The backtest *)

Section Backtest.
Variable np_sqrt : Q -> Q.
Variables today tomorrow : string.
Variable run_script : string -> list string -> fetched.
Variable strptime : string -> option Z.
Variable strftime : Z -> string.
Variable last_day : Z.

Let loop :=
  EdgeFinder.backtest_loop np_sqrt today tomorrow run_script strftime last_day.
Let edges_of (date : string) (sources : option (list string)) :=
  EdgeFinder.find_edges np_sqrt today tomorrow run_script (Some date) sources 2.

Lemma backtest_loop_totals (sources : option (list string)) (n : nat) :
  forall current results r,
    loop sources n current results = Some r ->
    EdgeFinder.bt_period r = EdgeFinder.bt_period results
    /\ EdgeFinder.profitable_edges r = EdgeFinder.profitable_edges results
    /\ EdgeFinder.total_roi r = EdgeFinder.total_roi results
    /\ exists days,
         EdgeFinder.daily_results r
         = (EdgeFinder.daily_results results ++ days)%list
         /\ List.map EdgeFinder.dr_date days
            = List.map (fun k => strftime (current + Z.of_nat k)%Z) (seq 0 n)
         /\ EdgeFinder.total_edges_found r
            = (EdgeFinder.total_edges_found results
               + list_sum (List.map EdgeFinder.dr_edges_found days))%nat
         /\ forall d,
              In d days ->
              EdgeFinder.dr_edges_found d
              = List.length (edges_of (EdgeFinder.dr_date d) sources)
              /\ EdgeFinder.dr_max_edge d
                 = EdgeFinder.py_max_default
                     (List.map EdgeFinder.max_edge
                        (edges_of (EdgeFinder.dr_date d) sources)) 0.
Proof using Type.
  induction n as [| n IH]; intros current results r H.
  - cbn in H. injection H as <-.
    split; [reflexivity |]. split; [reflexivity |]. split; [reflexivity |].
    exists []. rewrite app_nil_r. cbn. repeat split; try lia; intros d [].
  - unfold loop in H. cbn [EdgeFinder.backtest_loop] in H. cbv zeta in H.
    destruct (current =? last_day)%Z; [discriminate |].
    fold loop in H. apply IH in H.
    destruct H as (Hp & Hpe & Hroi & days & Hdays & Hdates & Htot & Hall).
    cbn [EdgeFinder.backtest_day EdgeFinder.bt_period
         EdgeFinder.profitable_edges EdgeFinder.total_roi
         EdgeFinder.daily_results EdgeFinder.total_edges_found] in *.
    unfold EdgeFinder.backtest_day in *. cbn in Hp, Hpe, Hroi, Hdays, Htot.
    split; [exact Hp |]. split; [exact Hpe |]. split; [exact Hroi |].
    eexists (_ :: days). split; [| split; [| split]].
    + rewrite Hdays, <- app_assoc. reflexivity.
    + cbn [List.map seq EdgeFinder.dr_date]. rewrite Z.add_0_r. f_equal.
      rewrite Hdates, <- seq_shift, map_map. apply map_ext. intro k.
      f_equal. lia.
    + cbn [List.map EdgeFinder.dr_edges_found]. rewrite Htot.
      unfold list_sum. cbn [fold_right]. lia.
    + intros d [<- | Hd]; [split; reflexivity | apply Hall; exact Hd].
Qed.

Lemma backtest_loop_completes (sources : option (list string)) (n : nat) :
  forall current results,
    n = 0%nat \/ (current + Z.of_nat n <= last_day)%Z ->
    exists r, loop sources n current results = Some r.
Proof using Type.
  induction n as [| n IH]; intros current results H.
  - eexists. reflexivity.
  - destruct H as [H | H]; [discriminate |].
    unfold loop. cbn [EdgeFinder.backtest_loop]. cbv zeta.
    destruct (Z.eqb_spec current last_day) as [E | E]; [lia |].
    apply IH. right. lia.
Qed.

Lemma backtest_loop_overflows (sources : option (list string)) (n : nat) :
  forall current results,
    (current + Z.of_nat n = last_day)%Z ->
    loop sources (S n) current results = None.
Proof using Type.
  induction n as [| n IH]; intros current results H.
  - unfold loop. cbn [EdgeFinder.backtest_loop]. cbv zeta.
    destruct (Z.eqb_spec current last_day) as [E | E]; [reflexivity | lia].
  - unfold loop. cbn [EdgeFinder.backtest_loop]. cbv zeta.
    destruct (Z.eqb_spec current last_day) as [E | E]; [reflexivity |].
    apply IH. lia.
Qed.
End Backtest.

(** A start or end date that the date library cannot read makes
    [backtest] return the empty dictionary. *)
Theorem backtest_rejects_unreadable_dates (np_sqrt : Q -> Q)
    (today tomorrow : string) (run_script : string -> list string -> fetched)
    (strptime : string -> option Z) (strftime : Z -> string) (last_day : Z)
    (start_date : string) (end_date : option string)
    (sources : option (list string)) :
  strptime start_date = None
  \/ strptime (match end_date with Some d => d | None => today end) = None ->
  EdgeFinder.backtest np_sqrt today tomorrow run_script
    strptime strftime last_day start_date end_date sources = None.
Proof.
  intro H. unfold EdgeFinder.backtest. cbv zeta.
  destruct (strptime start_date) as [start |]; [| reflexivity].
  destruct H as [H | H]; [discriminate |].
  destruct end_date as [d |]; rewrite H; reflexivity.
Qed.

Lemma backtest_rejects_unreadable_dates_witness :
  (fun s : string => if String.eqb s "2025-03-01" then Some 0%Z else None)
    "yesterday" = None
  /\ EdgeFinder.backtest (fun x => x) "2026-03-15" "2026-03-16"
       Samples.two_games
       (fun s => if String.eqb s "2025-03-01" then Some 0%Z else None)
       (fun _ => "2025-03-01") 1000
       "yesterday" (Some "2025-03-01") None = None.
Proof.
  split; [reflexivity |].
  apply (backtest_rejects_unreadable_dates (fun x => x)
           "2026-03-15" "2026-03-16" Samples.two_games
           (fun s => if String.eqb s "2025-03-01" then Some 0%Z else None)
           (fun _ => "2025-03-01") 1000 "yesterday" (Some "2025-03-01") None).
  left. reflexivity.
Defined.

(** What a completed backtest holds: one daily entry for every day from
    the start to the end date, in order; for each day the number of reports
    that [find_edges] gives for that day at the threshold 2.0, and the
    largest [max_edge] among them, or 0 when there is none;
    [total_edges_found] is the sum of the daily numbers; and
    [profitable_edges] and [total_roi] are 0, because nothing computes
    them. *)
Theorem backtest_totals (np_sqrt : Q -> Q)
    (today tomorrow : string) (run_script : string -> list string -> fetched)
    (strptime : string -> option Z) (strftime : Z -> string) (last_day : Z)
    (start_date : string) (end_date : option string)
    (sources : option (list string)) (start end_ : Z)
    (r : EdgeFinder.backtest_result) :
  strptime start_date = Some start ->
  strptime (match end_date with Some d => d | None => today end) = Some end_ ->
  EdgeFinder.backtest np_sqrt today tomorrow run_script
    strptime strftime last_day start_date end_date sources = Some r ->
  EdgeFinder.profitable_edges r = 0%nat
  /\ EdgeFinder.total_roi r = 0
  /\ List.map EdgeFinder.dr_date (EdgeFinder.daily_results r)
     = List.map (fun k => strftime (start + Z.of_nat k)%Z)
                (seq 0 (Z.to_nat (end_ - start + 1)))
  /\ EdgeFinder.total_edges_found r
     = list_sum (List.map EdgeFinder.dr_edges_found
                          (EdgeFinder.daily_results r))
  /\ forall d,
       In d (EdgeFinder.daily_results r) ->
       EdgeFinder.dr_edges_found d
       = List.length
           (EdgeFinder.find_edges np_sqrt today tomorrow run_script
              (Some (EdgeFinder.dr_date d)) sources 2)
       /\ EdgeFinder.dr_max_edge d
          = EdgeFinder.py_max_default
              (List.map EdgeFinder.max_edge
                 (EdgeFinder.find_edges np_sqrt today tomorrow run_script
                    (Some (EdgeFinder.dr_date d)) sources 2)) 0.
Proof.
  intros Hs He. unfold EdgeFinder.backtest. cbv zeta. rewrite Hs.
  assert (He' : strptime (match end_date with
                          | Some d => d
                          | None => today
                          end) = Some end_) by exact He.
  destruct end_date as [d |]; rewrite He'; intro H;
    apply backtest_loop_totals in H;
    destruct H as (_ & Hpe & Hroi & days & Hdays & Hdates & Htot & Hall);
    cbn [EdgeFinder.daily_results EdgeFinder.total_edges_found
         EdgeFinder.profitable_edges EdgeFinder.total_roi app] in *;
    rewrite Hdays; repeat split; try assumption; apply Hall; assumption.
Qed.

(** [backtest] completes whenever both dates can be read and the end
    date is before the last day of the calendar or before the start date;
    an end date before the start date gives no daily entry.  When the range
    reaches the last day of the calendar, the step to the next day
    overflows and the result is the empty dictionary. *)
Theorem backtest_completes (np_sqrt : Q -> Q)
    (today tomorrow : string) (run_script : string -> list string -> fetched)
    (strptime : string -> option Z) (strftime : Z -> string) (last_day : Z)
    (start_date end_date : string) (sources : option (list string))
    (start end_ : Z) :
  strptime start_date = Some start ->
  strptime end_date = Some end_ ->
  ((end_ < last_day \/ end_ < start)%Z ->
   exists r,
     EdgeFinder.backtest np_sqrt today tomorrow run_script
       strptime strftime last_day start_date (Some end_date) sources = Some r
     /\ List.length (EdgeFinder.daily_results r)
        = Z.to_nat (end_ - start + 1))
  /\ ((start <= end_)%Z -> end_ = last_day ->
      EdgeFinder.backtest np_sqrt today tomorrow run_script
        strptime strftime last_day start_date (Some end_date) sources = None).
Proof.
  intros Hs He. unfold EdgeFinder.backtest. cbv zeta. rewrite Hs, He. split.
  - intro Hrange.
    match goal with
    | |- exists r, EdgeFinder.backtest_loop _ _ _ _ _ _ ?src ?n ?cur ?res
                   = Some r /\ _ =>
        destruct (backtest_loop_completes np_sqrt today tomorrow run_script
                    strftime last_day src n cur res) as [r Hr]
    end.
    { destruct (Z.le_gt_cases start end_) as [Hle | Hgt]; [| left; lia].
      destruct Hrange as [H | H]; [right; lia | lia]. }
    exists r. split; [exact Hr |].
    apply backtest_loop_totals in Hr.
    destruct Hr as (_ & _ & _ & days & Hdays & Hdates & _).
    cbn [EdgeFinder.daily_results app] in Hdays. rewrite Hdays.
    rewrite <- (length_map EdgeFinder.dr_date), Hdates, length_map,
      length_seq.
    reflexivity.
  - intros Hle Hlast.
    replace (Z.to_nat (end_ - start + 1))
      with (S (Z.to_nat (end_ - start))) by lia.
    apply backtest_loop_overflows. lia.
Qed.

Lemma backtest_completes_witness :
  exists r,
    EdgeFinder.backtest (fun x => x) "2026-03-15" "2026-03-16"
      Samples.two_games
      (fun s => if String.eqb s "2026-03-15" then Some 0%Z
                else if String.eqb s "2026-03-16" then Some 1%Z else None)
      (fun d => if (d =? 0)%Z then "2026-03-15" else "2026-03-16") 1000
      "2026-03-15" (Some "2026-03-16") (Some ["dratings"]) = Some r
    /\ List.length (EdgeFinder.daily_results r) = Z.to_nat (1 - 0 + 1).
Proof.
  apply (proj1 (backtest_completes (fun x => x) "2026-03-15" "2026-03-16"
                  Samples.two_games
                  (fun s => if String.eqb s "2026-03-15" then Some 0%Z
                            else if String.eqb s "2026-03-16" then Some 1%Z
                            else None)
                  (fun d => if (d =? 0)%Z then "2026-03-15" else "2026-03-16")
                  1000 "2026-03-15" "2026-03-16" (Some ["dratings"]) 0 1
                  eq_refl eq_refl)).
  left. reflexivity.
Defined.

Lemma backtest_totals_witness :
  exists r,
    EdgeFinder.backtest (fun x => x) "2026-03-15" "2026-03-16"
      Samples.two_games
      (fun s => if String.eqb s "2026-03-15" then Some 0%Z
                else if String.eqb s "2026-03-16" then Some 1%Z else None)
      (fun d => if (d =? 0)%Z then "2026-03-15" else "2026-03-16") 1000
      "2026-03-15" (Some "2026-03-16") (Some ["dratings"]) = Some r
    /\ EdgeFinder.profitable_edges r = 0%nat
    /\ EdgeFinder.total_edges_found r = 4%nat.
Proof.
  eexists. split; [vm_compute; reflexivity |].
  split.
  - match goal with
    | |- EdgeFinder.profitable_edges ?r = _ =>
        exact (proj1 (backtest_totals (fun x => x) "2026-03-15" "2026-03-16"
                        Samples.two_games
                        (fun s => if String.eqb s "2026-03-15" then Some 0%Z
                                  else if String.eqb s "2026-03-16"
                                       then Some 1%Z else None)
                        (fun d => if (d =? 0)%Z then "2026-03-15"
                                  else "2026-03-16")
                        1000 "2026-03-15" (Some "2026-03-16")
                        (Some ["dratings"]) 0 1 r eq_refl eq_refl eq_refl))
    end.
  - reflexivity.
Defined.
